(** * crawl-lyrics: a shallow embedding of the discography crawler

    The development follows the layout of the Python sources:

    - [Py]            the fragment of the Python runtime the sources rely on
                      (JSON values, truthiness, [in], [int], exceptions);
    - [Task]          awaited operations as state passing with exceptions;
    - [Track], [Album], [Artist], [Discography], [CrawlStatus]
                      src/models/discography.py;
    - [RateLimiter], [RetryManager], [BaseCrawler]
                      src/crawlers/base_crawler.py;
    - [MusicBrainzClient]   src/services/musicbrainz_client.py;
    - [DiscographyCrawler]  src/discography_crawler.py;
    - [LyricsMetadataClient] src/services/lyrics_metadata_client.py.

    Definitions come first, the theorems about them afterwards. *)

From Stdlib Require Import ZArith QArith List String Ascii Bool Lia.
From Stdlib Require Import Sorted Permutation SpecFloat Lqa.
Import ListNotations.

Local Open Scope string_scope.
Local Open Scope Z_scope.

(* ================================================================== *)
(** * The Python fragment *)
(* ================================================================== *)

Module Py.

(** Values decoded from JSON ([response.json()], the musicbrainzngs
    dictionaries).  A [dict] is kept as an association list searched from
    the left; its keys are strings, as JSON has them. *)
#[warnings="-register-all"]
Inductive PyVal : Type :=
| PNone
| PBool (b : bool)
| PInt (z : Z)
| PFloat (f : spec_float)
| PStr (s : string)
| PList (l : list PyVal)
| PDict (d : list (string * PyVal)).

(** [bool(v)]. *)
Definition truthy (v : PyVal) : bool :=
  match v with
  | PNone => false
  | PBool b => b
  | PInt z => negb (z =? 0)
  | PFloat f => match f with S754_zero _ => false | _ => true end
  | PStr s => negb (s =? "")%string
  | PList l => match l with [] => false | _ => true end
  | PDict d => match d with [] => false | _ => true end
  end.

(** The exception classes the sources raise, catch or let through.
    [CancelledError] and [KeyboardInterrupt] derive from [BaseException]
    only; every other class derives from [Exception]. *)
Inductive ExnClass : Type :=
| ValueError | TypeError | OverflowError | AttributeError
| KeyError | IndexError
| CrawlerError
| OtherException (name : string)
| CancelledError | KeyboardInterrupt.

(** An exception object: its class and what [str(e)] gives. *)
Record Exn : Type := mkExn { exn_class : ExnClass; exn_str : string }.

(** [isinstance(e, Exception)], the test behind [except Exception]. *)
Definition is_Exception (e : Exn) : bool :=
  match exn_class e with
  | CancelledError | KeyboardInterrupt => false
  | _ => true
  end.

(** The test behind [except (ValueError, TypeError)]. *)
Definition is_ValueError_or_TypeError (e : Exn) : bool :=
  match exn_class e with
  | ValueError | TypeError => true
  | _ => false
  end.

(** The test behind [except (ValueError, IndexError)]. *)
Definition is_ValueError_or_IndexError (e : Exn) : bool :=
  match exn_class e with
  | ValueError | IndexError => true
  | _ => false
  end.

(** How an evaluation ends: with a value, with a raised exception, blocked
    for ever, or (for the one recursive model that carries fuel) with the
    fuel used up. *)
Inductive Outcome (A : Type) : Type :=
| Ret (a : A)
| Raise (e : Exn)
| Hang
| OutOfFuel.
Arguments Ret {A} a.
Arguments Raise {A} e.
Arguments Hang {A}.
Arguments OutOfFuel {A}.

(** Exceptions of the runtime; the message texts are only ever logged. *)
Definition type_error : Exn := mkExn TypeError "TypeError".
Definition value_error : Exn := mkExn ValueError "ValueError".
Definition overflow_error : Exn := mkExn OverflowError "OverflowError".
Definition attribute_error : Exn := mkExn AttributeError "AttributeError".
Definition key_error : Exn := mkExn KeyError "KeyError".
Definition index_error : Exn := mkExn IndexError "IndexError".
(** pydantic's [ValidationError] is a [ValueError]. *)
Definition validation_error : Exn := mkExn ValueError "ValidationError".

(** Sequencing of pure, fallible evaluations. *)
Definition obind {A B} (o : Outcome A) (k : A -> Outcome B) : Outcome B :=
  match o with
  | Ret a => k a
  | Raise e => Raise e
  | Hang => Hang
  | OutOfFuel => OutOfFuel
  end.

(** [d.get(k)] on a dictionary's items. *)
Fixpoint lookup (k : string) (d : list (string * PyVal)) : option PyVal :=
  match d with
  | [] => None
  | (k', v) :: d' => if (k =? k')%string then Some v else lookup k d'
  end.

(** [needle in hay] for two strings. *)
Fixpoint contains (needle hay : string) : bool :=
  prefix needle hay ||
  match hay with
  | EmptyString => false
  | String _ hay' => contains needle hay'
  end.

Definition is_str (k : string) (v : PyVal) : bool :=
  match v with PStr s => (s =? k)%string | _ => false end.

(** [k in v] for a string [k]: key membership in a dict, element equality
    in a list, substring in a string, [TypeError] for what is not a
    container. *)
Definition py_in (k : string) (v : PyVal) : Outcome bool :=
  match v with
  | PDict d => Ret (match lookup k d with Some _ => true | None => false end)
  | PList l => Ret (existsb (is_str k) l)
  | PStr s => Ret (contains k s)
  | PNone | PBool _ | PInt _ | PFloat _ => Raise type_error
  end.

(** [v[k]] for a string [k]: only a dict can be subscripted by a string. *)
Definition subscript (v : PyVal) (k : string) : Outcome PyVal :=
  match v with
  | PDict d => match lookup k d with Some x => Ret x | None => Raise key_error end
  | _ => Raise type_error
  end.

(** [v.get(k, default)]: only a dict has the method. *)
Definition get (v : PyVal) (k : string) (default : PyVal) : Outcome PyVal :=
  match v with
  | PDict d => Ret (match lookup k d with Some x => x | None => default end)
  | _ => Raise attribute_error
  end.

(** [int(f)] for a float: truncation towards zero. *)
Definition trunc_float (f : spec_float) : Outcome Z :=
  match f with
  | S754_zero _ => Ret 0
  | S754_infinity _ => Raise overflow_error
  | S754_nan => Raise value_error
  | S754_finite s m e =>
      let mag := match e with
                 | Z0 => Z.pos m
                 | Zpos p => Z.pos m * 2 ^ Z.pos p
                 | Zneg p => Z.pos m / 2 ^ Z.pos p
                 end in
      Ret (if s then - mag else mag)
  end.

(** Iterating over a value ([for x in v]): the elements of a list, the keys
    of a dict, the characters of a string. *)
Fixpoint chars (s : string) : list PyVal :=
  match s with
  | EmptyString => []
  | String c s' => PStr (String c EmptyString) :: chars s'
  end.

Definition iter (v : PyVal) : Outcome (list PyVal) :=
  match v with
  | PList l => Ret l
  | PDict d => Ret (map (fun kv => PStr (fst kv)) d)
  | PStr s => Ret (chars s)
  | PNone | PBool _ | PInt _ | PFloat _ => Raise type_error
  end.

(** [str.isspace] on the characters below 256. *)
Definition isspace (c : ascii) : bool :=
  let n := nat_of_ascii c in
  ((9 <=? n) && (n <=? 13) || (28 <=? n) && (n <=? 32)
   || (n =? 133) || (n =? 160))%nat.

(** [s.split()]: the maximal runs of non-space characters. *)
Fixpoint split_ws_aux (cur : string) (s : string) : list string :=
  match s with
  | EmptyString => match cur with EmptyString => [] | _ => [cur] end
  | String c s' =>
      if isspace c
      then match cur with
           | EmptyString => split_ws_aux EmptyString s'
           | _ => cur :: split_ws_aux EmptyString s'
           end
      else split_ws_aux (cur ++ String c EmptyString) s'
  end.

Definition split_ws (s : string) : list string := split_ws_aux EmptyString s.

(** [s.split(sep)] for a one-character separator: always at least one
    field. *)
Fixpoint split_on_aux (sep : ascii) (cur : string) (s : string) : list string :=
  match s with
  | EmptyString => [cur]
  | String c s' =>
      if Ascii.eqb c sep
      then cur :: split_on_aux sep EmptyString s'
      else split_on_aux sep (cur ++ String c EmptyString) s'
  end.

Definition split_on (sep : ascii) (s : string) : list string :=
  split_on_aux sep EmptyString s.

(** [' '.join(words)]. *)
Fixpoint join_sp (words : list string) : string :=
  match words with
  | [] => ""
  | [w] => w
  | w :: rest => w ++ " " ++ join_sp rest
  end.

(** [sum(xs)] starts from 0 and adds from the left. *)
Definition sum (xs : list Z) : Z := fold_left Z.add xs 0.

(** [a < b] on rationals, as a boolean. *)
Definition Qltb (a b : Q) : bool := negb (Qle_bool b a).

(** [min(xs)]: the first smallest element; [ValueError] on an empty list. *)
Fixpoint min_from (m : Q) (xs : list Q) : Q :=
  match xs with
  | [] => m
  | x :: xs' => min_from (if Qltb x m then x else m) xs'
  end.

Definition min (xs : list Q) : Outcome Q :=
  match xs with
  | [] => Raise value_error
  | x :: xs' => Ret (min_from x xs')
  end.

(** [min(a, b)] keeps [a] unless [b] is strictly smaller. *)
Definition min2 (a b : Q) : Q := if Qltb b a then b else a.

End Py.
Export Py.

(* ================================================================== *)
(** * Awaited operations *)
(* ================================================================== *)

(** A coroutine that is awaited to its end acts on the state it can reach
    and ends in an [Outcome].  The crawl is one logical task (no fan-out),
    so awaiting is sequencing. *)
Module Task.

Definition t (S A : Type) : Type := S -> Outcome A * S.

Definition ret {S A} (a : A) : t S A := fun s => (Ret a, s).

Definition raise {S A} (e : Exn) : t S A := fun s => (Raise e, s).

Definition pure {S A} (o : Outcome A) : t S A := fun s => (o, s).

Definition bind {S A B} (m : t S A) (k : A -> t S B) : t S B :=
  fun s =>
    match m s with
    | (Ret a, s') => k a s'
    | (Raise e, s') => (Raise e, s')
    | (Hang, s') => (Hang, s')
    | (OutOfFuel, s') => (OutOfFuel, s')
    end.

(** [try: body / except <classes> as e: handler e]. *)
Definition try_except {S A} (body : t S A) (catches : Exn -> bool)
    (handler : Exn -> t S A) : t S A :=
  fun s =>
    match body s with
    | (Raise e, s') => if catches e then handler e s' else (Raise e, s')
    | r => r
    end.

(** Reading and updating the state. *)
Definition gets {S A} (f : S -> A) : t S A := fun s => (Ret (f s), s).

Definition modify {S} (f : S -> S) : t S unit := fun s => (Ret tt, f s).

(** An operation on the world run from a task that also owns an object. *)
Definition on_world {C W A} (m : t W A) : t (C * W) A :=
  fun s =>
    let (o, w') := m (snd s) in (o, (fst s, w')).

End Task.

Declare Scope task_scope.
Delimit Scope task_scope with task.
Notation "x <- m ;; k" := (Task.bind m (fun x => k))
  (at level 61, m at next level, right associativity) : task_scope.
Notation "m ;;; k" := (Task.bind m (fun _ => k))
  (at level 61, right associativity) : task_scope.

Declare Scope outcome_scope.
Delimit Scope outcome_scope with outcome.
Notation "x <~ o ;; k" := (Py.obind o (fun x => k))
  (at level 61, o at next level, right associativity) : outcome_scope.

(** [\[f x for x in xs\]] for a fallible [f], evaluated left to right. *)
Fixpoint omap {A B} (f : A -> Outcome B) (xs : list A) : Outcome (list B) :=
  match xs with
  | [] => Ret []
  | x :: xs' =>
      (y <~ f x ;; ys <~ omap f xs' ;; Ret (y :: ys))%outcome
  end.

(* ================================================================== *)
(** * src/models/discography.py *)
(* ================================================================== *)

(** [datetime.date]: the constructor refuses what is not a calendar day
    of the years 1 to 9999. *)
Module Date.

Record t : Type := mk { year : Z; month : Z; day : Z }.

Definition is_leap (y : Z) : bool :=
  ((y mod 4 =? 0) && negb (y mod 100 =? 0)) || (y mod 400 =? 0).

Definition days_in_month (y m : Z) : Z :=
  if m =? 2 then (if is_leap y then 29 else 28)
  else if (m =? 4) || (m =? 6) || (m =? 9) || (m =? 11) then 30
  else 31.

(** The arguments are read as C ints. *)
Definition fits_c_int (z : Z) : bool :=
  (- 2147483648 <=? z) && (z <=? 2147483647).

(** [date(y, m, d)]: [OverflowError] for an argument that is no C int,
    [ValueError] for what is no calendar day. *)
Definition make (y m d : Z) : Outcome t :=
  if negb (fits_c_int y && fits_c_int m && fits_c_int d)
  then Raise overflow_error
  else if (1 <=? y) && (y <=? 9999) && (1 <=? m) && (m <=? 12)
          && (1 <=? d) && (d <=? days_in_month y m)
  then Ret (mk y m d) else Raise value_error.

End Date.

Module Track.

Record t : Type := mk {
  title : string;
  track_number : Z;
  duration_ms : option Z;
  isrc : option string;
  preview_available : bool;
  explicit : bool;
  lyrics_reference : option PyVal;
  genius_url : option string
}.

Definition with_duration_ms (d : option Z) (tr : t) : t :=
  mk (title tr) (track_number tr) d (isrc tr) (preview_available tr)
     (explicit tr) (lyrics_reference tr) (genius_url tr).

End Track.

(** pydantic does not validate on attribute assignment, so after a merge
    [label] and [genre] hold whatever the payload carried: they are kept as
    Python values ([PNone] for the absent label). *)
Module Album.

Record t : Type := mk {
  title : string;
  release_date : option Date.t;
  release_year : option Z;
  album_type : string;
  label : PyVal;
  catalog_number : option string;
  tracks : list Track.t;
  musicbrainz_id : option string;
  spotify_id : option string;
  lastfm_id : option string;
  genre : option (list PyVal);
  country : option string
}.

(** The validator of [release_year]. *)
Definition extract_year_from_date (v : option Z) (release_date : option Date.t)
  : option Z :=
  match v, release_date with
  | None, Some d => Some (Date.year d)
  | _, _ => v
  end.

Definition track_count (a : t) : Z := Z.of_nat (List.length (tracks a)).

Definition with_genre (g : option (list PyVal)) (a : t) : t :=
  mk (title a) (release_date a) (release_year a) (album_type a) (label a)
     (catalog_number a) (tracks a) (musicbrainz_id a) (spotify_id a)
     (lastfm_id a) g (country a).

Definition with_label (l : PyVal) (a : t) : t :=
  mk (title a) (release_date a) (release_year a) (album_type a) l
     (catalog_number a) (tracks a) (musicbrainz_id a) (spotify_id a)
     (lastfm_id a) (genre a) (country a).

Definition with_tracks (ts : list Track.t) (a : t) : t :=
  mk (title a) (release_date a) (release_year a) (album_type a) (label a)
     (catalog_number a) ts (musicbrainz_id a) (spotify_id a)
     (lastfm_id a) (genre a) (country a).

End Album.

Module Artist.

Record t : Type := mk {
  name : string;
  sort_name : option string;
  disambiguation : option string;
  musicbrainz_id : option string;
  spotify_id : option string;
  lastfm_id : option string;
  country : option string;
  begin_date : option Date.t;
  end_date : option Date.t;
  artist_type : option string;
  gender : option string
}.

End Artist.

Module Discography.

Record t : Type := mk {
  artist : Artist.t;
  albums : list Album.t;
  crawled_at : Q;
  sources : list string;
  metadata : PyVal
}.

Definition total_albums (d : t) : Z := Z.of_nat (List.length (albums d)).

Definition total_tracks (d : t) : Z :=
  Py.sum (map Album.track_count (albums d)).

Definition with_sources (s : list string) (d : t) : t :=
  mk (artist d) (albums d) (crawled_at d) s (metadata d).

End Discography.

Module CrawlStatus.

Record t : Type := mk {
  artist_name : string;
  started_at : Q;
  completed_at : option Q;
  status : string;
  albums_found : Z;
  tracks_found : Z;
  errors : list string;
  sources_used : list string
}.

(** [CrawlStatus(artist_name=...)] at time [now]. *)
Definition new (artist_name : string) (now : Q) : t :=
  mk artist_name now None "in_progress" 0 0 [] [].

Definition with_albums_found (n : Z) (s : t) : t :=
  mk (artist_name s) (started_at s) (completed_at s) (status s) n
     (tracks_found s) (errors s) (sources_used s).

Definition with_tracks_found (n : Z) (s : t) : t :=
  mk (artist_name s) (started_at s) (completed_at s) (status s)
     (albums_found s) n (errors s) (sources_used s).

Definition mark_completed (now : Q) (s : t) : t :=
  mk (artist_name s) (started_at s) (Some now) "completed"
     (albums_found s) (tracks_found s) (errors s) (sources_used s).

Definition mark_failed (now : Q) (error : string) (s : t) : t :=
  mk (artist_name s) (started_at s) (Some now) "failed"
     (albums_found s) (tracks_found s) (errors s ++ [error]) (sources_used s).

End CrawlStatus.

(* ================================================================== *)
(** * What the sources take from outside *)
(* ================================================================== *)

(** The event loop and the interpreter.  [World] is everything outside the
    crawler's own objects (the clock, the network, the providers); the
    builtins whose exact tables are the interpreter's are left open:
    [int(s)] on a string ([None] for its [ValueError]), pydantic's
    validator of a [str] field ([None] for its [ValidationError]),
    [str.lower], and the text [format] gives for a value that is not a
    string. *)
Class Runtime : Type := {
  World : Type;
  time_time : World -> Q;
  datetime_now : World -> Q;
  asyncio_sleep : Q -> World -> World;
  int_of_str : string -> option Z;
  str_validator : PyVal -> option string;
  str_lower : string -> string;
  format_other : PyVal -> string
}.

(** The calls that leave the process: the three musicbrainzngs functions
    (run in the executor) and [LastFmClient.get_album_info] with its API
    key, artist name and album name. *)
Class Services (R : Runtime) : Type := {
  mb_search_artists : string -> Task.t World PyVal;
  mb_browse_release_groups : option string -> Task.t World PyVal;
  mb_get_release_by_id : PyVal -> Task.t World PyVal;
  lastfm_get_album_info : string -> string -> string -> Task.t World PyVal
}.

(* ================================================================== *)
(** * src/crawlers/base_crawler.py *)
(* ================================================================== *)

Module RateLimiter.

(** [_lock] is the [asyncio.Lock]: [true] while some activation of
    [acquire] is inside its [async with] block. *)
Record t : Type := mk {
  max_requests : Z;
  time_window : Z;
  requests : list Q;
  _lock : bool
}.

Definition new (max_requests time_window : Z) : t :=
  mk max_requests time_window [] false.

Definition with_requests (r : list Q) (self : t) : t :=
  mk (max_requests self) (time_window self) r (_lock self).

Definition with_lock (b : bool) (self : t) : t :=
  mk (max_requests self) (time_window self) (requests self) b.

Section Acquire.
Context {R : Runtime}.

(** [acquire].  Entering [async with self._lock] while the lock is held
    waits for a release; the crawl being a single task, the holder is an
    enclosing activation that is itself waiting for this one, so the wait
    never ends.  The recursion of the source is followed with fuel. *)
Fixpoint acquire_fuel (fuel : nat) (self : t) (w : World)
  : Outcome unit * (t * World) :=
  match fuel with
  | O => (OutOfFuel, (self, w))
  | S fuel' =>
      if _lock self then (Hang, (self, w))
      else
        let self := with_lock true self in
        let now := time_time w in
        let self :=
          with_requests
            (filter (fun req_time =>
                       Qltb (now - req_time) (inject_Z (time_window self)))
                    (requests self)) self in
        if Z.of_nat (List.length (requests self)) >=? max_requests self
        then
          match Py.min (requests self) with
          | Ret oldest_request =>
              let sleep_time :=
                (inject_Z (time_window self) - (now - oldest_request))%Q in
              if Qltb 0 sleep_time
              then
                let w := asyncio_sleep sleep_time w in
                match acquire_fuel fuel' self w with
                | (Ret r, (self', w')) => (Ret r, (with_lock false self', w'))
                | (Raise e, (self', w')) => (Raise e, (with_lock false self', w'))
                | (Hang, s) => (Hang, s)
                | (OutOfFuel, s) => (OutOfFuel, s)
                end
              else
                (Ret tt,
                 (with_lock false
                    (with_requests (requests self ++ [now]) self), w))
          | Raise e => (Raise e, (with_lock false self, w))
          | Hang => (Hang, (self, w))
          | OutOfFuel => (OutOfFuel, (self, w))
          end
        else
          (Ret tt,
           (with_lock false (with_requests (requests self ++ [now]) self), w))
  end.

(** The requests that [acquire] keeps at time [now]. *)
Definition in_window (self : t) (now : Q) : list Q :=
  filter (fun req_time => Qltb (now - req_time) (inject_Z (time_window self)))
         (requests self).

(** Two levels are all the recursion can use: the inner activation finds
    the lock held (see [acquire_fuel_enough] below). *)
Definition acquire : Task.t (t * World) unit :=
  fun s => acquire_fuel 2 (fst s) (snd s).

End Acquire.

End RateLimiter.

Module RetryManager.

Record t : Type := mk {
  max_retries : Z;
  base_delay : Q;
  max_delay : Q
}.

Definition new (max_retries : Z) : t := mk max_retries 1 60.

(** The value of [min(self.base_delay * (2 ** attempt), self.max_delay)]
    when the product can be formed.  Both delays are floats, as annotated
    and as every caller has them, read as the rationals they are.  The
    product of a float with a power of two is exact while it stays in the
    range of floats; above the range it is [inf] and the minimum is
    [max_delay], as here; below the range (which takes a negative
    [base_delay]) the float is [-inf], where this has the exact product:
    one more delay that is not positive. *)
Definition backoff (self : t) (attempt : Z) : Q :=
  Py.min2 (base_delay self * inject_Z (2 ^ attempt))%Q (max_delay self).

(** The largest exponent [e] for which [float(2 ** e)] exists. *)
Definition float_max_exponent : Z := 1023.

(** The [OverflowError] of [float(2 ** 1024)]. *)
Definition int_too_large : Exn :=
  mkExn OverflowError "int too large to convert to float".

(** [delay = min(self.base_delay * (2 ** attempt), self.max_delay)]: the
    integer [2 ** attempt] is converted to a float for the product, and
    from [2 ** 1024] on the conversion raises [OverflowError]. *)
Definition delay (self : t) (attempt : Z) : Outcome Q :=
  if float_max_exponent <? attempt then Raise int_too_large
  else Ret (backoff self attempt).

Section Execute.
Context {S A : Type}.
(** The awaited call of [func] with its arguments and [asyncio.sleep], on
    the state the operation acts on. *)
Variable func : Task.t S A.
Variable sleep : Q -> S -> S.

(** The [for attempt in range(self.max_retries + 1)] loop with [n]
    iterations left, followed by [raise last_exception]; raising [None] is
    a [TypeError].  An exception of the computation of the delay is raised
    in the handler and leaves the loop. *)
Fixpoint attempts (self : t) (n : nat) (attempt : Z)
    (last_exception : option Exn) : Task.t S A :=
  match n with
  | O =>
      match last_exception with
      | Some e => Task.raise e
      | None => Task.raise type_error
      end
  | Datatypes.S n' =>
      fun s =>
        match func s with
        | (Raise e, s') =>
            if is_Exception e
            then
              if attempt <? max_retries self
              then
                match delay self attempt with
                | Ret d => attempts self n' (attempt + 1) (Some e) (sleep d s')
                | Raise e' => (Raise e', s')
                | Hang => (Hang, s')
                | OutOfFuel => (OutOfFuel, s')
                end
              else attempts self n' (attempt + 1) (Some e) s'
            else (Raise e, s')
        | r => r
        end
  end.

Definition execute_with_retry (self : t) : Task.t S A :=
  attempts self (Z.to_nat (max_retries self + 1)) 0 None.

End Execute.

End RetryManager.

Module BaseCrawler.

Record Stats : Type := mkStats {
  requests_made : Z;
  requests_successful : Z;
  requests_failed : Z
}.

Record t : Type := mk {
  rate_limiter : RateLimiter.t;
  retry_manager : RetryManager.t;
  stats : Stats
}.

Definition new (rate_limit_requests rate_limit_window max_retries : Z) : t :=
  mk (RateLimiter.new rate_limit_requests rate_limit_window)
     (RetryManager.new max_retries)
     (mkStats 0 0 0).

Definition with_rate_limiter (rl : RateLimiter.t) (self : t) : t :=
  mk rl (retry_manager self) (stats self).

Definition incr_made (self : t) : t :=
  mk (rate_limiter self) (retry_manager self)
     (mkStats (requests_made (stats self) + 1)
              (requests_successful (stats self))
              (requests_failed (stats self))).

Definition incr_successful (self : t) : t :=
  mk (rate_limiter self) (retry_manager self)
     (mkStats (requests_made (stats self))
              (requests_successful (stats self) + 1)
              (requests_failed (stats self))).

Definition incr_failed (self : t) : t :=
  mk (rate_limiter self) (retry_manager self)
     (mkStats (requests_made (stats self))
              (requests_successful (stats self))
              (requests_failed (stats self) + 1)).

Section MakeRequest.
Context {R : Runtime} {A : Type}.

(** [make_request]: the limiter first, outside the [try]; then the
    operation under the retry manager, counting the result. *)
Definition make_request (func : Task.t World A) : Task.t (t * World) A :=
  fun s =>
    let (self, w) := s in
    match RateLimiter.acquire (rate_limiter self, w) with
    | (Ret _, (rl, w1)) =>
        let self := incr_made (with_rate_limiter rl self) in
        match RetryManager.execute_with_retry func asyncio_sleep
                (retry_manager self) w1 with
        | (Ret result, w2) => (Ret result, (incr_successful self, w2))
        | (Raise e, w2) =>
            if is_Exception e
            then (Raise e, (incr_failed self, w2))
            else (Raise e, (self, w2))
        | (Hang, w2) => (Hang, (self, w2))
        | (OutOfFuel, w2) => (OutOfFuel, (self, w2))
        end
    | (Raise e, (rl, w1)) => (Raise e, (with_rate_limiter rl self, w1))
    | (Hang, (rl, w1)) => (Hang, (with_rate_limiter rl self, w1))
    | (OutOfFuel, (rl, w1)) => (OutOfFuel, (with_rate_limiter rl self, w1))
    end.

End MakeRequest.

End BaseCrawler.

(* ================================================================== *)
(** * Builtins that depend on the interpreter's tables *)
(* ================================================================== *)

Module Builtins.
Section Builtins.
Context {R : Runtime}.

(** [int(v)]. *)
Definition py_int (v : PyVal) : Outcome Z :=
  match v with
  | PInt z => Ret z
  | PBool b => Ret (if b then 1 else 0)
  | PFloat f => trunc_float f
  | PStr s =>
      match int_of_str s with
      | Some z => Ret z
      | None => Raise value_error
      end
  | PNone | PList _ | PDict _ => Raise type_error
  end.

(** What an f-string puts for [{v}]. *)
Definition format (v : PyVal) : string :=
  match v with
  | PStr s => s
  | _ => format_other v
  end.

(** A required [str] field and an [Optional\[str\]] field of a pydantic
    model. *)
Definition str_field (v : PyVal) : Outcome string :=
  match str_validator v with
  | Some s => Ret s
  | None => Raise validation_error
  end.

Definition optional_str_field (v : PyVal) : Outcome (option string) :=
  match v with
  | PNone => Ret None
  | _ => (s <~ str_field v ;; Ret (Some s))%outcome
  end.

(** [v.lower()]: a method of strings only. *)
Definition lower (v : PyVal) : Outcome string :=
  match v with
  | PStr s => Ret (str_lower s)
  | _ => Raise attribute_error
  end.

(** [v\[0\]]. *)
Definition item0 (v : PyVal) : Outcome PyVal :=
  match v with
  | PList (x :: _) => Ret x
  | PList [] => Raise index_error
  | PStr (String c _) => Ret (PStr (String c EmptyString))
  | PStr EmptyString => Raise index_error
  | PDict _ => Raise key_error
  | PNone | PBool _ | PInt _ | PFloat _ => Raise type_error
  end.

End Builtins.
End Builtins.
Import Builtins.

(* ================================================================== *)
(** * src/services/musicbrainz_client.py *)
(* ================================================================== *)

Module MusicBrainzClient.
Section Client.
Context {R : Runtime} {Sv : Services R}.

Local Open Scope outcome_scope.

(** What [except (ValueError, IndexError)] makes of an evaluation that
    otherwise falls through to [return None]. *)
Definition date_or_none (o : Outcome Date.t) : Outcome (option Date.t) :=
  match o with
  | Ret d => Ret (Some d)
  | Raise e => if is_ValueError_or_IndexError e then Ret None else Raise e
  | Hang => Hang
  | OutOfFuel => OutOfFuel
  end.

Definition _parse_date (date_str : PyVal) : Outcome (option Date.t) :=
  if negb (truthy date_str) then Ret None
  else
    match date_str with
    | PStr s =>
        match split_on "-" s with
        | [y] =>
            date_or_none (y' <~ py_int (PStr y) ;; Date.make y' 1 1)
        | [y; m] =>
            date_or_none (y' <~ py_int (PStr y) ;; m' <~ py_int (PStr m) ;;
                          Date.make y' m' 1)
        | [y; m; d] =>
            date_or_none (y' <~ py_int (PStr y) ;; m' <~ py_int (PStr m) ;;
                          d' <~ py_int (PStr d) ;; Date.make y' m' d')
        | _ => Ret None
        end
    | _ => Raise attribute_error
    end.

Definition _parse_artist (artist_data : PyVal) : Outcome Artist.t :=
  name <~ get artist_data "name" (PStr "") ;;
  sort_name <~ get artist_data "sort-name" PNone ;;
  disambiguation <~ get artist_data "disambiguation" PNone ;;
  id <~ get artist_data "id" PNone ;;
  country <~ get artist_data "country" PNone ;;
  span <~ get artist_data "life-span" (PDict []) ;;
  begin <~ get span "begin" PNone ;;
  begin_date <~ _parse_date begin ;;
  span' <~ get artist_data "life-span" (PDict []) ;;
  end_ <~ get span' "end" PNone ;;
  end_date <~ _parse_date end_ ;;
  type <~ get artist_data "type" PNone ;;
  gender <~ get artist_data "gender" PNone ;;
  name <~ str_field name ;;
  sort_name <~ optional_str_field sort_name ;;
  disambiguation <~ optional_str_field disambiguation ;;
  id <~ optional_str_field id ;;
  country <~ optional_str_field country ;;
  type <~ optional_str_field type ;;
  gender <~ optional_str_field gender ;;
  Ret (Artist.mk name sort_name disambiguation id None None country
         begin_date end_date type gender).

(** The [try]/[except (ValueError, TypeError): pass] around the duration. *)
Definition length_or_none (o : Outcome Z) : Outcome (option Z) :=
  match o with
  | Ret z => Ret (Some z)
  | Raise e => if is_ValueError_or_TypeError e then Ret None else Raise e
  | Hang => Hang
  | OutOfFuel => OutOfFuel
  end.

Definition _parse_track (track_data : PyVal) : Outcome Track.t :=
  recording <~ get track_data "recording" (PDict []) ;;
  len_field <~ get track_data "length" PNone ;;
  duration_ms <~ (if truthy len_field
                  then length_or_none (l <~ subscript track_data "length" ;;
                                       py_int l)
                  else Ret None) ;;
  fallback <~ get track_data "title" (PStr "") ;;
  title <~ get recording "title" fallback ;;
  position <~ get track_data "position" (PInt 1) ;;
  track_number <~ py_int position ;;
  title <~ str_field title ;;
  if 1 <=? track_number
  then Ret (Track.mk title track_number duration_ms None false false None None)
  else Raise validation_error.

Definition search_artist (artist_name : string)
  : Task.t World (list Artist.t) :=
  Task.try_except
    (Task.bind (mb_search_artists artist_name) (fun result =>
     Task.pure (l <~ get result "artist-list" (PList []) ;;
                items <~ iter l ;;
                omap _parse_artist items)))
    is_Exception
    (fun _ => Task.ret []).

Definition get_album_tracks (release_id : PyVal)
  : Task.t World (list Track.t) :=
  Task.try_except
    (Task.bind (mb_get_release_by_id release_id) (fun result =>
     Task.pure (release_data <~ get result "release" (PDict []) ;;
                l <~ get release_data "medium-list" (PList []) ;;
                media <~ iter l ;;
                per_medium <~ omap (fun medium =>
                    tl <~ get medium "track-list" (PList []) ;;
                    track_list <~ iter tl ;;
                    omap _parse_track track_list) media ;;
                Ret (List.concat per_medium))))
    is_Exception
    (fun _ => Task.ret []).

(** [Album(title=..., release_date=..., album_type=..., musicbrainz_id=...,
    tracks=...)] with the defaults of the other fields and the validator of
    [release_year]. *)
Definition new_album (title : PyVal) (release_date : option Date.t)
    (album_type : string) (musicbrainz_id : PyVal) (tracks : list Track.t)
  : Outcome Album.t :=
  title <~ str_field title ;;
  musicbrainz_id <~ optional_str_field musicbrainz_id ;;
  Ret (Album.mk title release_date
         (Album.extract_year_from_date None release_date)
         album_type PNone None tracks musicbrainz_id None None
         (Some []) None).

Definition _parse_release_group (rg_data : PyVal)
  : Task.t World (option Album.t) :=
  Task.try_except
    (Task.bind (Task.pure (get rg_data "release-list" (PList [])))
       (fun releases =>
     if negb (truthy releases) then Task.ret None
     else
       Task.bind (Task.pure (primary_release <~ item0 releases ;;
                             release_id <~ get primary_release "id" PNone ;;
                             Ret (primary_release, release_id)))
         (fun pr =>
       let (primary_release, release_id) := pr in
       Task.bind (if truthy release_id
                  then get_album_tracks release_id
                  else Task.ret [])
         (fun tracks =>
       Task.pure (title <~ get rg_data "title" (PStr "") ;;
                  date <~ get primary_release "date" PNone ;;
                  release_date <~ _parse_date date ;;
                  primary_type <~ get rg_data "primary-type" (PStr "album") ;;
                  album_type <~ lower primary_type ;;
                  id <~ get rg_data "id" PNone ;;
                  album <~ new_album title release_date album_type id tracks ;;
                  Ret (Some album))))))
    is_Exception
    (fun _ => Task.ret None).

(** The loop over the release groups: a parsed album is appended, [None]
    is skipped. *)
Fixpoint parse_release_groups (rgs : list PyVal) (albums : list Album.t)
  : Task.t World (list Album.t) :=
  match rgs with
  | [] => Task.ret albums
  | rg_data :: rest =>
      Task.bind (_parse_release_group rg_data) (fun album =>
        match album with
        | Some a => parse_release_groups rest (albums ++ [a])
        | None => parse_release_groups rest albums
        end)
  end.

(** [key=lambda x: x.release_year or 0]. *)
Definition sort_key (x : Album.t) : Z :=
  match Album.release_year x with
  | Some y => if negb (y =? 0) then y else 0
  | None => 0
  end.

(** [list.sort(key=...)] is stable, and a stable sort has one possible
    result: insertion from the right, each element going in front of the
    first one whose key is not smaller. *)
Fixpoint insert_by_key (x : Album.t) (l : list Album.t) : list Album.t :=
  match l with
  | [] => [x]
  | y :: l' =>
      if sort_key x <=? sort_key y then x :: y :: l'
      else y :: insert_by_key x l'
  end.

Definition sort_by_key (l : list Album.t) : list Album.t :=
  fold_right insert_by_key [] l.

Definition get_artist_discography (artist_id : option string)
  : Task.t World (list Album.t) :=
  Task.try_except
    (Task.bind (mb_browse_release_groups artist_id) (fun result =>
     Task.bind (Task.pure (l <~ get result "release-group-list" (PList []) ;;
                           iter l)) (fun rgs =>
     Task.bind (parse_release_groups rgs []) (fun albums =>
     Task.ret (sort_by_key albums)))))
    is_Exception
    (fun _ => Task.ret []).

End Client.
End MusicBrainzClient.

(* ================================================================== *)
(** * src/discography_crawler.py *)
(* ================================================================== *)

Module DiscographyCrawler.
Section Crawler.
Context {R : Runtime} {Sv : Services R}.

(** The two methods of [self.musicbrainz_client] the crawler calls; the
    tests replace them by mocks. *)
Record Client : Type := mkClient {
  search_artist : string -> Task.t World (list Artist.t);
  get_artist_discography_of : option string -> Task.t World (list Album.t)
}.

Definition musicbrainz : Client :=
  mkClient MusicBrainzClient.search_artist
           MusicBrainzClient.get_artist_discography.

Record t : Type := mk {
  base : BaseCrawler.t;
  musicbrainz_client : Client;
  lastfm_api_key : option string;
  status : option CrawlStatus.t
}.

(** [DiscographyCrawler(lastfm_api_key, rate_limit_requests,
    rate_limit_window, max_retries)]; the defaults are 5, 60 and 3. *)
Definition new (lastfm_api_key : option string)
    (rate_limit_requests rate_limit_window max_retries : Z) : t :=
  mk (BaseCrawler.new rate_limit_requests rate_limit_window max_retries)
     musicbrainz lastfm_api_key None.

Definition with_base (b : BaseCrawler.t) (self : t) : t :=
  mk b (musicbrainz_client self) (lastfm_api_key self) (status self).

Definition with_status (st : option CrawlStatus.t) (self : t) : t :=
  mk (base self) (musicbrainz_client self) (lastfm_api_key self) st.

(** The inherited [make_request], acting on the [BaseCrawler] part. *)
Definition make_request {A} (func : Task.t World A) : Task.t (t * World) A :=
  fun s =>
    let (o, s') := BaseCrawler.make_request func (base (fst s), snd s) in
    (o, (with_base (fst s') (fst s), snd s')).

(** [not self.lastfm_api_key] is true for [None] and for the empty
    string. *)
Definition key_supplied (key : option string) : option string :=
  match key with
  | Some k => if (k =? "")%string then None else Some k
  | None => None
  end.

(** [not enhanced_track.duration_ms] is true for [None] and for 0. *)
Definition duration_missing (d : option Z) : bool :=
  match d with
  | None => true
  | Some z => z =? 0
  end.

(** The body of the loop of [_enhance_tracks] for the [i]-th track. *)
Definition enhance_track (i : nat) (mb_track : Track.t)
    (lastfm_tracks : list PyVal) : Outcome Track.t :=
  match nth_error lastfm_tracks i with
  | None => Ret mb_track
  | Some lastfm_track =>
      (has_duration <~ py_in "duration" lastfm_track ;;
       if has_duration && duration_missing (Track.duration_ms mb_track)
       then
         match (d <~ subscript lastfm_track "duration" ;; py_int d) with
         | Ret duration_seconds =>
             Ret (Track.with_duration_ms (Some (duration_seconds * 1000))
                    mb_track)
         | Raise e =>
             if is_ValueError_or_TypeError e then Ret mb_track else Raise e
         | Hang => Hang
         | OutOfFuel => OutOfFuel
         end
       else Ret mb_track)%outcome
  end.

Fixpoint enhance_tracks_from (i : nat) (mb_tracks : list Track.t)
    (lastfm_tracks : list PyVal) : Outcome (list Track.t) :=
  match mb_tracks with
  | [] => Ret []
  | mb_track :: rest =>
      (enhanced_track <~ enhance_track i mb_track lastfm_tracks ;;
       enhanced_rest <~ enhance_tracks_from (S i) rest lastfm_tracks ;;
       Ret (enhanced_track :: enhanced_rest))%outcome
  end.

Definition _enhance_tracks (mb_tracks : list Track.t)
    (lastfm_tracks : list PyVal) : Outcome (list Track.t) :=
  enhance_tracks_from 0 mb_tracks lastfm_tracks.

(** The three steps of [_merge_album_data], each on the copy so far. *)
Definition merge_genre (enhanced_album : Album.t) (lastfm_data : PyVal)
  : Outcome Album.t :=
  (has_tags <~ py_in "tags" lastfm_data ;;
   if has_tags
   then
     tags_obj <~ subscript lastfm_data "tags" ;;
     has_tag <~ py_in "tag" tags_obj ;;
     if has_tag
     then
       tags <~ subscript tags_obj "tag" ;;
       match tags with
       | PList l =>
           names <~ omap (fun tag => get tag "name" (PStr "")) (firstn 5 l) ;;
           Ret (Album.with_genre (Some names) enhanced_album)
       | PDict _ =>
           name <~ get tags "name" (PStr "") ;;
           Ret (Album.with_genre (Some [name]) enhanced_album)
       | _ => Ret enhanced_album
       end
     else Ret enhanced_album
   else Ret enhanced_album)%outcome.

Definition merge_label (enhanced_album : Album.t) (lastfm_data : PyVal)
  : Outcome Album.t :=
  if negb (truthy (Album.label enhanced_album))
  then
    (has_label <~ py_in "label" lastfm_data ;;
     if has_label
     then
       l <~ subscript lastfm_data "label" ;;
       Ret (Album.with_label l enhanced_album)
     else Ret enhanced_album)%outcome
  else Ret enhanced_album.

Definition merge_tracks (enhanced_album : Album.t) (lastfm_data : PyVal)
  : Outcome Album.t :=
  (has_tracks <~ py_in "tracks" lastfm_data ;;
   if has_tracks
   then
     tracks_obj <~ subscript lastfm_data "tracks" ;;
     has_track <~ py_in "track" tracks_obj ;;
     if has_track
     then
       lastfm_tracks <~ subscript tracks_obj "track" ;;
       match lastfm_tracks with
       | PList l =>
           ts <~ _enhance_tracks (Album.tracks enhanced_album) l ;;
           Ret (Album.with_tracks ts enhanced_album)
       | _ => Ret enhanced_album
       end
     else Ret enhanced_album
   else Ret enhanced_album)%outcome.

Definition _merge_album_data (mb_album : Album.t) (lastfm_data : PyVal)
  : Outcome Album.t :=
  (a1 <~ merge_genre mb_album lastfm_data ;;
   a2 <~ merge_label a1 lastfm_data ;;
   merge_tracks a2 lastfm_data)%outcome.

Local Open Scope task_scope.

(** The body of the loop of [_enhance_with_lastfm]: the album it appends
    to [enhanced_albums]. *)
Definition enhance_album (key : string) (artist : Artist.t) (album : Album.t)
  : Task.t (t * World) Album.t :=
  Task.try_except
    (lastfm_album <- make_request
                       (lastfm_get_album_info key (Artist.name artist)
                          (Album.title album)) ;;
     if truthy lastfm_album
     then
       enhanced_album <- Task.pure (_merge_album_data album lastfm_album) ;;
       Task.on_world (Task.modify (asyncio_sleep (1 # 10))) ;;;
       Task.ret enhanced_album
     else Task.ret album)
    is_Exception
    (fun _ => Task.ret album).

Fixpoint enhance_albums (key : string) (artist : Artist.t)
    (albums : list Album.t) (enhanced_albums : list Album.t)
  : Task.t (t * World) (list Album.t) :=
  match albums with
  | [] => Task.ret enhanced_albums
  | album :: rest =>
      a <- enhance_album key artist album ;;
      enhance_albums key artist rest (enhanced_albums ++ [a])
  end.

Definition _enhance_with_lastfm (artist : Artist.t) (albums : list Album.t)
  : Task.t (t * World) (list Album.t) :=
  fun s =>
    match key_supplied (lastfm_api_key (fst s)) with
    | None => (Ret albums, s)
    | Some key => enhance_albums key artist albums [] s
    end.

(** Assignments to and calls on [self.status]. *)
Definition update_status (f : Q -> CrawlStatus.t -> CrawlStatus.t)
  : Task.t (t * World) unit :=
  Task.modify (fun s =>
    (with_status (option_map (f (datetime_now (snd s))) (status (fst s)))
       (fst s), snd s)).

Definition crawler_error (msg : string) : Exn := mkExn CrawlerError msg.

(** The [try] block of [get_artist_discography]. *)
Definition crawl_body (artist_name : string)
  : Task.t (t * World) Discography.t :=
  client <- Task.gets (fun s => musicbrainz_client (fst s)) ;;
  artists <- make_request (search_artist client artist_name) ;;
  match artists with
  | [] =>
      Task.raise (crawler_error ("Artista '" ++ artist_name ++ "' non trovato"))
  | primary_artist :: _ =>
      mb_albums <- make_request
                     (get_artist_discography_of client
                        (Artist.musicbrainz_id primary_artist)) ;;
      update_status (fun _ =>
        CrawlStatus.with_albums_found (Z.of_nat (List.length mb_albums))) ;;;
      enhanced_albums <- _enhance_with_lastfm primary_artist mb_albums ;;
      let total_tracks :=
        Py.sum (map (fun album => Z.of_nat (List.length (Album.tracks album)))
                  enhanced_albums) in
      update_status (fun _ => CrawlStatus.with_tracks_found total_tracks) ;;;
      now <- Task.gets (fun s => datetime_now (snd s)) ;;
      key <- Task.gets (fun s => key_supplied (lastfm_api_key (fst s))) ;;
      let discography :=
        Discography.mk primary_artist enhanced_albums now ["MusicBrainz"]
          (PDict []) in
      let discography :=
        match key with
        | Some _ =>
            Discography.with_sources
              (Discography.sources discography ++ ["Last.fm"]) discography
        | None => discography
        end in
      update_status CrawlStatus.mark_completed ;;;
      Task.ret discography
  end.

Definition get_artist_discography (artist_name : string)
  : Task.t (t * World) Discography.t :=
  Task.modify (fun s =>
    (with_status (Some (CrawlStatus.new artist_name (datetime_now (snd s))))
       (fst s), snd s)) ;;;
  Task.try_except (crawl_body artist_name) is_Exception
    (fun e =>
       update_status (fun now => CrawlStatus.mark_failed now (exn_str e)) ;;;
       Task.raise
         (crawler_error ("Fallimento nel crawling per '" ++ artist_name
                         ++ "': " ++ exn_str e))).

Definition crawl (artist_name : string) : Task.t (t * World) Discography.t :=
  get_artist_discography artist_name.

End Crawler.
End DiscographyCrawler.

(* ================================================================== *)
(** * src/services/lyrics_metadata_client.py *)
(* ================================================================== *)

Module LyricsMetadataClient.
Section Client.
Context {R : Runtime}.

Local Open Scope outcome_scope.

(** [except Exception as e: ... return None]. *)
Definition none_on_exception {A} (o : Outcome A) : Outcome (option A) :=
  match o with
  | Ret a => Ret (Some a)
  | Raise e => if is_Exception e then Ret None else Raise e
  | Hang => Hang
  | OutOfFuel => OutOfFuel
  end.

(** [text.split()\[:3\]]: [split] is a method of strings. *)
Definition first_words (text : PyVal) : Outcome (list string) :=
  match text with
  | PStr s => Ret (firstn 3 (split_ws s))
  | _ => Raise attribute_error
  end.

(** The fallback [f"Canzone: {song_data.get('title', 'N/A')}"]. *)
Definition title_snippet (song_data : PyVal) : Outcome string :=
  title <~ get song_data "title" (PStr "N/A") ;;
  Ret ("Canzone: " ++ format title)%string.

Definition _get_identification_snippet (song_data : PyVal)
  : Outcome (option string) :=
  none_on_exception
    (description <~ get song_data "description" (PDict []) ;;
     match description with
     | PDict d =>
         match lookup "plain" d with
         | Some text =>
             words <~ first_words text ;;
             if (2 <=? List.length words)%nat
             then Ret (join_sp words ++ "...")%string
             else title_snippet song_data
         | None => title_snippet song_data
         end
     | _ => title_snippet song_data
     end).

Definition copyright_notice : string :=
  "Testi protetti da copyright - visita genius_url per il contenuto completo".

Definition fair_use_notice : string :=
  "Solo metadati per identificazione - uso educativo/ricerca".

Definition snippet_disclaimer : string :=
  "Snippet minimale solo per identificazione (Fair Use)".

(** The result is a dict; its items are kept in insertion order. *)
Definition _extract_safe_metadata (song_data : PyVal)
  : Outcome (list (string * PyVal)) :=
  genius_id <~ get song_data "id" PNone ;;
  title <~ get song_data "title" PNone ;;
  primary_artist <~ get song_data "primary_artist" (PDict []) ;;
  artist_name <~ get primary_artist "name" PNone ;;
  release_date <~ get song_data "release_date_for_display" PNone ;;
  stats <~ get song_data "stats" (PDict []) ;;
  page_views <~ get stats "pageviews" PNone ;;
  genius_url <~ get song_data "url" PNone ;;
  has_album <~ get song_data "album" PNone ;;
  album <~ (if truthy has_album
            then a <~ get song_data "album" (PDict []) ;; get a "name" PNone
            else Ret PNone) ;;
  fa <~ get song_data "featured_artists" (PList []) ;;
  artists <~ iter fa ;;
  featured_artists <~ omap (fun artist => get artist "name" PNone) artists ;;
  let safe_metadata :=
    [ ("genius_id", genius_id);
      ("title", title);
      ("artist_name", artist_name);
      ("release_date", release_date);
      ("page_views", page_views);
      ("genius_url", genius_url);
      ("album", album);
      ("featured_artists", PList featured_artists);
      ("copyright_notice", PStr copyright_notice);
      ("fair_use_notice", PStr fair_use_notice) ] in
  snippet <~ _get_identification_snippet song_data ;;
  match snippet with
  | Some s =>
      if negb (s =? "")%string
      then Ret (safe_metadata ++
                [ ("identification_snippet", PStr s);
                  ("snippet_disclaimer", PStr snippet_disclaimer) ])%list
      else Ret safe_metadata
  | None => Ret safe_metadata
  end.

End Client.
End LyricsMetadataClient.

(* ================================================================== *)
(** * The specification's own formulations *)
(* ================================================================== *)

Module Spec.

(** "[sum(len(a.tracks) for a in d.albums)]", read as a sum over the
    albums. *)
Fixpoint sum_of_track_counts (albums : list Album.t) : Z :=
  match albums with
  | [] => 0
  | a :: rest => Z.of_nat (List.length (Album.tracks a)) + sum_of_track_counts rest
  end.

End Spec.

(* ================================================================== *)
(** * Concrete runtimes, providers and records used in the examples *)
(* ================================================================== *)

Module Sample.

(** Decimal digits with an optional minus sign. *)
Definition digit (c : ascii) : option Z :=
  let n := nat_of_ascii c in
  if ((48 <=? n) && (n <=? 57))%nat then Some (Z.of_nat n - 48) else None.

Fixpoint digits (acc : Z) (s : string) : option Z :=
  match s with
  | EmptyString => Some acc
  | String c s' =>
      match digit c with
      | Some d => digits (10 * acc + d) s'
      | None => None
      end
  end.

Definition parse_decimal (s : string) : option Z :=
  match s with
  | EmptyString => None
  | String "-" (String c s') => option_map Z.opp (digits 0 (String c s'))
  | _ => digits 0 s
  end.

(** A world that is only a clock: sleeping advances it. *)
#[local] Instance runtime : Runtime := {|
  World := Q;
  time_time := fun w => w;
  datetime_now := fun w => w;
  asyncio_sleep := fun d w => (w + d)%Q;
  int_of_str := parse_decimal;
  str_validator := fun v => match v with PStr s => Some s | _ => None end;
  str_lower := fun s => s;
  format_other := fun _ => "?"
|}.

(** An operation that counts its invocations in the state and raises
    during the first [fails] of them. *)
Definition flaky (fails : nat) : Task.t nat nat :=
  fun n =>
    if (n <? fails)%nat then (Raise value_error, Datatypes.S n)
    else (Ret n, Datatypes.S n).

Definition no_sleep : Q -> nat -> nat := fun _ n => n.

Definition track (title : string) (n : Z) (d : option Z) : Track.t :=
  Track.mk title n d None false false None None.

Definition album (title : string) (year : option Z) (label : PyVal)
    (genre : list PyVal) (tracks : list Track.t) : Album.t :=
  Album.mk title None year "album" label None tracks None None None
    (Some genre) None.

(** Albums and payloads of the examples. *)
Definition nevermind : Album.t :=
  album "Nevermind" (Some 1991) (PStr "DGC") [PStr "Grunge"]
    [track "Smells Like Teen Spirit" 1 (Some 301000);
     track "In Bloom" 2 None;
     track "Come as You Are" 3 (Some 0)].

Definition bleach : Album.t :=
  album "Bleach" (Some 1989) PNone [] [track "Blew" 1 None].

Definition payload_tags : PyVal :=
  PDict [("tags", PDict [("tag", PList [PDict [("name", PStr "rock")]])])].

Definition payload_label : PyVal := PDict [("label", PStr "X")].

Definition payload_tracks : PyVal :=
  PDict [("tracks",
          PDict [("track",
                  PList [PDict [("duration", PStr "299")];
                         PDict [("duration", PStr "255")]])])].

(** A client in the manner of the tests' mocks: one artist, two albums. *)
(** A song as the search of the lyrics provider lists it, without a
    description, and one with a description. *)
Definition song_without_description : PyVal :=
  PDict [("id", PInt 1); ("title", PStr "Smells Like Teen Spirit");
         ("url", PStr "https://genius.com/1")].

Definition song_with_description : PyVal :=
  PDict [("id", PInt 2); ("title", PStr "Lithium");
         ("description",
          PDict [("plain", PStr "The third single from Nevermind")])].

Definition artist (name : string) : Artist.t :=
  Artist.mk name None None (Some "mbid-1") None None None None None None None.

Definition in_utero : Album.t :=
  album "In Utero" (Some 1993) PNone [] [track "Serve the Servants" 1 None].

Definition mock_client : DiscographyCrawler.Client (R := runtime) :=
  DiscographyCrawler.mkClient
    (fun _ w => (Ret [artist "Nirvana"], w))
    (fun _ w => (Ret [bleach; in_utero], w)).

(** A client with four albums: with the search and the discography
    request, six requests for a limiter of five. *)
Definition four_albums_client : DiscographyCrawler.Client (R := runtime) :=
  DiscographyCrawler.mkClient
    (fun _ w => (Ret [artist "Nirvana"], w))
    (fun _ w => (Ret [bleach; nevermind; in_utero; in_utero], w)).

(** A client whose search finds nobody. *)
Definition empty_client : DiscographyCrawler.Client (R := runtime) :=
  DiscographyCrawler.mkClient
    (fun _ w => (Ret [], w))
    (fun _ w => (Ret [], w)).

Definition network_error : Exn := mkExn (OtherException "ClientError") "boom".

(** Providers: the MusicBrainz library raises on every call; Last.fm
    raises for "Bleach" and has a label for every other album. *)
#[local] Instance services : Services runtime := {|
  mb_search_artists := fun _ w => (Raise network_error, w);
  mb_browse_release_groups := fun _ w => (Raise network_error, w);
  mb_get_release_by_id := fun _ w => (Raise network_error, w);
  lastfm_get_album_info := fun _ _ title w =>
    if (title =? "Bleach")%string then (Raise network_error, w)
    else (Ret payload_label, w)
|}.

Definition crawler (client : DiscographyCrawler.Client (R := runtime))
    (key : option string) : DiscographyCrawler.t (R := runtime) :=
  DiscographyCrawler.mk (BaseCrawler.new 5 60 3) client key None.

(** A catalogue: the browse call lists three release groups, dated
    1991-09-24, undated and dated 1989; no release has an id, so no track
    list is fetched. *)
Definition release_group (title : string) (date : PyVal) : PyVal :=
  PDict [("title", PStr title); ("id", PStr title);
         ("primary-type", PStr "Album");
         ("release-list", PList [PDict [("date", date)]])].

#[local] Instance catalogue : Services runtime := {|
  mb_search_artists := fun _ w =>
    (Ret (PDict [("artist-list",
                  PList [PDict [("name", PStr "Nirvana");
                                ("id", PStr "mbid-1")]])]), w);
  mb_browse_release_groups := fun _ w =>
    (Ret (PDict [("release-group-list",
                  PList [release_group "Nevermind" (PStr "1991-09-24");
                         release_group "Demo" PNone;
                         release_group "Bleach" (PStr "1989")])]), w);
  mb_get_release_by_id := fun _ w => (Raise network_error, w);
  lastfm_get_album_info := fun _ _ _ w => (Ret PNone, w)
|}.

(** Seven tags as Last.fm gives them. *)
Definition seven_tags : list PyVal :=
  map (fun n => PDict [("name", PStr n)])
    ["grunge"; "rock"; "alternative"; "90s"; "seattle"; "punk"; "noise"].

(** A release with two media; the second track of the first medium has
    the position 0, which the [Track] model refuses. *)
Definition track_data (title : string) (position : Z) (len : PyVal) : PyVal :=
  PDict [("recording", PDict [("title", PStr title)]);
         ("position", PInt position); ("length", len)].

Definition first_medium_tracks : list PyVal :=
  [track_data "Blew" 1 (PStr "175000"); track_data "Floyd" 0 PNone].

Definition first_medium : PyVal :=
  PDict [("track-list", PList first_medium_tracks)].

Definition second_medium : PyVal :=
  PDict [("track-list", PList [track_data "Sifting" 1 PNone])].

Definition release_with_bad_track : PyVal :=
  PDict [("release",
          PDict [("medium-list", PList [first_medium; second_medium])])].

#[local] Instance releases : Services runtime := {|
  mb_search_artists := fun _ w => (Raise network_error, w);
  mb_browse_release_groups := fun _ w => (Raise network_error, w);
  mb_get_release_by_id := fun _ w => (Ret release_with_bad_track, w);
  lastfm_get_album_info := fun _ _ _ w => (Ret PNone, w)
|}.

(** A crawler as its constructor makes it, with the real client. *)
Definition plain_crawler : DiscographyCrawler.t (R := runtime) :=
  DiscographyCrawler.new (Sv := services) None 5 60 3.

End Sample.

(* ================================================================== *)
(** * Observing a run *)
(* ================================================================== *)

(** To speak of how often an operation was invoked and of the waits
    between the invocations, the operation and [asyncio.sleep] are wrapped
    so that they append what happened to a log carried next to the state.
    The wrapped run is the run of the code on that richer state. *)
Module Observe.
Section Observe.
Context {S A : Type}.

Inductive Event : Type :=
| Called (o : Outcome A)
| Slept (d : Q).

Definition func (f : Task.t S A) : Task.t (S * list Event) A :=
  fun sl =>
    let (o, s') := f (fst sl) in (o, (s', snd sl ++ [Called o])%list).

Definition sleep (sl : Q -> S -> S) (d : Q) (s : S * list Event)
  : S * list Event :=
  (sl d (fst s), (snd s ++ [Slept d])%list).

(** The log of invocations with the given outcomes, separated by the waits
    of the attempts numbered from [attempt]. *)
Fixpoint trace (rm : RetryManager.t) (attempt : Z) (outcomes : list (Outcome A))
  : list Event :=
  match outcomes with
  | [] => []
  | [o] => [Called o]
  | o :: rest =>
      Called o :: Slept (RetryManager.backoff rm attempt)
        :: trace rm (attempt + 1) rest
  end.

(** The waits recorded in a log, in order. *)
Fixpoint waits (log : list Event) : list Q :=
  match log with
  | [] => []
  | Called _ :: log' => waits log'
  | Slept d :: log' => d :: waits log'
  end.

(** An outcome after which the manager tries again. *)
Definition retried (o : Outcome A) : Prop :=
  exists e, o = Raise e /\ is_Exception e = true.

End Observe.
Arguments Event A : clear implicits.
End Observe.

(* ================================================================== *)
(** * Notions used in the statements *)
(* ================================================================== *)

Module Notions.

(** An evaluation that ended: with a value or with an exception. *)
Definition settled {A} (o : Outcome A) : Prop :=
  match o with
  | Ret _ | Raise _ => True
  | Hang | OutOfFuel => False
  end.


(** What the track loop may make of a canonical track: nothing, or a
    duration where there was none (or 0). *)
Definition track_enhanced (t t' : Track.t) : Prop :=
  t' = t
  \/ exists secs : Z,
       DiscographyCrawler.duration_missing (Track.duration_ms t) = true
       /\ t' = Track.with_duration_ms (Some (secs * 1000)) t.


(** The limiter is free and can take [n] more calls whatever the clock
    says. *)
Definition has_room (rl : RateLimiter.t) (n : Z) : Prop :=
  RateLimiter._lock rl = false
  /\ Z.of_nat (List.length (RateLimiter.requests rl)) + n
     <= RateLimiter.max_requests rl.

(** An outcome that [except Exception] can deal with: a value or an
    [Exception]. *)
Definition benign {A} (o : Outcome A) : Prop :=
  match o with
  | Ret _ => True
  | Raise e => is_Exception e = true
  | Hang | OutOfFuel => False
  end.

(** A lookup that raised or brought no data. *)
Definition no_data (o : Outcome PyVal) : Prop :=
  match o with
  | Ret v => truthy v = false
  | Raise e => is_Exception e = true
  | Hang | OutOfFuel => False
  end.

(** The keys of a song metadata result: always these ten ... *)
Definition metadata_keys : list string :=
  ["genius_id"; "title"; "artist_name"; "release_date"; "page_views";
   "genius_url"; "album"; "featured_artists"; "copyright_notice";
   "fair_use_notice"].

(** ... and, with a snippet, these two more. *)
Definition snippet_keys : list string :=
  ["identification_snippet"; "snippet_disclaimer"].

(** "Albums that lack a release year treated as year 0". *)
Definition year_or_zero (a : Album.t) : Z :=
  match Album.release_year a with
  | Some y => y
  | None => 0
  end.

Definition by_year (a b : Album.t) : Prop := year_or_zero a <= year_or_zero b.

(** A release year, when there is one, is a year of [datetime.date]. *)
Definition dated_ok (a : Album.t) : Prop :=
  match Album.release_year a with
  | Some y => 1 <= y <= 9999
  | None => True
  end.

(** No album with a release year stands before one without. *)
Definition undated_first (l : list Album.t) : Prop :=
  forall i j a b,
    (i < j)%nat -> nth_error l i = Some a -> nth_error l j = Some b ->
    Album.release_year b = None -> Album.release_year a = None.

(** The message of the error raised when nobody was found. *)
Definition not_found (artist_name : string) : string :=
  "Artista '" ++ artist_name ++ "' non trovato".

Section Snippet.
Context {R : Runtime}.

(** A description a snippet is cut from: a dict whose [plain] is a string
    of at least two words; [words] are its first three at most. *)
Definition description_words (song_data : PyVal) (words : list string)
  : Prop :=
  exists d text,
    get song_data "description" (PDict []) = Ret (PDict d)
    /\ lookup "plain" d = Some (PStr text)
    /\ words = firstn 3 (split_ws text)
    /\ (2 <= List.length words <= 3)%nat.

(** No description to cut from: none, one that is not a dict, one without
    [plain], or a [plain] of fewer than two words. *)
Definition no_description (song_data : PyVal) : Prop :=
  exists description,
    get song_data "description" (PDict []) = Ret description
    /\ match description with
       | PDict d =>
           match lookup "plain" d with
           | None => True
           | Some (PStr text) =>
               (List.length (firstn 3 (split_ws text)) < 2)%nat
           | Some _ => False
           end
       | _ => True
       end.

(** A description whose [plain] is not a string. *)
Definition unreadable_description (song_data : PyVal) : Prop :=
  exists d text,
    get song_data "description" (PDict []) = Ret (PDict d)
    /\ lookup "plain" d = Some text
    /\ forall s, text <> PStr s.

(** Where a snippet comes from: the two or three first words of the
    description followed by an ellipsis or, only when there is no
    description to cut from, the title after a fixed prefix. *)
Definition snippet_origin (song_data : PyVal) (s : string) : Prop :=
  (exists words,
      description_words song_data words
      /\ s = (join_sp words ++ "...")%string)
  \/ (no_description song_data
      /\ exists title,
           get song_data "title" (PStr "N/A") = Ret title
           /\ s = ("Canzone: " ++ format title)%string).

End Snippet.

Section Loop.
Context {R : Runtime} {Sv : Services R}.

(** What a request leaves untouched in the crawler: everything but the
    limiter's list and the counters. *)
Definition steady (self self' : DiscographyCrawler.t) : Prop :=
  DiscographyCrawler.musicbrainz_client self'
  = DiscographyCrawler.musicbrainz_client self
  /\ DiscographyCrawler.lastfm_api_key self'
     = DiscographyCrawler.lastfm_api_key self
  /\ DiscographyCrawler.status self' = DiscographyCrawler.status self
  /\ BaseCrawler.retry_manager (DiscographyCrawler.base self')
     = BaseCrawler.retry_manager (DiscographyCrawler.base self).

Definition room (self : DiscographyCrawler.t) (n : Z) : Prop :=
  has_room (BaseCrawler.rate_limiter (DiscographyCrawler.base self)) n.

(** The states in which the iterations of the enrichment loop start, one
    per album. *)
Fixpoint loop_states (key : string) (artist : Artist.t)
    (albums : list Album.t) (s : DiscographyCrawler.t * World)
  : list (DiscographyCrawler.t * World) :=
  match albums with
  | [] => []
  | album :: rest =>
      s :: loop_states key artist rest
             (snd (DiscographyCrawler.enhance_album key artist album s))
  end.

(** The lookup the loop makes for an album. *)
Definition lookup_of (key : string) (artist : Artist.t) (album : Album.t)
  : Task.t (DiscographyCrawler.t * World) PyVal :=
  DiscographyCrawler.make_request
    (lastfm_get_album_info key (Artist.name artist) (Album.title album)).

End Loop.

End Notions.
Import Notions.

(* ================================================================== *)
(** * Further functions of the sources *)
(* ================================================================== *)

(** The derived views of [Discography] in src/models/discography.py. *)
Module DiscographyViews.

(** [\[album.release_year for album in self.albums if album.release_year\]]:
    a year of 0 is as false as [None]. *)
Definition years (d : Discography.t) : list Z :=
  flat_map (fun album =>
              match Album.release_year album with
              | Some y => if negb (y =? 0) then [y] else []
              | None => []
              end)
           (Discography.albums d).

(** [min] and [max] of a list of integers that starts with [x]. *)
Definition min_of (x : Z) (xs : list Z) : Z := fold_left Z.min xs x.
Definition max_of (x : Z) (xs : list Z) : Z := fold_left Z.max xs x.

(** [discography_span]: the values of the keys "start" and "end". *)
Definition discography_span (d : Discography.t) : option Z * option Z :=
  match years d with
  | [] => (None, None)
  | y :: ys => (Some (min_of y ys), Some (max_of y ys))
  end.

(** [if k not in groups: groups\[k\] = \[\]] followed by
    [groups\[k\].append(album)], on a dict kept in insertion order. *)
Fixpoint setdefault_append {K : Type} (eqb : K -> K -> bool) (k : K)
    (album : Album.t) (groups : list (K * list Album.t))
  : list (K * list Album.t) :=
  match groups with
  | [] => [(k, [album])]
  | (k', l) :: rest =>
      if eqb k k' then (k', l ++ [album])%list :: rest
      else (k', l) :: setdefault_append eqb k album rest
  end.

(** [groups.get(k)]. *)
Fixpoint group {K : Type} (eqb : K -> K -> bool) (k : K)
    (groups : list (K * list Album.t)) : option (list Album.t) :=
  match groups with
  | [] => None
  | (k', l) :: rest => if eqb k k' then Some l else group eqb k rest
  end.

Definition get_albums_by_year (d : Discography.t)
  : list (Z * list Album.t) :=
  fold_left
    (fun albums_by_year album =>
       match Album.release_year album with
       | Some y =>
           if negb (y =? 0)
           then setdefault_append Z.eqb y album albums_by_year
           else albums_by_year
       | None => albums_by_year
       end)
    (Discography.albums d) [].

(** [album.album_type or "unknown"]. *)
Definition type_or_unknown (album : Album.t) : string :=
  if negb (Album.album_type album =? "")%string
  then Album.album_type album else "unknown".

Definition get_albums_by_type (d : Discography.t)
  : list (string * list Album.t) :=
  fold_left
    (fun albums_by_type album =>
       setdefault_append String.eqb (type_or_unknown album) album
         albums_by_type)
    (Discography.albums d) [].

End DiscographyViews.

(** [DiscographyCrawler.search_artists] of src/discography_crawler.py. *)
Module SearchArtists.
Section SearchArtists.
Context {R : Runtime} {Sv : Services R}.

(** [l\[:limit\]]: a negative [limit] counts from the end. *)
Definition slice_to {A} (limit : Z) (l : list A) : list A :=
  if 0 <=? limit then firstn (Z.to_nat limit) l
  else firstn (List.length l - Z.to_nat (- limit)) l.

Definition search_artists (query : string) (limit : Z)
  : Task.t (DiscographyCrawler.t * World) (list Artist.t) :=
  Task.try_except
    (Task.bind (Task.gets (fun s => DiscographyCrawler.musicbrainz_client
                                      (fst s))) (fun client =>
     Task.bind (DiscographyCrawler.make_request
                  (DiscographyCrawler.search_artist client query))
       (fun artists => Task.ret (slice_to limit artists))))
    is_Exception
    (fun _ => Task.ret []).

End SearchArtists.
End SearchArtists.

(** The helpers of src/services/lastfm_client.py that need no session. *)
Module LastFmClient.

(** [extract_genre_tags]: the names of the dict tags that have one, the
    first five of them. *)
Definition extract_genre_tags (tags_data : list PyVal) : list PyVal :=
  firstn 5
    (flat_map (fun tag =>
                 match tag with
                 | PDict d =>
                     match lookup "name" d with
                     | Some name => [name]
                     | None => []
                     end
                 | _ => []
                 end)
              tags_data).

(** [str.isdigit] on the characters below 256: the ten digits and the
    superscripts one, two and three. *)
Definition isdigit_char (c : ascii) : bool :=
  let n := nat_of_ascii c in
  ((48 <=? n) && (n <=? 57) || (n =? 178) || (n =? 179) || (n =? 185))%nat.

Fixpoint all_digits (s : string) : bool :=
  match s with
  | EmptyString => true
  | String c s' => isdigit_char c && all_digits s'
  end.

Definition isdigit (s : string) : bool :=
  negb (s =? "")%string && all_digits s.

(** [parse_lastfm_date]. *)
Definition parse_lastfm_date (date_str : string) : option string :=
  if (date_str =? "")%string || (date_str =? "0")%string then None
  else if (String.length date_str =? 4)%nat && isdigit date_str
  then Some (date_str ++ "-01-01")%string
  else Some date_str.

End LastFmClient.

(** More of src/services/lyrics_metadata_client.py. *)
Module LyricsReference.
Section LyricsReference.
Context {R : Runtime}.

(** [metadata.get(k)] on the items of the metadata dict. *)
Definition md_get (metadata : list (string * PyVal)) (k : string) : PyVal :=
  match lookup k metadata with
  | Some v => v
  | None => PNone
  end.

Definition is_not_none (v : PyVal) : bool :=
  match v with PNone => false | _ => true end.

Definition create_legal_lyrics_reference (metadata : list (string * PyVal))
  : list (string * PyVal) :=
  [ ("title", md_get metadata "title");
    ("artist", md_get metadata "artist_name");
    ("lyrics_available", PBool (is_not_none (md_get metadata "genius_url")));
    ("official_lyrics_url", md_get metadata "genius_url");
    ("how_to_access", PStr "Visita il link ufficiale per i testi completi");
    ("legal_notice",
     PStr "I testi sono protetti da copyright. Questo sistema fornisce solo link di riferimento.");
    ("identification_help", md_get metadata "identification_snippet");
    ("disclaimer",
     PStr "Per uso educativo e di ricerca. Rispetta sempre i diritti d'autore.") ].

(** The pacing state of the client and [_rate_limit]. *)
Record Pacing : Type := mkPacing {
  last_request_time : Q;
  min_request_interval : Q
}.

Definition _rate_limit : Task.t (Pacing * World) unit :=
  fun s =>
    let (self, w) := s in
    let current_time := time_time w in
    let time_since_last := (current_time - last_request_time self)%Q in
    let w :=
      if Qltb time_since_last (min_request_interval self)
      then asyncio_sleep (min_request_interval self - time_since_last)%Q w
      else w in
    (Ret tt, (mkPacing (time_time w) (min_request_interval self), w)).

End LyricsReference.
End LyricsReference.

(** Notions for the further properties. *)
Module MoreNotions.

(** Two albums that agree on everything the enrichment has no business
    with. *)
Definition same_identity (a a' : Album.t) : Prop :=
  Album.title a' = Album.title a
  /\ Album.release_date a' = Album.release_date a
  /\ Album.release_year a' = Album.release_year a
  /\ Album.album_type a' = Album.album_type a
  /\ Album.catalog_number a' = Album.catalog_number a
  /\ Album.musicbrainz_id a' = Album.musicbrainz_id a
  /\ Album.spotify_id a' = Album.spotify_id a
  /\ Album.lastfm_id a' = Album.lastfm_id a
  /\ Album.country a' = Album.country a
  /\ List.length (Album.tracks a') = List.length (Album.tracks a).

(** The message of the [CrawlerError] that wraps a cause. *)
Definition failure_message (artist_name cause : string) : string :=
  "Fallimento nel crawling per '" ++ artist_name ++ "': " ++ cause.

End MoreNotions.
Import MoreNotions.

(** The inner loop of [get_album_tracks]: the tracks of one medium. *)
Definition tracks_of_medium {R : Runtime} (medium : PyVal)
  : Outcome (list Track.t) :=
  (tl <~ get medium "track-list" (PList []) ;;
   track_list <~ iter tl ;;
   omap MusicBrainzClient._parse_track track_list)%outcome.

(** src/services/genius_client.py: the pacing of the requests. *)
Module GeniusClient.
Section GeniusClient.
Context {R : Runtime}.

Record t : Type := mk {
  last_request_time : Q;
  min_request_interval : Q;
  requests_per_minute : Z;
  request_times : list Q
}.

(** [GeniusClient(...)], as far as the pacing goes. *)
Definition new : t := mk 0 (1 # 2) 60 [].

(** [\[t for t in self.request_times if current_time - t < 60\]]. *)
Definition recent (current_time : Q) (times : list Q) : list Q :=
  filter (fun t => Qltb (current_time - t) 60) times.

(** [_rate_limit].  The list of request times is replaced by its recent
    part first; [self.request_times\[0\]] raises [IndexError] on an empty
    list; both sleeps are computed from the one reading of the clock at
    the start. *)
Definition _rate_limit : Task.t (t * World) unit :=
  fun s =>
    let (self, w) := s in
    let current_time := time_time w in
    let times := recent current_time (request_times self) in
    let self1 := mk (last_request_time self) (min_request_interval self)
                   (requests_per_minute self) times in
    let first_wait : Outcome World :=
      if requests_per_minute self <=? Z.of_nat (List.length times)
      then
        match times with
        | [] => Raise index_error
        | t0 :: _ =>
            let sleep_time := (60 - (current_time - t0))%Q in
            if Qltb 0 sleep_time then Ret (asyncio_sleep sleep_time w)
            else Ret w
        end
      else Ret w in
    match first_wait with
    | Ret w1 =>
        let time_since_last := (current_time - last_request_time self)%Q in
        let w2 :=
          if Qltb time_since_last (min_request_interval self)
          then asyncio_sleep (min_request_interval self - time_since_last)%Q w1
          else w1 in
        let now := time_time w2 in
        (Ret tt,
         (mk now (min_request_interval self) (requests_per_minute self)
             (times ++ [now]), w2))
    | Raise e => (Raise e, (self1, w))
    | Hang => (Hang, (self1, w))
    | OutOfFuel => (OutOfFuel, (self1, w))
    end.

End GeniusClient.
End GeniusClient.

(** More of src/crawlers/base_crawler.py: the summary of the counters. *)
Module StatsSummary.

(** The entry [success_rate] of [get_stats_summary]: the quotient of two
    counters, as a rational number. *)
Definition success_rate (s : BaseCrawler.Stats) : Q :=
  if 0 <? BaseCrawler.requests_made s
  then (inject_Z (BaseCrawler.requests_successful s)
        / inject_Z (BaseCrawler.requests_made s))%Q
  else 0%Q.

(** Counters that add up: no more requests counted as ended than as
    made. *)
Definition consistent (s : BaseCrawler.Stats) : Prop :=
  0 <= BaseCrawler.requests_successful s
  /\ 0 <= BaseCrawler.requests_failed s
  /\ BaseCrawler.requests_successful s + BaseCrawler.requests_failed s
     <= BaseCrawler.requests_made s.

End StatsSummary.

(* ================================================================== *)
(** * Theorems *)
(* ================================================================== *)

(** ** Discography.total_tracks *)

Section TotalTracks.

Lemma fold_left_add_shift (xs : list Z) (a : Z) :
  fold_left Z.add xs a = a + fold_left Z.add xs 0.
Proof.
  revert a; induction xs as [|x xs IH]; intros a; simpl.
  - lia.
  - rewrite (IH (a + x)), (IH x). lia.
Qed.

Lemma sum_cons (x : Z) (xs : list Z) : Py.sum (x :: xs) = x + Py.sum xs.
Proof.
  unfold Py.sum; simpl. apply fold_left_add_shift.
Qed.

Lemma sum_track_counts (albums : list Album.t) :
  Py.sum (map Album.track_count albums) = Spec.sum_of_track_counts albums.
Proof.
  induction albums as [|a rest IH].
  - reflexivity.
  - cbn [map Spec.sum_of_track_counts]. rewrite sum_cons, IH. reflexivity.
Qed.

(** C7.  For every discography [d], [d.total_tracks] is the sum over
    [d.albums] of the number of tracks of each album. *)
Theorem total_tracks_is_sum_of_track_counts (d : Discography.t) :
  Discography.total_tracks d
  = Spec.sum_of_track_counts (Discography.albums d).
Proof.
  unfold Discography.total_tracks. apply sum_track_counts.
Qed.

(** The same number counts the tracks of all albums laid end to end. *)
Lemma total_tracks_counts_all_tracks (d : Discography.t) :
  Discography.total_tracks d
  = Z.of_nat (List.length (flat_map Album.tracks (Discography.albums d))).
Proof.
  unfold Discography.total_tracks. rewrite sum_track_counts.
  induction (Discography.albums d) as [|a rest IH]; simpl.
  - reflexivity.
  - rewrite List.length_app, Nat2Z.inj_add, IH. reflexivity.
Qed.

End TotalTracks.

(** ** RetryManager.execute_with_retry *)

Section Retry.
Context {S A : Type}.
Variable f : Task.t S A.
Variable sl : Q -> S -> S.
Variable rm : RetryManager.t.

Lemma trace_cons (k : Z) (o : Outcome A) (rest : list (Outcome A)) :
  rest <> [] ->
  Observe.trace rm k (o :: rest)
  = Observe.Called o :: Observe.Slept (RetryManager.backoff rm k)
      :: Observe.trace rm (k + 1) rest.
Proof.
  destruct rest; [congruence | reflexivity].
Qed.

(** The loop with [n] iterations left, entered at attempt [k].  It ends
    with what its last invocation gave, or, when the attempt numbered
    1024 has failed and is not the last one, with the [OverflowError] of
    the delay that would follow it. *)
Lemma attempts_observed :
  forall (n : nat) (k : Z) prev s log0 r s' log,
    (0 < n)%nat ->
    0 <= k <= 1024 ->
    Z.of_nat n + k = RetryManager.max_retries rm + 1 ->
    RetryManager.attempts (Observe.func f) (Observe.sleep sl) rm n k prev
      (s, log0) = (r, (s', log)) ->
    exists outcomes : list (Outcome A),
      log = (log0 ++ Observe.trace rm k outcomes)%list
      /\ RetryManager.attempts f sl rm n k prev s = (r, s')
      /\ (1 <= List.length outcomes <= n)%nat
      /\ k + Z.of_nat (List.length outcomes) <= 1025
      /\ Forall Observe.retried (removelast outcomes)
      /\ ((List.last outcomes Hang = r
           /\ (forall e, r = Raise e -> is_Exception e = true ->
               List.length outcomes = n))
          \/ (Observe.retried (List.last outcomes Hang)
              /\ r = Raise RetryManager.int_too_large
              /\ k + Z.of_nat (List.length outcomes) = 1025
              /\ 1024 < RetryManager.max_retries rm)).
Proof.
  induction n as [|n IH]; intros k lastx s log0 r s' log Hn Hk0 Hk Hrun.
  - lia.
  - cbn [RetryManager.attempts] in Hrun |- *.
    unfold Observe.func in Hrun at 1. cbn [fst snd] in Hrun.
    destruct (f s) as [o s1] eqn:Hf.
    assert (Hstop : forall (o' : Outcome A),
               o' = o ->
               (r, (s', log)) = (o', (s1, (log0 ++ [Observe.Called o'])%list)) ->
               (forall e, o' = Raise e -> is_Exception e = true ->
                          n = 0%nat) ->
               exists outcomes : list (Outcome A),
                 log = (log0 ++ Observe.trace rm k outcomes)%list
                 /\ (o, s1) = (r, s')
                 /\ (1 <= List.length outcomes <= Datatypes.S n)%nat
                 /\ k + Z.of_nat (List.length outcomes) <= 1025
                 /\ Forall Observe.retried (removelast outcomes)
                 /\ ((List.last outcomes Hang = r
                      /\ (forall e, r = Raise e -> is_Exception e = true ->
                          List.length outcomes = Datatypes.S n))
                     \/ (Observe.retried (List.last outcomes Hang)
                         /\ r = Raise RetryManager.int_too_large
                         /\ k + Z.of_nat (List.length outcomes) = 1025
                         /\ 1024 < RetryManager.max_retries rm))).
    { intros o' -> Heq Hlast. inversion Heq; subst.
      exists [o]. cbn. repeat split; auto; try lia.
      left. split; [reflexivity|].
      intros e He Hexc. rewrite (Hlast e He Hexc). reflexivity. }
    destruct o as [a|e| |].
    + apply (Hstop (Ret a)); [reflexivity|now symmetry|discriminate].
    + destruct (is_Exception e) eqn:Hexc.
      * destruct (k <? RetryManager.max_retries rm) eqn:Hlt.
        -- apply Z.ltb_lt in Hlt.
           unfold RetryManager.delay, RetryManager.float_max_exponent
             in Hrun |- *.
           destruct (1023 <? k) eqn:Hover.
           ++ (* the delay cannot be computed *)
              apply Z.ltb_lt in Hover. inversion Hrun; subst.
              exists [Raise e]. cbn. repeat split; auto; try lia.
              right. repeat split; try lia. exists e. auto.
           ++ apply Z.ltb_ge in Hover.
              unfold Observe.sleep in Hrun at 1. cbn [fst snd] in Hrun.
              apply IH in Hrun; [|lia|lia|lia].
              destruct Hrun
                as (outs & Hlog & Hplain & Hlen & Hbound & Hall & Hres).
              cbn [fst snd] in Hlog, Hplain.
              assert (Hne : outs <> [])
                by (destruct outs; cbn in Hlen; [lia|congruence]).
              exists (Raise e :: outs).
              split.
              { rewrite trace_cons by assumption. rewrite Hlog.
                rewrite <- !app_assoc. reflexivity. }
              split; [exact Hplain|].
              split; [cbn; lia|].
              split; [cbn [List.length]; lia|].
              destruct outs as [|o1 outs1]; [congruence|].
              split.
              { cbn [removelast]. constructor; [exists e; auto|exact Hall]. }
              change (List.length (Raise e :: o1 :: outs1))
                with (Datatypes.S (List.length (o1 :: outs1))).
              change (List.last (Raise e :: o1 :: outs1) Hang)
                with (List.last (o1 :: outs1) (@Hang A)).
              destruct Hres as [[Hres Hfull]|(Hret & Hr & Hidx & Hbig)].
              ** left. split; [exact Hres|].
                 intros e' He' Hexc'. f_equal. eapply Hfull; eauto.
              ** right. repeat split; auto. lia.
        -- apply Z.ltb_ge in Hlt.
           assert (n = 0%nat) by lia. subst n.
           cbn in Hrun |- *. unfold Task.raise in *.
           apply (Hstop (Raise e)); [reflexivity|now symmetry|auto].
      * apply (Hstop (Raise e)); [reflexivity|now symmetry|].
        intros e' He'. inversion He'; subst. congruence.
    + apply (Hstop Hang); [reflexivity|now symmetry|discriminate].
    + apply (Hstop OutOfFuel); [reflexivity|now symmetry|discriminate].
Qed.

Lemma waits_trace (k : Z) (outcomes : list (Outcome A)) :
  Observe.waits (Observe.trace rm k outcomes)
  = map (fun i => RetryManager.backoff rm (k + Z.of_nat i))
        (seq 0 (List.length outcomes - 1)).
Proof.
  revert k; induction outcomes as [|o rest IH]; intros k.
  - reflexivity.
  - destruct rest as [|o1 rest1].
    + reflexivity.
    + rewrite trace_cons by congruence. cbn [Observe.waits].
      rewrite IH. cbn [List.length Nat.sub seq map].
      rewrite Nat.sub_0_r. f_equal.
      * f_equal. lia.
      * rewrite <- seq_shift, map_map. apply map_ext.
        intros i. f_equal. lia.
Qed.

End Retry.

(** C2 (as the code has it).  With [max_retries >= 0] and a [base_delay]
    that is not negative, a run of [execute_with_retry] invokes the
    operation at least once, at most [max_retries + 1] times and never
    more than 1025 times; every invocation but the last raised an
    [Exception] and was followed by a wait of
    [min(base_delay * 2^attempt, max_delay)].  With [max_retries] up to
    1024 the run is as the contract has it: what the last invocation gave
    is what the caller gets (its value, with no invocation after it, or
    the very exception it raised, which for an [Exception] happens only
    when all [max_retries + 1] attempts are used up).  With a larger
    [max_retries] a run whose invocations all raise an [Exception] stops
    at the 1025th: the caller gets, instead of a further attempt, the
    [OverflowError] of [base_delay * (2 ** 1024)], and the last error of
    the operation is lost.  The log is that of the run on the state
    observed; the run on the plain state has the same result. *)
Theorem execute_with_retry_contract {S A : Type}
    (f : Task.t S A) (sl : Q -> S -> S) (rm : RetryManager.t) (s : S) :
  0 <= RetryManager.max_retries rm ->
  (0 <= RetryManager.base_delay rm)%Q ->
  exists (outcomes : list (Outcome A)) (r : Outcome A) (s' : S),
    RetryManager.execute_with_retry (Observe.func f) (Observe.sleep sl) rm
      (s, []) = (r, (s', Observe.trace rm 0 outcomes))
    /\ RetryManager.execute_with_retry f sl rm s = (r, s')
    /\ 1 <= Z.of_nat (List.length outcomes) <= RetryManager.max_retries rm + 1
    /\ Z.of_nat (List.length outcomes) <= 1025
    /\ Forall Observe.retried (removelast outcomes)
    /\ Observe.waits (Observe.trace rm 0 outcomes)
       = map (fun i =>
                Py.min2 (RetryManager.base_delay rm
                         * inject_Z (2 ^ Z.of_nat i))%Q
                        (RetryManager.max_delay rm))
             (seq 0 (List.length outcomes - 1))
    /\ (RetryManager.max_retries rm <= 1024 ->
        List.last outcomes Hang = r
        /\ (forall e, r = Raise e -> is_Exception e = true ->
            Z.of_nat (List.length outcomes)
            = RetryManager.max_retries rm + 1))
    /\ (1024 < RetryManager.max_retries rm ->
        (List.last outcomes Hang = r
         /\ ~ Observe.retried (List.last outcomes Hang))
        \/ (Observe.retried (List.last outcomes Hang)
            /\ List.length outcomes = 1025%nat
            /\ r = Raise RetryManager.int_too_large)).
Proof.
  intros Hmax _. unfold RetryManager.execute_with_retry.
  destruct (RetryManager.attempts (Observe.func f) (Observe.sleep sl) rm
              (Z.to_nat (RetryManager.max_retries rm + 1)) 0 None (s, []))
    as [r [s' log]] eqn:Hrun.
  apply attempts_observed in Hrun; [|lia|lia|lia].
  destruct Hrun as (outs & Hlog & Hplain & Hlen & Hbound & Hall & Hres).
  cbn [app] in Hlog. subst log.
  exists outs, r, s'.
  split; [reflexivity|]. split; [exact Hplain|].
  split; [lia|]. split; [lia|]. split; [exact Hall|].
  split; [rewrite waits_trace; apply map_ext; intros i; reflexivity|].
  split.
  - intros Hsmall.
    destruct Hres as [[Hlast Hfull]|(_ & _ & _ & Hbig)]; [|lia].
    split; [exact Hlast|].
    intros e He Hexc. rewrite (Hfull e He Hexc). lia.
  - intros Hbig.
    destruct Hres as [[Hlast Hfull]|(Hret & Hr & Hidx & _)].
    + left. split; [exact Hlast|].
      intros (e & He & Hexc). rewrite Hlast in He.
      specialize (Hfull e He Hexc). lia.
    + right. repeat split; auto. lia.
Qed.

(** The theorem at a manager of three retries and an operation that
    raises twice. *)
Lemma execute_with_retry_contract_witness :
  exists (outcomes : list (Outcome nat)) (r : Outcome nat) (s' : nat),
    RetryManager.execute_with_retry (Observe.func (Sample.flaky 2))
      (Observe.sleep Sample.no_sleep) (RetryManager.new 3) (0%nat, [])
      = (r, (s', Observe.trace (RetryManager.new 3) 0 outcomes))
    /\ RetryManager.execute_with_retry (Sample.flaky 2) Sample.no_sleep
         (RetryManager.new 3) 0%nat = (r, s')
    /\ 1 <= Z.of_nat (List.length outcomes)
         <= RetryManager.max_retries (RetryManager.new 3) + 1
    /\ Forall Observe.retried (removelast outcomes)
    /\ List.last outcomes Hang = r.
Proof.
  destruct (execute_with_retry_contract (Sample.flaky 2) Sample.no_sleep
              (RetryManager.new 3) 0%nat)
    as (outcomes & r & s' & Hrun & Hplain & Hlen & _ & Hall & _ & Hsmall & _).
  - simpl; lia.
  - discriminate.
  - exists outcomes, r, s'. repeat split; auto; try apply Hlen.
    apply Hsmall. simpl; lia.
Defined.

(** The run of the sample: two failures, waits of 1 and 2 seconds, then
    the value of the third invocation. *)
Example flaky_twice_then_value :
  RetryManager.execute_with_retry (Observe.func (Sample.flaky 2))
    (Observe.sleep Sample.no_sleep) (RetryManager.new 3) (0%nat, [])
  = (Ret 2%nat,
     (3%nat,
      [Observe.Called (Raise value_error); Observe.Slept 1;
       Observe.Called (Raise value_error); Observe.Slept 2;
       Observe.Called (Ret 2%nat)])).
Proof. vm_compute. reflexivity. Qed.

(** With every attempt failing, the fourth exception comes out and no wait
    follows it. *)
Example flaky_always_raises_last :
  RetryManager.execute_with_retry (Observe.func (Sample.flaky 9))
    (Observe.sleep Sample.no_sleep) (RetryManager.new 3) (0%nat, [])
  = (Raise value_error,
     (4%nat,
      [Observe.Called (Raise value_error); Observe.Slept 1;
       Observe.Called (Raise value_error); Observe.Slept 2;
       Observe.Called (Raise value_error); Observe.Slept 4;
       Observe.Called (Raise value_error)])).
Proof. vm_compute. reflexivity. Qed.

(** A manager of 1025 retries and an operation that always raises a
    [ValueError]: the operation is invoked 1025 times, not 1026, and what
    comes out is the [OverflowError] of the delay, not the [ValueError]. *)
Example retry_overflows_after_1025_calls :
  RetryManager.execute_with_retry (Sample.flaky 5000) Sample.no_sleep
    (RetryManager.new 1025) 0%nat
  = (Raise RetryManager.int_too_large, 1025%nat).
Proof. vm_compute. reflexivity. Qed.

(** A negative [max_retries] leaves the loop without an iteration: the
    operation is never invoked and [raise None] gives a [TypeError]. *)
Lemma execute_with_retry_negative {S A : Type}
    (f : Task.t S A) (sl : Q -> S -> S) (rm : RetryManager.t) (s : S) :
  RetryManager.max_retries rm < 0 ->
  RetryManager.execute_with_retry f sl rm s = (Raise type_error, s).
Proof.
  intros Hneg. unfold RetryManager.execute_with_retry.
  replace (Z.to_nat (RetryManager.max_retries rm + 1)) with 0%nat by lia.
  reflexivity.
Qed.

(** ** RateLimiter.acquire *)

Section RateLimiterFacts.
Context {R : Runtime}.

Lemma Qltb_lt (a b : Q) : Qltb a b = true <-> (a < b)%Q.
Proof.
  unfold Qltb. rewrite negb_true_iff. split.
  - intros H. apply Qnot_le_lt. intros Hle.
    apply Qle_bool_iff in Hle. congruence.
  - intros H. destruct (Qle_bool b a) eqn:E; [|reflexivity].
    apply Qle_bool_iff in E. exfalso. exact (Qlt_not_le _ _ H E).
Qed.

Lemma min_from_In (m : Q) (xs : list Q) : In (Py.min_from m xs) (m :: xs).
Proof.
  revert m; induction xs as [|x xs IH]; intros m; cbn [Py.min_from].
  - now left.
  - destruct (IH (if Qltb x m then x else m)) as [H|H].
    + rewrite <- H. destruct (Qltb x m); [right; now left | now left].
    + right; now right.
Qed.

(** The fuel given to [acquire] is enough: more fuel changes nothing, and
    the fuel never runs out. *)
Lemma acquire_fuel_enough (n : nat) (rl : RateLimiter.t) (w : World) :
  RateLimiter.acquire_fuel (2 + n) rl w = RateLimiter.acquire_fuel 2 rl w
  /\ fst (RateLimiter.acquire_fuel 2 rl w) <> OutOfFuel.
Proof.
  cbn [Nat.add RateLimiter.acquire_fuel].
  destruct (RateLimiter._lock rl);
    [split; [reflexivity|cbn; discriminate]|].
  cbn [RateLimiter.with_lock RateLimiter.with_requests
       RateLimiter.requests RateLimiter.max_requests
       RateLimiter.time_window RateLimiter._lock].
  destruct (Z.of_nat _ >=? RateLimiter.max_requests rl);
    [|split; [reflexivity|cbn; discriminate]].
  destruct (filter _ _) as [|x xs]; cbn [Py.min];
    [split; [reflexivity|cbn; discriminate]|].
  destruct (Qltb 0 _); split; try reflexivity; cbn; discriminate.
Qed.

(** An [acquire] that returns has found room: it kept the requests of the
    window, fewer than [max_requests], and added the current time. *)
Lemma acquire_returns_only_with_room (rl rl' : RateLimiter.t) (w w' : World) :
  RateLimiter.acquire (rl, w) = (Ret tt, (rl', w')) ->
  RateLimiter._lock rl = false
  /\ Z.of_nat (List.length (RateLimiter.in_window rl (time_time w)))
     < RateLimiter.max_requests rl
  /\ RateLimiter.requests rl' = (RateLimiter.in_window rl (time_time w) ++ [time_time w])%list
  /\ w' = w.
Proof.
  unfold RateLimiter.acquire. cbn [fst snd RateLimiter.acquire_fuel].
  destruct (RateLimiter._lock rl) eqn:Hl; [discriminate|].
  cbn [RateLimiter.with_lock RateLimiter.with_requests
       RateLimiter.requests RateLimiter.max_requests
       RateLimiter.time_window RateLimiter._lock].
  fold (RateLimiter.in_window rl (time_time w)).
  destruct (Z.of_nat _ >=? RateLimiter.max_requests rl) eqn:Hfull.
  - destruct (RateLimiter.in_window rl (time_time w)) as [|x xs] eqn:Hw;
      cbn [Py.min]; [discriminate|].
    pose proof (min_from_In x xs) as Hin. rewrite <- Hw in Hin.
    unfold RateLimiter.in_window in Hin. apply filter_In in Hin as [_ Hin].
    apply Qltb_lt in Hin.
    assert (Hpos : Qltb 0 (inject_Z (RateLimiter.time_window rl)
                            - (time_time w - Py.min_from x xs)) = true).
    { apply Qltb_lt. apply (Qplus_lt_l _ _ (time_time w - Py.min_from x xs)).
      ring_simplify. ring_simplify in Hin. exact Hin. }
    rewrite Hpos. discriminate.
  - intros H. inversion H; subst. repeat split; auto.
    rewrite Z.geb_leb in Hfull. apply Z.leb_gt in Hfull. exact Hfull.
Qed.

(** With the window full, [acquire] sleeps until the oldest request leaves
    the window and then waits for its own lock: it never returns and
    records nothing. *)
Lemma acquire_full_window_hangs (rl : RateLimiter.t) (w : World) :
  RateLimiter._lock rl = false ->
  RateLimiter.in_window rl (time_time w) <> [] ->
  RateLimiter.max_requests rl
    <= Z.of_nat (List.length (RateLimiter.in_window rl (time_time w))) ->
  exists rl' w',
    RateLimiter.acquire (rl, w) = (Hang, (rl', w'))
    /\ RateLimiter.requests rl' = RateLimiter.in_window rl (time_time w)
    /\ RateLimiter._lock rl' = true.
Proof.
  intros Hl Hne Hfull.
  unfold RateLimiter.acquire. cbn [fst snd RateLimiter.acquire_fuel].
  rewrite Hl.
  cbn [RateLimiter.with_lock RateLimiter.with_requests
       RateLimiter.requests RateLimiter.max_requests
       RateLimiter.time_window RateLimiter._lock].
  fold (RateLimiter.in_window rl (time_time w)).
  assert (Hge : (Z.of_nat (List.length (RateLimiter.in_window rl (time_time w)))
                 >=? RateLimiter.max_requests rl) = true).
  { rewrite Z.geb_leb. apply Z.leb_le. exact Hfull. }
  rewrite Hge.
  destruct (RateLimiter.in_window rl (time_time w)) as [|x xs] eqn:Hw; [congruence|].
  cbn [Py.min].
  pose proof (min_from_In x xs) as Hin. rewrite <- Hw in Hin.
  unfold RateLimiter.in_window in Hin. apply filter_In in Hin as [_ Hin].
  apply Qltb_lt in Hin.
  assert (Hpos : Qltb 0 (inject_Z (RateLimiter.time_window rl)
                          - (time_time w - Py.min_from x xs)) = true).
  { apply Qltb_lt. apply (Qplus_lt_l _ _ (time_time w - Py.min_from x xs)).
    ring_simplify. ring_simplify in Hin. exact Hin. }
  rewrite Hpos. eexists _, _. split; [reflexivity|]. split; reflexivity.
Qed.

End RateLimiterFacts.

(** C3.  A limiter of one request per 60 seconds: the first [acquire], at
    time 0, records its call; the second, at time 1, sleeps the 59 seconds
    that take the first call out of the window and then, calling itself
    inside [async with self._lock], waits for the lock it holds.  It never
    returns and never records its call. *)
Theorem acquire_beyond_limit_never_returns :
  RateLimiter.acquire (R := Sample.runtime) (RateLimiter.new 1 60, 0%Q)
  = (Ret tt, (RateLimiter.mk 1 60 [0%Q] false, 0%Q))
  /\ RateLimiter.acquire (R := Sample.runtime)
       (RateLimiter.mk 1 60 [0%Q] false, 1%Q)
     = (Hang, (RateLimiter.mk 1 60 [0%Q] true, 60%Q)).
Proof.
  split; vm_compute; reflexivity.
Qed.

(** ** DiscographyCrawler._enhance_tracks *)

Section EnhanceTracks.
Context {R : Runtime}.

Lemma py_in_settled (k : string) (v : PyVal) : settled (py_in k v).
Proof. destruct v; exact I. Qed.

Lemma subscript_settled (v : PyVal) (k : string) : settled (subscript v k).
Proof. destruct v; cbn; try exact I. destruct (lookup k d); exact I. Qed.

Lemma get_settled (v : PyVal) (k : string) (d : PyVal) : settled (get v k d).
Proof. destruct v; exact I. Qed.

Lemma py_int_settled (v : PyVal) : settled (py_int v).
Proof.
  destruct v; cbn; try exact I.
  - destruct f; cbn; exact I.
  - destruct (int_of_str s); exact I.
Qed.

Lemma obind_settled {A B} (o : Outcome A) (k : A -> Outcome B) :
  settled o -> (forall a, settled (k a)) -> settled (obind o k).
Proof. destruct o; cbn; auto. Qed.

Lemma omap_settled {A B} (f : A -> Outcome B) (xs : list A) :
  (forall x, settled (f x)) -> settled (omap f xs).
Proof.
  intros Hf. induction xs as [|x xs IH]; cbn; [exact I|].
  apply obind_settled; [apply Hf|]. intros y.
  apply obind_settled; [exact IH|]. intros ys. exact I.
Qed.



Lemma enhance_track_cases (i : nat) (t : Track.t) (lf : list PyVal) :
  match DiscographyCrawler.enhance_track i t lf with
  | Ret t' => track_enhanced t t'
  | Raise e => (i < List.length lf)%nat
  | Hang | OutOfFuel => False
  end.
Proof.
  unfold DiscographyCrawler.enhance_track.
  destruct (nth_error lf i) as [v|] eqn:Hv; [|now left].
  assert (Hi : (i < List.length lf)%nat)
    by (apply nth_error_Some; congruence).
  pose proof (py_in_settled "duration" v) as Hin.
  destruct (py_in "duration" v) as [b| | |]; cbn [obind] in *;
    try contradiction; [|exact Hi].
  destruct (b && DiscographyCrawler.duration_missing (Track.duration_ms t))
    eqn:Hb; [|now left].
  apply andb_true_iff in Hb as [_ Hmiss].
  pose proof (subscript_settled v "duration") as Hs.
  destruct (subscript v "duration") as [d|e| |]; cbn [obind] in *;
    try contradiction.
  - pose proof (py_int_settled d) as Hd.
    destruct (py_int d) as [secs|e| |]; try contradiction.
    + right. exists secs. split; [exact Hmiss|reflexivity].
    + destruct (is_ValueError_or_TypeError e); [now left|exact Hi].
  - destruct (is_ValueError_or_TypeError e); [now left|exact Hi].
Qed.


(** The loop from position [i] on. *)
Lemma enhance_tracks_from_spec (lf : list PyVal) :
  forall (mb : list Track.t) (i : nat),
    match DiscographyCrawler.enhance_tracks_from i mb lf with
    | Ret res =>
        List.length res = List.length mb
        /\ forall j t, nth_error mb j = Some t ->
             exists t', nth_error res j = Some t'
                        /\ DiscographyCrawler.enhance_track (i + j) t lf = Ret t'
    | Raise e =>
        exists j t, nth_error mb j = Some t
                    /\ DiscographyCrawler.enhance_track (i + j) t lf = Raise e
    | Hang | OutOfFuel => False
    end.
Proof.
  induction mb as [|t mb IH]; intros i; cbn [DiscographyCrawler.enhance_tracks_from].
  - split; [reflexivity|]. intros [|j] t H; discriminate.
  - pose proof (enhance_track_cases i t lf) as Hc.
    destruct (DiscographyCrawler.enhance_track i t lf) as [t'|e| |] eqn:Ht;
      cbn [obind]; try contradiction.
    + specialize (IH (Datatypes.S i)).
      destruct (DiscographyCrawler.enhance_tracks_from (Datatypes.S i) mb lf)
        as [res|e| |]; cbn [obind]; try contradiction.
      * destruct IH as [Hlen Hnth]. split; [cbn; now rewrite Hlen|].
        intros [|j] u Hu; cbn in Hu.
        -- inversion Hu; subst. exists t'. rewrite Nat.add_0_r. now split.
        -- destruct (Hnth j u Hu) as (u' & Hu' & He).
           exists u'. split; [exact Hu'|].
           now replace (i + Datatypes.S j)%nat with (Datatypes.S i + j)%nat by lia.
      * destruct IH as (j & u & Hu & He).
        exists (Datatypes.S j), u. split; [exact Hu|].
        now replace (i + Datatypes.S j)%nat with (Datatypes.S i + j)%nat by lia.
    + exists 0%nat, t. rewrite Nat.add_0_r. now split.
Qed.


(** What [_enhance_tracks] returns keeps the canonical tracks position by
    position. *)
Lemma enhance_tracks_Forall2 (mb : list Track.t) (lf : list PyVal)
    (res : list Track.t) :
  DiscographyCrawler._enhance_tracks mb lf = Ret res ->
  Forall2 track_enhanced mb res.
Proof.
  unfold DiscographyCrawler._enhance_tracks. generalize 0%nat.
  revert res. induction mb as [|t mb IH]; intros res i;
    cbn [DiscographyCrawler.enhance_tracks_from].
  - intros H; inversion H; constructor.
  - pose proof (enhance_track_cases i t lf) as Hc.
    destruct (DiscographyCrawler.enhance_track i t lf) as [t'|e| |];
      cbn [obind]; try discriminate.
    destruct (DiscographyCrawler.enhance_tracks_from (Datatypes.S i) mb lf)
      as [r|e| |] eqn:Hr; cbn [obind]; try discriminate.
    intros H; inversion H; subst. constructor; [exact Hc|].
    eapply IH; eauto.
Qed.

End EnhanceTracks.


(** Three canonical tracks against two enrichment tracks: the first keeps
    its duration, the second gets one, the third is beyond the list. *)
Example enhance_tracks_shorter_list :
  DiscographyCrawler._enhance_tracks (R := Sample.runtime)
    (Album.tracks Sample.nevermind)
    [PDict [("duration", PStr "299")]; PDict [("duration", PStr "255")]]
  = Ret [Sample.track "Smells Like Teen Spirit" 1 (Some 301000);
         Sample.track "In Bloom" 2 (Some 255000);
         Sample.track "Come as You Are" 3 (Some 0)].
Proof. vm_compute. reflexivity. Qed.

(** ** DiscographyCrawler._merge_album_data *)

Section Merge.
Context {R : Runtime}.

Lemma merge_genre_cases (a : Album.t) (p : PyVal) :
  match DiscographyCrawler.merge_genre a p with
  | Ret a1 => exists g, a1 = Album.with_genre g a
  | Raise _ => True
  | Hang | OutOfFuel => False
  end.
Proof.
  unfold DiscographyCrawler.merge_genre.
  assert (Hsame : exists g, a = Album.with_genre g a)
    by (exists (Album.genre a); now destruct a).
  pose proof (py_in_settled "tags" p) as H1.
  destruct (py_in "tags" p) as [[|]| | |]; cbn [obind] in *; auto.
  pose proof (subscript_settled p "tags") as H2.
  destruct (subscript p "tags") as [tags_obj| | |]; cbn [obind] in *; auto.
  pose proof (py_in_settled "tag" tags_obj) as H3.
  destruct (py_in "tag" tags_obj) as [[|]| | |]; cbn [obind] in *; auto.
  pose proof (subscript_settled tags_obj "tag") as H4.
  destruct (subscript tags_obj "tag") as [tags| | |]; cbn [obind] in *; auto.
  destruct tags; auto.
  - pose proof (omap_settled (fun tag => get tag "name" (PStr "")) (firstn 5 l)
                  (fun x => get_settled x _ _)) as H5.
    destruct (omap _ (firstn 5 l)); cbn [obind] in *; eauto.
  - cbn. eauto.
Qed.

Lemma merge_label_cases (a : Album.t) (p : PyVal) :
  match DiscographyCrawler.merge_label a p with
  | Ret a2 =>
      a2 = a
      \/ (truthy (Album.label a) = false
          /\ exists l, subscript p "label" = Ret l
                       /\ a2 = Album.with_label l a)
  | Raise _ => True
  | Hang | OutOfFuel => False
  end.
Proof.
  unfold DiscographyCrawler.merge_label.
  destruct (truthy (Album.label a)) eqn:Ht; cbn [negb]; [now left|].
  pose proof (py_in_settled "label" p) as H1.
  destruct (py_in "label" p) as [[|]| | |]; cbn [obind] in *; auto.
  pose proof (subscript_settled p "label") as H2.
  destruct (subscript p "label") as [l| | |]; cbn [obind] in *; auto.
  right. split; [reflexivity|]. eauto.
Qed.

Lemma merge_tracks_cases (a : Album.t) (p : PyVal) :
  match DiscographyCrawler.merge_tracks a p with
  | Ret a3 =>
      a3 = a
      \/ exists ts, Forall2 track_enhanced (Album.tracks a) ts
                    /\ a3 = Album.with_tracks ts a
  | Raise _ => True
  | Hang | OutOfFuel => False
  end.
Proof.
  unfold DiscographyCrawler.merge_tracks.
  pose proof (py_in_settled "tracks" p) as H1.
  destruct (py_in "tracks" p) as [[|]| | |]; cbn [obind] in *; auto.
  pose proof (subscript_settled p "tracks") as H2.
  destruct (subscript p "tracks") as [tracks_obj| | |]; cbn [obind] in *; auto.
  pose proof (py_in_settled "track" tracks_obj) as H3.
  destruct (py_in "track" tracks_obj) as [[|]| | |]; cbn [obind] in *; auto.
  pose proof (subscript_settled tracks_obj "track") as H4.
  destruct (subscript tracks_obj "track") as [lt| | |]; cbn [obind] in *; auto.
  destruct lt; auto.
  pose proof (enhance_tracks_from_spec l (Album.tracks a) 0) as H5.
  pose proof (enhance_tracks_Forall2 (Album.tracks a) l) as H6.
  unfold DiscographyCrawler._enhance_tracks in *.
  destruct (DiscographyCrawler.enhance_tracks_from 0 (Album.tracks a) l)
    as [ts| | |]; cbn [obind]; auto.
  right. exists ts. split; [now apply H6|reflexivity].
Qed.

Lemma Forall2_track_enhanced_refl (ts : list Track.t) :
  Forall2 track_enhanced ts ts.
Proof. induction ts; constructor; [now left|assumption]. Qed.

(** The genre step with tags present: the names of the first five tags
    replace the genre, whatever it was. *)
Lemma merge_genre_tag_list (a : Album.t) (p : PyVal)
    (d : list (string * PyVal)) (l : list PyVal) :
  subscript p "tags" = Ret (PDict d) ->
  lookup "tag" d = Some (PList l) ->
  DiscographyCrawler.merge_genre a p
  = obind (omap (fun tag => get tag "name" (PStr "")) (firstn 5 l))
      (fun names => Ret (Album.with_genre (Some names) a)).
Proof.
  intros Hs Hl. unfold DiscographyCrawler.merge_genre.
  destruct p; cbn in Hs; try discriminate.
  destruct (lookup "tags" d0) eqn:Hd0; [|discriminate].
  inversion Hs; subst. cbn.
  repeat (progress (rewrite ?Hd0, ?Hl; cbn)). reflexivity.
Qed.

Lemma subscript_in (p : PyVal) (k : string) (v : PyVal) :
  subscript p k = Ret v -> py_in k p = Ret true.
Proof.
  destruct p; cbn; try discriminate.
  destruct (lookup k d); [reflexivity|discriminate].
Qed.

(** What the genre step does, branch by branch. *)
Lemma merge_genre_exact (a a1 : Album.t) (p : PyVal) :
  DiscographyCrawler.merge_genre a p = Ret a1 ->
  (py_in "tags" p = Ret false -> a1 = a)
  /\ (forall tags_obj,
        subscript p "tags" = Ret tags_obj ->
        py_in "tag" tags_obj = Ret false -> a1 = a)
  /\ (forall tags_obj tags,
        subscript p "tags" = Ret tags_obj ->
        subscript tags_obj "tag" = Ret tags ->
        match tags with
        | PList l =>
            exists names,
              omap (fun tag => get tag "name" (PStr "")) (firstn 5 l)
              = Ret names
              /\ a1 = Album.with_genre (Some names) a
        | PDict d =>
            a1 = Album.with_genre
                   (Some [match lookup "name" d with
                          | Some name => name
                          | None => PStr ""
                          end]) a
        | _ => a1 = a
        end).
Proof.
  unfold DiscographyCrawler.merge_genre. intros H. split; [|split].
  - intros Hno. rewrite Hno in H. cbn in H. congruence.
  - intros tags_obj Hs Hno.
    rewrite (subscript_in _ _ _ Hs) in H. cbn [obind] in H.
    rewrite Hs in H. cbn [obind] in H. rewrite Hno in H. cbn in H.
    congruence.
  - intros tags_obj tags Hs Ht.
    rewrite (subscript_in _ _ _ Hs) in H. cbn [obind] in H.
    rewrite Hs in H. cbn [obind] in H.
    rewrite (subscript_in _ _ _ Ht) in H. cbn [obind] in H.
    rewrite Ht in H. cbn [obind] in H.
    destruct tags; try congruence.
    + destruct (omap _ (firstn 5 l)) as [names| | |]; cbn in H;
        try discriminate.
      exists names. split; congruence.
    + cbn in H. congruence.
Qed.

(** What the label step does. *)
Lemma merge_label_exact (a a2 : Album.t) (p : PyVal) :
  DiscographyCrawler.merge_label a p = Ret a2 ->
  (truthy (Album.label a) = true -> a2 = a)
  /\ (truthy (Album.label a) = false ->
      py_in "label" p = Ret false -> a2 = a)
  /\ (truthy (Album.label a) = false ->
      py_in "label" p = Ret true ->
      exists l, subscript p "label" = Ret l /\ a2 = Album.with_label l a).
Proof.
  unfold DiscographyCrawler.merge_label. intros H. split; [|split].
  - intros Ht. rewrite Ht in H. cbn in H. congruence.
  - intros Ht Hno. rewrite Ht, Hno in H. cbn in H. congruence.
  - intros Ht Hyes. rewrite Ht, Hyes in H. cbn [negb obind] in H.
    destruct (subscript p "label") as [l| | |]; cbn in H; try discriminate.
    exists l. split; congruence.
Qed.

(** What the track step does. *)
Lemma merge_tracks_exact (a a3 : Album.t) (p : PyVal) :
  DiscographyCrawler.merge_tracks a p = Ret a3 ->
  (py_in "tracks" p = Ret false -> a3 = a)
  /\ (forall tracks_obj,
        subscript p "tracks" = Ret tracks_obj ->
        py_in "track" tracks_obj = Ret false -> a3 = a)
  /\ (forall tracks_obj lastfm_tracks,
        subscript p "tracks" = Ret tracks_obj ->
        subscript tracks_obj "track" = Ret lastfm_tracks ->
        match lastfm_tracks with
        | PList l =>
            exists ts,
              DiscographyCrawler._enhance_tracks (Album.tracks a) l = Ret ts
              /\ a3 = Album.with_tracks ts a
        | _ => a3 = a
        end).
Proof.
  unfold DiscographyCrawler.merge_tracks. intros H. split; [|split].
  - intros Hno. rewrite Hno in H. cbn in H. congruence.
  - intros tracks_obj Hs Hno.
    rewrite (subscript_in _ _ _ Hs) in H. cbn [obind] in H.
    rewrite Hs in H. cbn [obind] in H. rewrite Hno in H. cbn in H.
    congruence.
  - intros tracks_obj lastfm_tracks Hs Ht.
    rewrite (subscript_in _ _ _ Hs) in H. cbn [obind] in H.
    rewrite Hs in H. cbn [obind] in H.
    rewrite (subscript_in _ _ _ Ht) in H. cbn [obind] in H.
    rewrite Ht in H. cbn [obind] in H.
    destruct lastfm_tracks; try congruence.
    destruct (DiscographyCrawler._enhance_tracks (Album.tracks a) l)
      as [ts| | |]; cbn in H; try discriminate.
    exists ts. split; congruence.
Qed.

End Merge.

(** C1 (as the code has it).  When [_merge_album_data] returns, title,
    dates, type, catalog number, identifiers and country are those of the
    canonical album.  The label is guarded: a canonical label that is
    present and not empty is kept; one that is absent or empty is
    replaced by the payload's label when the payload has one and kept
    when it has none.  Every track is the canonical track, or that track
    with a duration where it had none (or 0); the tracks are the
    canonical ones unless the payload has a list under [tracks.track], in
    which case they are what [_enhance_tracks] makes of them.  The genre
    alone is not protected: with a list under [tags.tag] it becomes the
    names of the first five tags, with a single tag there it becomes that
    tag's name, whatever it was before; it is kept when the payload has
    no [tags], no [tag] under it, or something else than a list or a dict
    there.  The merge never blocks.  A canonical album merged with the
    payload [{"label": x}] gets the label [x] when it had none and is
    returned as it was when it had one. *)
Theorem merge_album_data_overlay {R : Runtime}
    (mb_album : Album.t) (lastfm_data : PyVal) (x : string) :
  match DiscographyCrawler._merge_album_data mb_album lastfm_data with
  | Ret merged =>
      Album.title merged = Album.title mb_album
      /\ Album.release_date merged = Album.release_date mb_album
      /\ Album.release_year merged = Album.release_year mb_album
      /\ Album.album_type merged = Album.album_type mb_album
      /\ Album.catalog_number merged = Album.catalog_number mb_album
      /\ Album.musicbrainz_id merged = Album.musicbrainz_id mb_album
      /\ Album.spotify_id merged = Album.spotify_id mb_album
      /\ Album.lastfm_id merged = Album.lastfm_id mb_album
      /\ Album.country merged = Album.country mb_album
      (* the label *)
      /\ (truthy (Album.label mb_album) = true ->
          Album.label merged = Album.label mb_album)
      /\ (truthy (Album.label mb_album) = false ->
          py_in "label" lastfm_data = Ret false ->
          Album.label merged = Album.label mb_album)
      /\ (truthy (Album.label mb_album) = false ->
          py_in "label" lastfm_data = Ret true ->
          subscript lastfm_data "label" = Ret (Album.label merged))
      (* the tracks *)
      /\ Forall2 track_enhanced (Album.tracks mb_album) (Album.tracks merged)
      /\ (py_in "tracks" lastfm_data = Ret false ->
          Album.tracks merged = Album.tracks mb_album)
      /\ (forall tracks_obj,
            subscript lastfm_data "tracks" = Ret tracks_obj ->
            py_in "track" tracks_obj = Ret false ->
            Album.tracks merged = Album.tracks mb_album)
      /\ (forall tracks_obj lastfm_tracks,
            subscript lastfm_data "tracks" = Ret tracks_obj ->
            subscript tracks_obj "track" = Ret lastfm_tracks ->
            match lastfm_tracks with
            | PList l =>
                DiscographyCrawler._enhance_tracks (Album.tracks mb_album) l
                = Ret (Album.tracks merged)
            | _ => Album.tracks merged = Album.tracks mb_album
            end)
      (* the genre *)
      /\ (py_in "tags" lastfm_data = Ret false ->
          Album.genre merged = Album.genre mb_album)
      /\ (forall tags_obj,
            subscript lastfm_data "tags" = Ret tags_obj ->
            py_in "tag" tags_obj = Ret false ->
            Album.genre merged = Album.genre mb_album)
      /\ (forall tags_obj tags,
            subscript lastfm_data "tags" = Ret tags_obj ->
            subscript tags_obj "tag" = Ret tags ->
            match tags with
            | PList l =>
                exists names,
                  omap (fun tag => get tag "name" (PStr "")) (firstn 5 l)
                  = Ret names
                  /\ Album.genre merged = Some names
            | PDict d =>
                Album.genre merged
                = Some [match lookup "name" d with
                        | Some name => name
                        | None => PStr ""
                        end]
            | _ => Album.genre merged = Album.genre mb_album
            end)
  | Raise _ => True
  | Hang | OutOfFuel => False
  end
  /\ (Album.label mb_album = PNone ->
      DiscographyCrawler._merge_album_data mb_album (PDict [("label", PStr x)])
      = Ret (Album.with_label (PStr x) mb_album))
  /\ (truthy (Album.label mb_album) = true ->
      DiscographyCrawler._merge_album_data mb_album (PDict [("label", PStr x)])
      = Ret mb_album).
Proof.
  split; [|split].
  - unfold DiscographyCrawler._merge_album_data.
    pose proof (merge_genre_cases mb_album lastfm_data) as Hg.
    destruct (DiscographyCrawler.merge_genre mb_album lastfm_data)
      as [a1| | |] eqn:Eg; cbn [obind]; auto.
    pose proof (merge_label_cases a1 lastfm_data) as Hl.
    destruct (DiscographyCrawler.merge_label a1 lastfm_data)
      as [a2| | |] eqn:El; cbn [obind]; auto.
    pose proof (merge_tracks_cases a2 lastfm_data) as Ht.
    destruct (DiscographyCrawler.merge_tracks a2 lastfm_data)
      as [a3| | |] eqn:Et; auto.
    destruct (merge_genre_exact _ _ _ Eg) as (G1 & G2 & G3).
    destruct (merge_label_exact _ _ _ El) as (L1 & L2 & L3).
    destruct (merge_tracks_exact _ _ _ Et) as (T1 & T2 & T3).
    (* what each step leaves alone *)
    assert (Hgenre : Album.genre a3 = Album.genre a1).
    { destruct Ht as [->|(ts & _ & ->)];
        (destruct Hl as [->|(_ & l & _ & ->)]; reflexivity). }
    assert (Hlabel1 : Album.label a1 = Album.label mb_album).
    { destruct Hg as [g ->]. reflexivity. }
    assert (Hlabel3 : Album.label a3 = Album.label a2).
    { destruct Ht as [->|(ts & _ & ->)]; reflexivity. }
    assert (Htracks2 : Album.tracks a2 = Album.tracks mb_album).
    { destruct Hg as [g ->].
      destruct Hl as [->|(_ & l & _ & ->)]; reflexivity. }
    assert (Htracks : Forall2 track_enhanced (Album.tracks mb_album)
                        (Album.tracks a3)).
    { destruct Hg as [g ->].
      destruct Ht as [->|(ts & HF & ->)];
        (destruct Hl as [->|(_ & l & _ & ->)]; cbn in *;
         first [exact HF | apply Forall2_track_enhanced_refl]). }
    assert (Hrest : Album.title a3 = Album.title mb_album
              /\ Album.release_date a3 = Album.release_date mb_album
              /\ Album.release_year a3 = Album.release_year mb_album
              /\ Album.album_type a3 = Album.album_type mb_album
              /\ Album.catalog_number a3 = Album.catalog_number mb_album
              /\ Album.musicbrainz_id a3 = Album.musicbrainz_id mb_album
              /\ Album.spotify_id a3 = Album.spotify_id mb_album
              /\ Album.lastfm_id a3 = Album.lastfm_id mb_album
              /\ Album.country a3 = Album.country mb_album).
    { destruct Hg as [g ->].
      destruct Ht as [->|(ts & _ & ->)];
        (destruct Hl as [->|(_ & l & _ & ->)]; cbn; repeat split). }
    destruct Hrest as (H1 & H2 & H3 & H4 & H5 & H6 & H7 & H8 & H9).
    repeat (split; [assumption|]).
    (* the label *)
    split.
    { intros Hpresent. rewrite Hlabel3, <- Hlabel1.
      rewrite (L1 ltac:(rewrite Hlabel1; exact Hpresent)). reflexivity. }
    split.
    { intros Habsent Hno. rewrite Hlabel3, <- Hlabel1.
      rewrite (L2 ltac:(rewrite Hlabel1; exact Habsent) Hno). reflexivity. }
    split.
    { intros Habsent Hyes.
      destruct (L3 ltac:(rewrite Hlabel1; exact Habsent) Hyes)
        as (l & Hsub & ->).
      rewrite Hlabel3. exact Hsub. }
    (* the tracks *)
    split; [exact Htracks|].
    split.
    { intros Hno. rewrite (T1 Hno). exact Htracks2. }
    split.
    { intros tracks_obj Hs Hno. rewrite (T2 tracks_obj Hs Hno).
      exact Htracks2. }
    split.
    { intros tracks_obj lastfm_tracks Hs Hlt.
      specialize (T3 tracks_obj lastfm_tracks Hs Hlt).
      destruct lastfm_tracks;
        try (rewrite T3; exact Htracks2).
      destruct T3 as (ts & Hts & ->). rewrite <- Htracks2. exact Hts. }
    (* the genre *)
    split.
    { intros Hno. rewrite Hgenre, (G1 Hno). reflexivity. }
    split.
    { intros tags_obj Hs Hno. rewrite Hgenre, (G2 tags_obj Hs Hno).
      reflexivity. }
    intros tags_obj tags Hs Htag.
    specialize (G3 tags_obj tags Hs Htag).
    destruct tags; try (rewrite Hgenre, G3; reflexivity).
    destruct G3 as (names & Hnames & ->). exists names.
    split; [exact Hnames|]. rewrite Hgenre. reflexivity.
  - intros Hnone. unfold DiscographyCrawler._merge_album_data,
      DiscographyCrawler.merge_genre, DiscographyCrawler.merge_label,
      DiscographyCrawler.merge_tracks.
    cbn -[truthy]. rewrite Hnone. reflexivity.
  - intros Hsome. unfold DiscographyCrawler._merge_album_data,
      DiscographyCrawler.merge_genre, DiscographyCrawler.merge_label,
      DiscographyCrawler.merge_tracks.
    cbn -[truthy]. rewrite Hsome. reflexivity.
Qed.

(** C1, as stated, fails on the genre: a canonical album whose genre is
    [\["Grunge"\]], merged with a payload that carries the tag "rock",
    comes back with the genre [\["rock"\]]; label and tracks are kept. *)
Lemma merge_overwrites_present_genre :
  Album.genre Sample.nevermind = Some [PStr "Grunge"]
  /\ DiscographyCrawler._merge_album_data (R := Sample.runtime)
       Sample.nevermind Sample.payload_tags
     = Ret (Album.with_genre (Some [PStr "rock"]) Sample.nevermind).
Proof. split; vm_compute; reflexivity. Qed.

(** The two cases of the specification, and a present duration of 0 being
    filled like an absent one. *)
Example merge_fills_missing_label :
  DiscographyCrawler._merge_album_data (R := Sample.runtime)
    Sample.bleach Sample.payload_label
  = Ret (Album.with_label (PStr "X") Sample.bleach).
Proof. vm_compute. reflexivity. Qed.

Example merge_keeps_present_label :
  DiscographyCrawler._merge_album_data (R := Sample.runtime)
    Sample.nevermind Sample.payload_label
  = Ret Sample.nevermind.
Proof. vm_compute. reflexivity. Qed.

Example merge_fills_durations :
  option_map (fun a => map Track.duration_ms (Album.tracks a))
    (match DiscographyCrawler._merge_album_data (R := Sample.runtime)
             Sample.nevermind
             (PDict [("tracks",
                PDict [("track",
                  PList [PDict [("duration", PStr "299")];
                         PDict [("duration", PStr "255")];
                         PDict [("duration", PStr "219")]])])])
     with Ret a => Some a | _ => None end)
  = Some [Some 301000; Some 255000; Some 219000].
Proof. vm_compute. reflexivity. Qed.

(** ** BaseCrawler.make_request with room in the limiter *)

Section MakeRequestFacts.
Context {R : Runtime}.

Lemma filter_length_le {A} (f : A -> bool) (l : list A) :
  (List.length (filter f l) <= List.length l)%nat.
Proof.
  induction l as [|x l IH]; cbn; [lia|]. destruct (f x); cbn; lia.
Qed.

Lemma acquire_with_room (rl : RateLimiter.t) (w : World) (n : Z) :
  1 <= n -> has_room rl n ->
  exists rl',
    RateLimiter.acquire (rl, w) = (Ret tt, (rl', w))
    /\ has_room rl' (n - 1).
Proof.
  intros Hn [Hl Hroom].
  unfold RateLimiter.acquire. cbn [fst snd RateLimiter.acquire_fuel].
  rewrite Hl.
  cbn [RateLimiter.with_lock RateLimiter.with_requests
       RateLimiter.requests RateLimiter.max_requests
       RateLimiter.time_window RateLimiter._lock].
  fold (RateLimiter.in_window rl (time_time w)).
  pose proof (filter_length_le
                (fun req_time =>
                   Qltb (time_time w - req_time)
                        (inject_Z (RateLimiter.time_window rl)))
                (RateLimiter.requests rl)) as Hle.
  fold (RateLimiter.in_window rl (time_time w)) in Hle.
  assert (Hlt : (Z.of_nat (List.length (RateLimiter.in_window rl (time_time w)))
                 >=? RateLimiter.max_requests rl) = false).
  { rewrite Z.geb_leb. apply Z.leb_gt. lia. }
  rewrite Hlt. eexists. split; [reflexivity|].
  split; [reflexivity|]. cbn. rewrite List.length_app. cbn. lia.
Qed.

(** The retry manager hands on what a first successful attempt gave. *)
Lemma execute_with_retry_first_try {S A} (f : Task.t S A) (sl : Q -> S -> S)
    (rm : RetryManager.t) (s s1 : S) (v : A) :
  0 <= RetryManager.max_retries rm ->
  f s = (Ret v, s1) ->
  RetryManager.execute_with_retry f sl rm s = (Ret v, s1).
Proof.
  intros Hmax Hf. unfold RetryManager.execute_with_retry.
  destruct (Z.to_nat (RetryManager.max_retries rm + 1)) as [|n] eqn:Hn; [lia|].
  cbn. rewrite Hf. reflexivity.
Qed.

(** Under the retry manager a benign operation stays benign. *)
Lemma attempts_benign {S A} (f : Task.t S A) (sl : Q -> S -> S)
    (rm : RetryManager.t) :
  (forall s, benign (fst (f s))) ->
  forall n k prev s,
    match prev with Some e => is_Exception e = true | None => True end ->
    benign (fst (RetryManager.attempts f sl rm n k prev s)).
Proof.
  intros Hf. induction n as [|n IH]; intros k prev s Hprev.
  - cbn. destruct prev; cbn; [exact Hprev|reflexivity].
  - cbn [RetryManager.attempts]. specialize (Hf s).
    destruct (f s) as [[v|e| |] s1]; cbn in Hf |- *; try contradiction.
    + exact I.
    + rewrite Hf. destruct (k <? RetryManager.max_retries rm);
        [|apply IH; exact Hf].
      unfold RetryManager.delay.
      destruct (RetryManager.float_max_exponent <? k);
        [reflexivity|apply IH; exact Hf].
Qed.

Lemma execute_with_retry_benign {S A} (f : Task.t S A) (sl : Q -> S -> S)
    (rm : RetryManager.t) (s : S) :
  (forall s, benign (fst (f s))) ->
  benign (fst (RetryManager.execute_with_retry f sl rm s)).
Proof.
  intros Hf. unfold RetryManager.execute_with_retry.
  apply attempts_benign; [exact Hf|exact I].
Qed.

End MakeRequestFacts.

(** ** The merge can only raise an [Exception] *)

Section Benign.
Context {R : Runtime}.

Lemma py_in_benign (k : string) (v : PyVal) : benign (py_in k v).
Proof. destruct v; cbn; auto. Qed.

Lemma subscript_benign (v : PyVal) (k : string) : benign (subscript v k).
Proof. destruct v; cbn; auto. destruct (lookup k d); cbn; auto. Qed.

Lemma get_benign (v : PyVal) (k : string) (d : PyVal) : benign (get v k d).
Proof. destruct v; cbn; auto. Qed.

Lemma iter_benign (v : PyVal) : benign (iter v).
Proof. destruct v; cbn; auto. Qed.

Lemma py_int_benign (v : PyVal) : benign (py_int v).
Proof.
  destruct v; cbn; auto.
  - destruct f; cbn; auto.
  - destruct (int_of_str s); cbn; auto.
Qed.

Lemma obind_benign {A B} (o : Outcome A) (k : A -> Outcome B) :
  benign o -> (forall a, benign (k a)) -> benign (obind o k).
Proof. destruct o; cbn; auto. Qed.

Lemma omap_benign {A B} (f : A -> Outcome B) (xs : list A) :
  (forall x, benign (f x)) -> benign (omap f xs).
Proof.
  intros Hf. induction xs as [|x xs IH]; cbn; [exact I|].
  apply obind_benign; [apply Hf|]. intros y.
  apply obind_benign; [exact IH|]. intros ys. exact I.
Qed.

Lemma enhance_track_benign (i : nat) (t : Track.t) (lf : list PyVal) :
  benign (DiscographyCrawler.enhance_track i t lf).
Proof.
  unfold DiscographyCrawler.enhance_track.
  destruct (nth_error lf i) as [v|]; [|exact I].
  apply obind_benign; [apply py_in_benign|]. intros b.
  destruct (b && _); [|exact I].
  assert (Hd : benign (obind (subscript v "duration") (fun d => py_int d))).
  { apply obind_benign; [apply subscript_benign|apply py_int_benign]. }
  destruct (obind (subscript v "duration") (fun d => py_int d)) as [z|e| |];
    cbn in Hd |- *; auto.
  destruct (is_ValueError_or_TypeError e); cbn; auto.
Qed.

Lemma enhance_tracks_benign (mb : list Track.t) (lf : list PyVal) :
  benign (DiscographyCrawler._enhance_tracks mb lf).
Proof.
  unfold DiscographyCrawler._enhance_tracks. generalize 0%nat.
  induction mb as [|t mb IH]; intros i; cbn; [exact I|].
  apply obind_benign; [apply enhance_track_benign|]. intros t'.
  apply obind_benign; [apply IH|]. intros r. exact I.
Qed.

Lemma merge_album_data_benign (a : Album.t) (p : PyVal) :
  benign (DiscographyCrawler._merge_album_data a p).
Proof.
  unfold DiscographyCrawler._merge_album_data.
  apply obind_benign.
  - unfold DiscographyCrawler.merge_genre.
    apply obind_benign; [apply py_in_benign|]. intros [|]; [|exact I].
    apply obind_benign; [apply subscript_benign|]. intros tags_obj.
    apply obind_benign; [apply py_in_benign|]. intros [|]; [|exact I].
    apply obind_benign; [apply subscript_benign|]. intros tags.
    destruct tags; try exact I.
    apply obind_benign; [|intros; exact I].
    apply omap_benign. intros tag. apply get_benign.
  - intros a1. apply obind_benign.
    + unfold DiscographyCrawler.merge_label.
      destruct (negb _); [|exact I].
      apply obind_benign; [apply py_in_benign|]. intros [|]; [|exact I].
      apply obind_benign; [apply subscript_benign|intros; exact I].
    + intros a2. unfold DiscographyCrawler.merge_tracks.
      apply obind_benign; [apply py_in_benign|]. intros [|]; [|exact I].
      apply obind_benign; [apply subscript_benign|]. intros tracks_obj.
      apply obind_benign; [apply py_in_benign|]. intros [|]; [|exact I].
      apply obind_benign; [apply subscript_benign|]. intros lt.
      destruct lt; try exact I.
      apply obind_benign; [apply enhance_tracks_benign|intros; exact I].
Qed.

End Benign.

(** ** The enrichment loop *)

Section EnrichmentLoop.
Context {R : Runtime} {Sv : Services R}.

Lemma steady_refl (self : DiscographyCrawler.t) : steady self self.
Proof. repeat split. Qed.

Lemma steady_trans (a b c : DiscographyCrawler.t) :
  steady a b -> steady b c -> steady a c.
Proof.
  intros (H1 & H2 & H3 & H4) (K1 & K2 & K3 & K4).
  repeat split; congruence.
Qed.

(** A request made with room in the limiter is the operation under the
    retry manager. *)
Lemma crawler_make_request_room {A} (func : Task.t World A)
    (self : DiscographyCrawler.t) (w : World) (n : Z) :
  1 <= n -> room self n ->
  exists self',
    DiscographyCrawler.make_request func (self, w)
    = (fst (RetryManager.execute_with_retry func asyncio_sleep
              (BaseCrawler.retry_manager (DiscographyCrawler.base self)) w),
       (self',
        snd (RetryManager.execute_with_retry func asyncio_sleep
               (BaseCrawler.retry_manager (DiscographyCrawler.base self)) w)))
    /\ room self' (n - 1)
    /\ steady self self'.
Proof.
  intros Hn Hroom. unfold room in Hroom.
  destruct (acquire_with_room _ w n Hn Hroom) as (rl' & Hacq & Hroom').
  unfold DiscographyCrawler.make_request, BaseCrawler.make_request.
  cbn [fst snd]. rewrite Hacq.
  cbn [BaseCrawler.retry_manager BaseCrawler.incr_made
       BaseCrawler.with_rate_limiter].
  destruct (RetryManager.execute_with_retry func asyncio_sleep
              (BaseCrawler.retry_manager (DiscographyCrawler.base self)) w)
    as [[v|e| |] w2]; cbn [fst snd].
  - eexists. split; [reflexivity|]. split; [exact Hroom'|repeat split].
  - destruct (is_Exception e); cbn [fst snd];
      (eexists; split; [reflexivity|]; split; [exact Hroom'|repeat split]).
  - eexists. split; [reflexivity|]. split; [exact Hroom'|repeat split].
  - eexists. split; [reflexivity|]. split; [exact Hroom'|repeat split].
Qed.

(** One iteration: whatever the lookup gives, the body ends normally and
    appends an album; the canonical one when the lookup had no data. *)
Lemma enhance_album_room (key : string) (artist : Artist.t) (album : Album.t)
    (self : DiscographyCrawler.t) (w : World) (n : Z) :
  1 <= n -> room self n ->
  (forall w', benign (fst (lastfm_get_album_info key (Artist.name artist)
                             (Album.title album) w'))) ->
  exists a' self' w',
    DiscographyCrawler.enhance_album key artist album (self, w)
    = (Ret a', (self', w'))
    /\ room self' (n - 1)
    /\ steady self self'
    /\ (forall payload,
           fst (lookup_of key artist album (self, w)) = Ret payload ->
           truthy payload = true ->
           a' = match DiscographyCrawler._merge_album_data album payload
                with
                | Ret merged => merged
                | _ => album
                end)
    /\ (no_data (fst (lookup_of key artist album (self, w))) -> a' = album).
Proof.
  intros Hn Hroom Hben.
  destruct (crawler_make_request_room
              (lastfm_get_album_info key (Artist.name artist)
                 (Album.title album)) self w n Hn Hroom)
    as (self' & Hmr & Hroom' & Hst).
  pose proof (execute_with_retry_benign
                (lastfm_get_album_info key (Artist.name artist)
                   (Album.title album)) asyncio_sleep
                (BaseCrawler.retry_manager (DiscographyCrawler.base self))
                w Hben) as Hb.
  unfold lookup_of, DiscographyCrawler.enhance_album,
    Task.try_except, Task.bind.
  rewrite Hmr.
  destruct (RetryManager.execute_with_retry _ asyncio_sleep _ w)
    as [[v|e| |] w2]; cbn [fst snd] in *; try contradiction.
  - destruct (truthy v) eqn:Htruthy.
    + unfold Task.pure.
      pose proof (merge_album_data_benign album v) as Hm.
      destruct (DiscographyCrawler._merge_album_data album v)
        as [a'|e| |] eqn:Hmerge; cbn in Hm; try contradiction.
      * cbn. exists a', self', (asyncio_sleep (1 # 10) w2).
        split; [reflexivity|]. split; [exact Hroom'|]. split; [exact Hst|].
        split.
        -- intros payload [= <-] _. rewrite Hmerge. reflexivity.
        -- intros Hno. congruence.
      * rewrite Hm. cbn. exists album, self', w2.
        split; [reflexivity|]. split; [exact Hroom'|]. split; [exact Hst|].
        split; [|reflexivity].
        intros payload [= <-] _. rewrite Hmerge. reflexivity.
    + cbn. exists album, self', w2.
      split; [reflexivity|]. split; [exact Hroom'|]. split; [exact Hst|].
      split; [|reflexivity].
      intros payload [= <-] Ht. congruence.
  - rewrite Hb. cbn. exists album, self', w2.
    split; [reflexivity|]. split; [exact Hroom'|]. split; [exact Hst|].
    split; [|reflexivity].
    intros payload H. discriminate.
Qed.

(** The loop over the albums, entered with [enhanced_albums = acc]. *)
Lemma enhance_albums_room (key : string) (artist : Artist.t) :
  (forall title w', benign (fst (lastfm_get_album_info key
                                   (Artist.name artist) title w'))) ->
  forall (albums acc : list Album.t) (self : DiscographyCrawler.t)
         (w : World) (n : Z),
    Z.of_nat (List.length albums) <= n -> room self n ->
    exists res self' w',
      DiscographyCrawler.enhance_albums key artist albums acc (self, w)
      = (Ret (acc ++ res)%list, (self', w'))
      /\ List.length res = List.length albums
      /\ room self' (n - Z.of_nat (List.length albums))
      /\ steady self self'
      /\ forall i album s_i,
           nth_error albums i = Some album ->
           nth_error (loop_states key artist albums (self, w)) i = Some s_i ->
           exists a',
             nth_error res i = Some a'
             /\ fst (DiscographyCrawler.enhance_album key artist album s_i)
                = Ret a'
             /\ (forall payload,
                    fst (lookup_of key artist album s_i) = Ret payload ->
                    truthy payload = true ->
                    a' = match DiscographyCrawler._merge_album_data album payload
                         with
                         | Ret merged => merged
                         | _ => album
                         end)
             /\ (no_data (fst (lookup_of key artist album s_i)) ->
                 a' = album).
Proof.
  intros Hben. induction albums as [|album rest IH];
    intros acc self w n Hlen Hroom.
  - exists [], self, w. cbn. rewrite app_nil_r.
    repeat split; try apply steady_refl.
    + apply Hroom.
    + destruct Hroom as [_ H]. cbn in H |- *. lia.
    + intros [|i] album s_i H; discriminate.
  - cbn [List.length] in Hlen.
    destruct (enhance_album_room key artist album self w n
                ltac:(lia) Hroom (Hben (Album.title album)))
      as (a' & self1 & w1 & Hstep & Hroom1 & Hst1 & Hwhat & Hno).
    destruct (IH (acc ++ [a'])%list self1 w1 (n - 1) ltac:(lia) Hroom1)
      as (res & self2 & w2 & Hloop & Hlen2 & Hroom2 & Hst2 & Hall).
    exists (a' :: res), self2, w2.
    cbn [DiscographyCrawler.enhance_albums]. unfold Task.bind at 1.
    rewrite Hstep, Hloop. rewrite <- app_assoc. cbn [app].
    repeat split.
    + cbn. now rewrite Hlen2.
    + apply Hroom2.
    + destruct Hroom2 as [_ H]. cbn [List.length].
      replace (n - Z.of_nat (Datatypes.S (List.length rest)))
        with (n - 1 - Z.of_nat (List.length rest)) by lia.
      exact H.
    + apply (steady_trans _ _ _ Hst1 Hst2).
    + apply (steady_trans _ _ _ Hst1 Hst2).
    + apply (steady_trans _ _ _ Hst1 Hst2).
    + apply (steady_trans _ _ _ Hst1 Hst2).
    + intros [|i] album0 s_i Ha Hs; cbn in Ha, Hs.
      * inversion Ha; subst album0. inversion Hs; subst s_i.
        exists a'. rewrite Hstep. repeat split; auto.
      * cbn [loop_states nth_error] in Hs. rewrite Hstep in Hs.
        cbn [snd] in Hs. exact (Hall i album0 s_i Ha Hs).
Qed.

End EnrichmentLoop.

(** ** DiscographyCrawler.get_artist_discography *)

Section Crawl.
Context {R : Runtime} {Sv : Services R}.

Lemma crawler_make_request_first_try {A} (func : Task.t World A)
    (self : DiscographyCrawler.t) (w w1 : World) (v : A) (n : Z) :
  1 <= n -> room self n ->
  0 <= RetryManager.max_retries
         (BaseCrawler.retry_manager (DiscographyCrawler.base self)) ->
  func w = (Ret v, w1) ->
  exists self',
    DiscographyCrawler.make_request func (self, w) = (Ret v, (self', w1))
    /\ room self' (n - 1)
    /\ steady self self'.
Proof.
  intros Hn Hroom Hmax Hf.
  destruct (crawler_make_request_room func self w n Hn Hroom)
    as (self' & Hmr & Hroom' & Hst).
  rewrite (execute_with_retry_first_try func asyncio_sleep _ w w1 v Hmax Hf)
    in Hmr.
  exists self'. repeat split; try apply Hroom'; try apply Hst. exact Hmr.
Qed.

Lemma enhance_with_lastfm_room (key : string) (artist : Artist.t)
    (albums : list Album.t) (self : DiscographyCrawler.t) (w : World) :
  DiscographyCrawler.key_supplied (DiscographyCrawler.lastfm_api_key self)
  = Some key ->
  room self (Z.of_nat (List.length albums)) ->
  (forall title w', benign (fst (lastfm_get_album_info key
                                   (Artist.name artist) title w'))) ->
  exists res self' w',
    DiscographyCrawler._enhance_with_lastfm artist albums (self, w)
    = (Ret res, (self', w'))
    /\ List.length res = List.length albums
    /\ steady self self'
    /\ forall i album s_i,
         nth_error albums i = Some album ->
         nth_error (loop_states key artist albums (self, w)) i = Some s_i ->
         exists a',
           nth_error res i = Some a'
           /\ fst (DiscographyCrawler.enhance_album key artist album s_i)
              = Ret a'
           /\ (forall payload,
                  fst (lookup_of key artist album s_i) = Ret payload ->
                  truthy payload = true ->
                  a' = match DiscographyCrawler._merge_album_data album payload
                       with
                       | Ret merged => merged
                       | _ => album
                       end)
           /\ (no_data (fst (lookup_of key artist album s_i)) -> a' = album).
Proof.
  intros Hkey Hroom Hben.
  destruct (enhance_albums_room key artist Hben albums [] self w
              (Z.of_nat (List.length albums)) ltac:(lia) Hroom)
    as (res & self' & w' & Hloop & Hlen & _ & Hst & Hall).
  exists res, self', w'. unfold DiscographyCrawler._enhance_with_lastfm.
  cbn [fst]. rewrite Hkey. cbn [app] in Hloop. auto.
Qed.

End Crawl.

(** A crawl with a key whose requests fit the limiter: it returns, and
    every album of the result is settled by its own lookup alone. *)
Lemma crawl_with_room_isolates {R : Runtime} {Sv : Services R}
    (self : DiscographyCrawler.t) (w w1 w2 : World)
    (artist_name key : string) (primary_artist : Artist.t)
    (others : list Artist.t) (mb_albums : list Album.t) :
  DiscographyCrawler.key_supplied (DiscographyCrawler.lastfm_api_key self)
  = Some key ->
  0 <= RetryManager.max_retries
         (BaseCrawler.retry_manager (DiscographyCrawler.base self)) ->
  room self (2 + Z.of_nat (List.length mb_albums)) ->
  DiscographyCrawler.search_artist
    (DiscographyCrawler.musicbrainz_client self) artist_name w
  = (Ret (primary_artist :: others), w1) ->
  DiscographyCrawler.get_artist_discography_of
    (DiscographyCrawler.musicbrainz_client self)
    (Artist.musicbrainz_id primary_artist) w1
  = (Ret mb_albums, w2) ->
  (forall title w', benign (fst (lastfm_get_album_info key
                                   (Artist.name primary_artist) title w'))) ->
  exists d self' w' self2,
    DiscographyCrawler.get_artist_discography artist_name (self, w)
    = (Ret d, (self', w'))
    /\ Discography.sources d = ["MusicBrainz"; "Last.fm"]
    /\ Discography.artist d = primary_artist
    /\ List.length (Discography.albums d) = List.length mb_albums
    /\ (forall i album s_i,
          nth_error mb_albums i = Some album ->
          nth_error (loop_states key primary_artist mb_albums (self2, w2)) i
          = Some s_i ->
          exists a',
            nth_error (Discography.albums d) i = Some a'
            /\ (forall payload,
                   fst (lookup_of key primary_artist album s_i) = Ret payload ->
                   truthy payload = true ->
                   a' = match DiscographyCrawler._merge_album_data album payload
                        with
                        | Ret merged => merged
                        | _ => album
                        end)
            /\ (no_data (fst (lookup_of key primary_artist album s_i)) ->
                a' = album))
    /\ option_map CrawlStatus.status (DiscographyCrawler.status self')
       = Some "completed"
    /\ DiscographyCrawler.lastfm_api_key self2
       = DiscographyCrawler.lastfm_api_key self
    /\ BaseCrawler.retry_manager (DiscographyCrawler.base self2)
       = BaseCrawler.retry_manager (DiscographyCrawler.base self)
    /\ room self2 (Z.of_nat (List.length mb_albums)).
Proof.
  intros Hkey Hmax Hroom Hsearch Hdisc Hben.
  set (n := 2 + Z.of_nat (List.length mb_albums)) in *.
  set (self0 := DiscographyCrawler.with_status
                  (Some (CrawlStatus.new artist_name (datetime_now w))) self).
  destruct (crawler_make_request_first_try
              (DiscographyCrawler.search_artist
                 (DiscographyCrawler.musicbrainz_client self) artist_name)
              self0 w w1 _ n ltac:(lia) Hroom Hmax Hsearch)
    as (self1 & Hmr1 & Hroom1 & Hst1).
  assert (Hmax1 : 0 <= RetryManager.max_retries
                         (BaseCrawler.retry_manager
                            (DiscographyCrawler.base self1))).
  { destruct Hst1 as (_ & _ & _ & ->). exact Hmax. }
  destruct (crawler_make_request_first_try
              (DiscographyCrawler.get_artist_discography_of
                 (DiscographyCrawler.musicbrainz_client self)
                 (Artist.musicbrainz_id primary_artist))
              self1 w1 w2 _ (n - 1) ltac:(lia) Hroom1 Hmax1 Hdisc)
    as (self2' & Hmr2 & Hroom2 & Hst2).
  set (self2 := DiscographyCrawler.with_status
                  (option_map
                     (CrawlStatus.with_albums_found
                        (Z.of_nat (List.length mb_albums)))
                     (DiscographyCrawler.status self2')) self2').
  assert (Hkey2 : DiscographyCrawler.lastfm_api_key self2
                  = DiscographyCrawler.lastfm_api_key self).
  { destruct Hst1 as (_ & K1 & _ & _). destruct Hst2 as (_ & K2 & _ & _).
    cbn. rewrite K2, K1. reflexivity. }
  assert (Hrm2 : BaseCrawler.retry_manager (DiscographyCrawler.base self2)
                 = BaseCrawler.retry_manager (DiscographyCrawler.base self)).
  { destruct Hst1 as (_ & _ & _ & K1). destruct Hst2 as (_ & _ & _ & K2).
    cbn. rewrite K2, K1. reflexivity. }
  assert (Hroom2' : room self2 (Z.of_nat (List.length mb_albums))).
  { replace (Z.of_nat (List.length mb_albums)) with (n - 1 - 1) by lia.
    exact Hroom2. }
  destruct (enhance_with_lastfm_room key primary_artist mb_albums self2 w2
              ltac:(rewrite Hkey2; exact Hkey) Hroom2' Hben)
    as (res & self3 & w3 & Henh & Hlen & Hst3 & Hall).
  assert (Hkey3 : DiscographyCrawler.key_supplied
                    (DiscographyCrawler.lastfm_api_key self3) = Some key).
  { destruct Hst3 as (_ & -> & _ & _). rewrite Hkey2. exact Hkey. }
  assert (Hstatus3 : exists st, DiscographyCrawler.status self3 = Some st).
  { destruct Hst3 as (_ & _ & -> & _). cbn.
    destruct Hst2 as (_ & _ & -> & _). destruct Hst1 as (_ & _ & -> & _).
    cbn. eauto. }
  destruct Hstatus3 as [st Hstatus3].
  eexists _, _, _, self2.
  split.
  { unfold DiscographyCrawler.get_artist_discography.
    unfold Task.bind at 1. unfold Task.modify at 1. cbn [fst snd].
    fold self0. unfold Task.try_except.
    unfold DiscographyCrawler.crawl_body.
    unfold Task.bind at 1. unfold Task.gets at 1. cbn [fst snd].
    change (DiscographyCrawler.musicbrainz_client self0)
      with (DiscographyCrawler.musicbrainz_client self).
    unfold Task.bind at 1. rewrite Hmr1.
    unfold Task.bind at 1. rewrite Hmr2.
    unfold Task.bind at 1. unfold DiscographyCrawler.update_status at 1.
    unfold Task.modify at 1. cbn [fst snd]. fold self2.
    unfold Task.bind at 1. rewrite Henh.
    unfold Task.bind, DiscographyCrawler.update_status, Task.modify,
      Task.gets, Task.ret. cbn [fst snd DiscographyCrawler.with_status
      DiscographyCrawler.lastfm_api_key DiscographyCrawler.status].
    rewrite Hkey3. reflexivity. }
  cbn [Discography.sources Discography.with_sources Discography.artist
       Discography.albums DiscographyCrawler.status
       DiscographyCrawler.with_status].
  repeat split; auto.
  - intros i album s_i Ha Hs. destruct (Hall i album s_i Ha Hs)
      as (a' & Hn & _ & Hwhat & Hno). exists a'. auto.
  - rewrite Hstatus3. reflexivity.
  - apply Hroom2'.
  - apply Hroom2'.
Qed.

(** C4 (as the code has it).  A crawl with a Last.fm key, whose search
    and discography requests succeed at the first attempt, with room in
    the limiter for its requests and lookups that end with a value or an
    [Exception]: the crawl returns a discography of the first candidate;
    its sources are MusicBrainz and Last.fm; it has one album per
    canonical album, in order, and each is settled by its own lookup
    alone, made in the state [s_i] in which the loop reaches the album:
    where the lookup raised or brought no data the album is the canonical
    one, unmodified; where it brought a payload the album is the merge of
    the canonical album with that payload, or the canonical album when
    the merge raised.  The status ends completed.  Without room in the
    limiter the crawl does not complete: with the default limiter of five
    requests a minute and four albums, the first lookup raising, the
    sixth request finds five calls in the window and the crawl never
    returns. *)
Theorem enrichment_failure_is_isolated :
  (forall (R : Runtime) (Sv : Services R)
          (self : DiscographyCrawler.t) (w w1 w2 : World)
          (artist_name key : string) (primary_artist : Artist.t)
          (others : list Artist.t) (mb_albums : list Album.t),
   DiscographyCrawler.key_supplied (DiscographyCrawler.lastfm_api_key self)
   = Some key ->
   0 <= RetryManager.max_retries
          (BaseCrawler.retry_manager (DiscographyCrawler.base self)) ->
   room self (2 + Z.of_nat (List.length mb_albums)) ->
   DiscographyCrawler.search_artist
     (DiscographyCrawler.musicbrainz_client self) artist_name w
   = (Ret (primary_artist :: others), w1) ->
   DiscographyCrawler.get_artist_discography_of
     (DiscographyCrawler.musicbrainz_client self)
     (Artist.musicbrainz_id primary_artist) w1
   = (Ret mb_albums, w2) ->
   (forall title w', benign (fst (lastfm_get_album_info key
                                    (Artist.name primary_artist) title w'))) ->
   exists d self' w' self2,
     DiscographyCrawler.get_artist_discography artist_name (self, w)
     = (Ret d, (self', w'))
     /\ Discography.sources d = ["MusicBrainz"; "Last.fm"]
     /\ Discography.artist d = primary_artist
     /\ List.length (Discography.albums d) = List.length mb_albums
     /\ (forall i album s_i,
           nth_error mb_albums i = Some album ->
           nth_error (loop_states key primary_artist mb_albums (self2, w2)) i
           = Some s_i ->
           exists a',
             nth_error (Discography.albums d) i = Some a'
             /\ (forall payload,
                    fst (lookup_of key primary_artist album s_i) = Ret payload ->
                    truthy payload = true ->
                    a' = match DiscographyCrawler._merge_album_data album payload
                         with
                         | Ret merged => merged
                         | _ => album
                         end)
             /\ (no_data (fst (lookup_of key primary_artist album s_i)) ->
                 a' = album))
     /\ option_map CrawlStatus.status (DiscographyCrawler.status self')
        = Some "completed"
     /\ DiscographyCrawler.lastfm_api_key self2
        = DiscographyCrawler.lastfm_api_key self
     /\ BaseCrawler.retry_manager (DiscographyCrawler.base self2)
        = BaseCrawler.retry_manager (DiscographyCrawler.base self)
     /\ room self2 (Z.of_nat (List.length mb_albums)))
  /\ fst (DiscographyCrawler.get_artist_discography (Sv := Sample.services)
            "Nirvana"
            (Sample.crawler Sample.four_albums_client (Some "key"), 0%Q))
     = Hang.
Proof.
  split.
  - intros R Sv. apply crawl_with_room_isolates.
  - vm_compute. reflexivity.
Qed.

(** The theorem at the sample crawl: one artist, two albums, the lookup
    of the first one raising. *)
Lemma enrichment_failure_is_isolated_witness :
  exists d self' w' self2,
    DiscographyCrawler.get_artist_discography (Sv := Sample.services)
      "Nirvana" (Sample.crawler Sample.mock_client (Some "key"), 0%Q)
    = (Ret d, (self', w'))
    /\ Discography.sources d = ["MusicBrainz"; "Last.fm"]
    /\ Discography.artist d = Sample.artist "Nirvana"
    /\ List.length (Discography.albums d)
       = List.length [Sample.bleach; Sample.in_utero]
    /\ (forall i album s_i,
          nth_error [Sample.bleach; Sample.in_utero] i = Some album ->
          nth_error (loop_states (Sv := Sample.services) "key"
                       (Sample.artist "Nirvana")
                       [Sample.bleach; Sample.in_utero] (self2, 0%Q)) i
          = Some s_i ->
          exists a',
            nth_error (Discography.albums d) i = Some a'
            /\ (forall payload,
                   fst (lookup_of (Sv := Sample.services) "key"
                          (Sample.artist "Nirvana") album s_i) = Ret payload ->
                   truthy payload = true ->
                   a' = match DiscographyCrawler._merge_album_data
                                (R := Sample.runtime) album payload
                        with
                        | Ret merged => merged
                        | _ => album
                        end)
            /\ (no_data (fst (lookup_of (Sv := Sample.services) "key"
                                (Sample.artist "Nirvana") album s_i)) ->
                a' = album))
    /\ option_map CrawlStatus.status (DiscographyCrawler.status self')
       = Some "completed"
    /\ DiscographyCrawler.lastfm_api_key self2
       = DiscographyCrawler.lastfm_api_key
           (Sample.crawler Sample.mock_client (Some "key"))
    /\ BaseCrawler.retry_manager (DiscographyCrawler.base self2)
       = BaseCrawler.retry_manager
           (DiscographyCrawler.base
              (Sample.crawler Sample.mock_client (Some "key")))
    /\ room self2 (Z.of_nat (List.length [Sample.bleach; Sample.in_utero])).
Proof.
  apply (proj1 enrichment_failure_is_isolated Sample.runtime Sample.services
           (Sample.crawler Sample.mock_client (Some "key"))
           0%Q 0%Q 0%Q "Nirvana" "key" (Sample.artist "Nirvana") []
           [Sample.bleach; Sample.in_utero]).
  - reflexivity.
  - cbn; lia.
  - split; [reflexivity | cbn; lia].
  - reflexivity.
  - reflexivity.
  - intros title w'. cbn.
    destruct (title =? "Bleach")%string; cbn; [reflexivity | exact I].
Defined.

(** The sample crawl: the lookup for "Bleach" raises on each of its four
    attempts and the album is kept; "In Utero" gets the label found. *)
Example crawl_with_failing_lookup :
  match DiscographyCrawler.get_artist_discography (Sv := Sample.services)
          "Nirvana" (Sample.crawler Sample.mock_client (Some "key"), 0%Q)
  with
  | (Ret d, (self', _)) =>
      Discography.albums d
      = [Sample.bleach; Album.with_label (PStr "X") Sample.in_utero]
      /\ Discography.sources d = ["MusicBrainz"; "Last.fm"]
      /\ option_map CrawlStatus.status (DiscographyCrawler.status self')
         = Some "completed"
  | _ => False
  end.
Proof. vm_compute. repeat split. Qed.

(** Without room in the limiter the crawl does not complete: with four
    albums the sixth request finds five calls in the window, and [acquire]
    never returns (see [acquire_full_window_hangs]). *)
Example crawl_beyond_window_hangs :
  fst (DiscographyCrawler.get_artist_discography (Sv := Sample.services)
         "Nirvana" (Sample.crawler Sample.four_albums_client (Some "key"),
                    0%Q))
  = Hang.
Proof. vm_compute. reflexivity. Qed.

(** ** A search without candidates *)

Section NotFound.
Context {R : Runtime} {Sv : Services R}.

Lemma prefix_app (n b : string) : prefix n (n ++ b) = true.
Proof.
  induction n as [|c n IH]; cbn.
  - destruct b; reflexivity.
  - destruct (ascii_dec c c); [exact IH|congruence].
Qed.

Lemma contains_prefix (n hay : string) :
  prefix n hay = true -> contains n hay = true.
Proof.
  intros H. destruct hay; cbn [contains]; rewrite H; reflexivity.
Qed.

Lemma contains_middle (a n b : string) : contains n (a ++ n ++ b) = true.
Proof.
  induction a as [|c a IH].
  - cbn [String.append]. apply contains_prefix, prefix_app.
  - cbn [String.append contains]. rewrite IH. apply orb_true_r.
Qed.

Lemma crawler_make_request_counts {A} (func : Task.t World A)
    (self : DiscographyCrawler.t) (w w1 : World) (v : A) (n : Z) :
  1 <= n -> room self n ->
  0 <= RetryManager.max_retries
         (BaseCrawler.retry_manager (DiscographyCrawler.base self)) ->
  func w = (Ret v, w1) ->
  exists self',
    DiscographyCrawler.make_request func (self, w) = (Ret v, (self', w1))
    /\ steady self self'
    /\ BaseCrawler.stats (DiscographyCrawler.base self')
       = BaseCrawler.mkStats
           (BaseCrawler.requests_made
              (BaseCrawler.stats (DiscographyCrawler.base self)) + 1)
           (BaseCrawler.requests_successful
              (BaseCrawler.stats (DiscographyCrawler.base self)) + 1)
           (BaseCrawler.requests_failed
              (BaseCrawler.stats (DiscographyCrawler.base self))).
Proof.
  intros Hn Hroom Hmax Hf. unfold room in Hroom.
  destruct (acquire_with_room _ w n Hn Hroom) as (rl' & Hacq & _).
  unfold DiscographyCrawler.make_request, BaseCrawler.make_request.
  cbn [fst snd]. rewrite Hacq.
  cbn [BaseCrawler.retry_manager BaseCrawler.incr_made
       BaseCrawler.with_rate_limiter].
  rewrite (execute_with_retry_first_try func asyncio_sleep _ w w1 v Hmax Hf).
  cbn [fst snd]. eexists. split; [reflexivity|]. split; [|reflexivity].
  repeat split.
Qed.

(** The crawl when the search comes back empty at its first attempt. *)
Lemma crawl_with_empty_search (self : DiscographyCrawler.t) (w w1 : World)
    (artist_name : string) :
  0 <= RetryManager.max_retries
         (BaseCrawler.retry_manager (DiscographyCrawler.base self)) ->
  room self 1 ->
  DiscographyCrawler.search_artist
    (DiscographyCrawler.musicbrainz_client self) artist_name w
  = (Ret [], w1) ->
  exists self',
    DiscographyCrawler.get_artist_discography artist_name (self, w)
    = (Raise (DiscographyCrawler.crawler_error
                ("Fallimento nel crawling per '" ++ artist_name ++ "': "
                 ++ not_found artist_name)),
       (self', w1))
    /\ DiscographyCrawler.status self'
       = Some (CrawlStatus.mk artist_name (datetime_now w)
                 (Some (datetime_now w1)) "failed" 0 0
                 [not_found artist_name] [])
    /\ BaseCrawler.requests_successful
         (BaseCrawler.stats (DiscographyCrawler.base self'))
       = BaseCrawler.requests_successful
           (BaseCrawler.stats (DiscographyCrawler.base self)) + 1
    /\ BaseCrawler.requests_failed
         (BaseCrawler.stats (DiscographyCrawler.base self'))
       = BaseCrawler.requests_failed
           (BaseCrawler.stats (DiscographyCrawler.base self)).
Proof.
  intros Hmax Hroom Hsearch.
  set (self0 := DiscographyCrawler.with_status
                  (Some (CrawlStatus.new artist_name (datetime_now w))) self).
  destruct (crawler_make_request_counts
              (DiscographyCrawler.search_artist
                 (DiscographyCrawler.musicbrainz_client self) artist_name)
              self0 w w1 _ 1 ltac:(lia) Hroom Hmax Hsearch)
    as (self1 & Hmr1 & Hst1 & Hstats).
  eexists. split.
  { unfold DiscographyCrawler.get_artist_discography.
    unfold Task.bind at 1. unfold Task.modify at 1. cbn [fst snd].
    fold self0. unfold Task.try_except.
    unfold DiscographyCrawler.crawl_body.
    unfold Task.bind at 1. unfold Task.gets at 1. cbn [fst snd].
    change (DiscographyCrawler.musicbrainz_client self0)
      with (DiscographyCrawler.musicbrainz_client self).
    unfold Task.bind at 1. rewrite Hmr1.
    unfold Task.raise at 1.
    cbn [is_Exception exn_class DiscographyCrawler.crawler_error].
    unfold Task.bind, DiscographyCrawler.update_status, Task.modify,
      Task.raise. cbn [fst snd exn_str]. reflexivity. }
  cbn [DiscographyCrawler.status DiscographyCrawler.with_status
       DiscographyCrawler.base].
  destruct Hst1 as (_ & _ & Hs & _). rewrite Hs, Hstats. cbn.
  repeat split.
Qed.

End NotFound.

(** C5.  When the search for [artist_name] comes back with no candidate,
    [get_artist_discography] returns no discography: it raises a
    [CrawlerError] whose message contains the name, and leaves the status
    failed, with the "not found" message, itself containing the name, as
    its one error and the time of the failure as completion time. *)
Theorem empty_search_fails_the_crawl {R : Runtime} {Sv : Services R}
    (self : DiscographyCrawler.t) (w w1 : World) (artist_name : string) :
  0 <= RetryManager.max_retries
         (BaseCrawler.retry_manager (DiscographyCrawler.base self)) ->
  room self 1 ->
  DiscographyCrawler.search_artist
    (DiscographyCrawler.musicbrainz_client self) artist_name w
  = (Ret [], w1) ->
  exists (e : Exn) (self' : DiscographyCrawler.t) (st : CrawlStatus.t),
    DiscographyCrawler.get_artist_discography artist_name (self, w)
    = (Raise e, (self', w1))
    /\ exn_class e = CrawlerError
    /\ exn_str e
       = ("Fallimento nel crawling per '" ++ artist_name
          ++ "': Artista '" ++ artist_name ++ "' non trovato")%string
    /\ contains artist_name (exn_str e) = true
    /\ DiscographyCrawler.status self' = Some st
    /\ CrawlStatus.status st = "failed"
    /\ CrawlStatus.errors st
       = [("Artista '" ++ artist_name ++ "' non trovato")%string]
    /\ Forall (fun msg => contains artist_name msg = true)
         (CrawlStatus.errors st)
    /\ CrawlStatus.completed_at st = Some (datetime_now w1)
    /\ CrawlStatus.artist_name st = artist_name.
Proof.
  intros Hmax Hroom Hsearch.
  destruct (crawl_with_empty_search self w w1 artist_name Hmax Hroom Hsearch)
    as (self' & Hrun & Hstatus & _).
  eexists _, self', _. split; [exact Hrun|].
  split; [reflexivity|]. split; [reflexivity|].
  split; [apply (contains_middle "Fallimento nel crawling per '")|].
  split; [exact Hstatus|]. cbn. repeat split.
  constructor; [apply (contains_middle "Artista '")|constructor].
Qed.

(** The theorem at a client that finds nobody. *)
Lemma empty_search_fails_the_crawl_witness :
  exists (e : Exn) (self' : DiscographyCrawler.t) (st : CrawlStatus.t),
    DiscographyCrawler.get_artist_discography (Sv := Sample.services)
      "Nobody" (Sample.crawler Sample.empty_client None, 7%Q)
    = (Raise e, (self', 7%Q))
    /\ exn_class e = CrawlerError
    /\ exn_str e
       = ("Fallimento nel crawling per '" ++ "Nobody"
          ++ "': Artista '" ++ "Nobody" ++ "' non trovato")%string
    /\ contains "Nobody" (exn_str e) = true
    /\ DiscographyCrawler.status self' = Some st
    /\ CrawlStatus.status st = "failed"
    /\ CrawlStatus.errors st
       = [("Artista '" ++ "Nobody" ++ "' non trovato")%string]
    /\ Forall (fun msg => contains "Nobody" msg = true)
         (CrawlStatus.errors st)
    /\ CrawlStatus.completed_at st
       = Some (datetime_now (Runtime := Sample.runtime) 7%Q)
    /\ CrawlStatus.artist_name st = "Nobody".
Proof.
  apply (empty_search_fails_the_crawl (Sv := Sample.services)
           (Sample.crawler Sample.empty_client None) 7%Q 7%Q "Nobody").
  - cbn; lia.
  - split; [reflexivity | cbn; lia].
  - reflexivity.
Defined.

(** ** MusicBrainzClient.search_artist *)

Section SearchArtist.
Context {R : Runtime} {Sv : Services R}.

(** Whatever the library and the parsing do, no [Exception] leaves
    [search_artist]. *)
Lemma search_artist_raises_no_Exception (artist_name : string) (w : World) :
  match fst (MusicBrainzClient.search_artist artist_name w) with
  | Raise e => is_Exception e = false
  | _ => True
  end.
Proof.
  unfold MusicBrainzClient.search_artist, Task.try_except, Task.bind.
  destruct (mb_search_artists artist_name w) as [[result|e| |] w1].
  - unfold Task.pure.
    destruct (obind (get result "artist-list" (PList [])) _) as [l|e| |];
      cbn; auto.
    destruct (is_Exception e) eqn:He; cbn; auto.
  - destruct (is_Exception e) eqn:He; cbn; auto.
  - exact I.
  - exact I.
Qed.

Lemma search_artist_on_library_error (artist_name : string) (w w' : World)
    (e : Exn) :
  is_Exception e = true ->
  mb_search_artists artist_name w = (Raise e, w') ->
  MusicBrainzClient.search_artist artist_name w = (Ret [], w').
Proof.
  intros He Hlib.
  unfold MusicBrainzClient.search_artist, Task.try_except, Task.bind.
  rewrite Hlib, He. reflexivity.
Qed.

End SearchArtist.

(** C9.  No [Exception] ever leaves [MusicBrainzClient.search_artist].
    When the library call raises one, the method returns the empty list;
    the retry manager takes that for a success and returns it after this
    single call, without a wait; and the crawl of a crawler with room in
    its limiter ends as for an artist nobody knows: the "not found"
    [CrawlerError], the status failed with that message, the request
    counted as successful. *)
Theorem search_artist_never_propagates {R : Runtime} {Sv : Services R}
    (self : DiscographyCrawler.t) (artist_name : string) (w w' : World)
    (e : Exn) :
  is_Exception e = true ->
  mb_search_artists artist_name w = (Raise e, w') ->
  (forall name w0,
     match fst (MusicBrainzClient.search_artist name w0) with
     | Raise e0 => is_Exception e0 = false
     | _ => True
     end)
  /\ MusicBrainzClient.search_artist artist_name w = (Ret [], w')
  /\ (forall rm,
        0 <= RetryManager.max_retries rm ->
        RetryManager.execute_with_retry
          (MusicBrainzClient.search_artist artist_name) asyncio_sleep rm w
        = (Ret [], w'))
  /\ (DiscographyCrawler.musicbrainz_client self
      = DiscographyCrawler.musicbrainz ->
      0 <= RetryManager.max_retries
             (BaseCrawler.retry_manager (DiscographyCrawler.base self)) ->
      room self 1 ->
      exists self',
        DiscographyCrawler.get_artist_discography artist_name (self, w)
        = (Raise (DiscographyCrawler.crawler_error
                    ("Fallimento nel crawling per '" ++ artist_name ++ "': "
                     ++ not_found artist_name)),
           (self', w'))
        /\ DiscographyCrawler.status self'
           = Some (CrawlStatus.mk artist_name (datetime_now w)
                     (Some (datetime_now w')) "failed" 0 0
                     [not_found artist_name] [])
        /\ BaseCrawler.requests_successful
             (BaseCrawler.stats (DiscographyCrawler.base self'))
           = BaseCrawler.requests_successful
               (BaseCrawler.stats (DiscographyCrawler.base self)) + 1
        /\ BaseCrawler.requests_failed
             (BaseCrawler.stats (DiscographyCrawler.base self'))
           = BaseCrawler.requests_failed
               (BaseCrawler.stats (DiscographyCrawler.base self))).
Proof.
  intros He Hlib.
  pose proof (search_artist_on_library_error artist_name w w' e He Hlib)
    as Hsearch.
  split; [intros name w0; apply search_artist_raises_no_Exception|].
  split; [exact Hsearch|]. split.
  - intros rm Hmax. now apply execute_with_retry_first_try.
  - intros Hclient Hmax Hroom.
    apply crawl_with_empty_search; try assumption.
    rewrite Hclient. exact Hsearch.
Qed.

(** The theorem at a library that raises a network error, for a crawler
    as its constructor makes it. *)
Lemma search_artist_never_propagates_witness :
  is_Exception Sample.network_error = true
  /\ mb_search_artists (Services := Sample.services) "Nirvana" 3%Q
     = (Raise Sample.network_error, 3%Q)
  /\ MusicBrainzClient.search_artist (Sv := Sample.services) "Nirvana" 3%Q
     = (Ret [], 3%Q)
  /\ RetryManager.execute_with_retry
       (MusicBrainzClient.search_artist (Sv := Sample.services) "Nirvana")
       (asyncio_sleep (Runtime := Sample.runtime)) (RetryManager.new 3) 3%Q
     = (Ret [], 3%Q)
  /\ exists self',
       DiscographyCrawler.get_artist_discography (Sv := Sample.services)
         "Nirvana" (Sample.plain_crawler, 3%Q)
       = (Raise (DiscographyCrawler.crawler_error
                   ("Fallimento nel crawling per '" ++ "Nirvana" ++ "': "
                    ++ not_found "Nirvana")),
          (self', 3%Q))
       /\ DiscographyCrawler.status self'
          = Some (CrawlStatus.mk "Nirvana" 3%Q (Some 3%Q) "failed" 0 0
                    [not_found "Nirvana"] [])
       /\ BaseCrawler.requests_successful
            (BaseCrawler.stats (DiscographyCrawler.base self')) = 1
       /\ BaseCrawler.requests_failed
            (BaseCrawler.stats (DiscographyCrawler.base self')) = 0.
Proof.
  destruct (search_artist_never_propagates (Sv := Sample.services)
              Sample.plain_crawler "Nirvana" 3%Q 3%Q Sample.network_error
              eq_refl eq_refl) as (_ & Hsearch & Hretry & Hcrawl).
  split; [reflexivity|]. split; [reflexivity|]. split; [exact Hsearch|].
  split.
  - apply Hretry. cbn; lia.
  - apply Hcrawl.
    + reflexivity.
    + cbn; lia.
    + split; [reflexivity | cbn; lia].
Defined.

(** The sample: the library fails with a network error and the crawl
    reports that the artist was not found. *)
Example crawl_with_library_error :
  fst (DiscographyCrawler.get_artist_discography (Sv := Sample.services)
         "Nirvana" (Sample.plain_crawler, 3%Q))
  = Raise (mkExn CrawlerError
             "Fallimento nel crawling per 'Nirvana': Artista 'Nirvana' non trovato").
Proof. vm_compute. reflexivity. Qed.

(** ** MusicBrainzClient.get_artist_discography *)

Section Sorting.
Context {R : Runtime} {Sv : Services R}.

Lemma sort_key_year (a : Album.t) :
  MusicBrainzClient.sort_key a = year_or_zero a.
Proof.
  unfold MusicBrainzClient.sort_key, year_or_zero.
  destruct (Album.release_year a) as [y|]; [|reflexivity].
  destruct (y =? 0) eqn:E; cbn; [|reflexivity].
  apply Z.eqb_eq in E. now subst.
Qed.

Lemma insert_by_key_In (x y : Album.t) (l : list Album.t) :
  In y (MusicBrainzClient.insert_by_key x l) <-> y = x \/ In y l.
Proof.
  induction l as [|z l IH]; cbn.
  - intuition congruence.
  - destruct (MusicBrainzClient.sort_key x <=? MusicBrainzClient.sort_key z);
      cbn; rewrite ?IH; intuition congruence.
Qed.

Lemma insert_by_key_sorted (x : Album.t) (l : list Album.t) :
  StronglySorted by_year l ->
  StronglySorted by_year (MusicBrainzClient.insert_by_key x l).
Proof.
  induction 1 as [|z l Hs IH Hz]; cbn.
  - constructor; constructor.
  - destruct (MusicBrainzClient.sort_key x <=? MusicBrainzClient.sort_key z)
      eqn:E.
    + apply Z.leb_le in E. rewrite !sort_key_year in E.
      constructor; [constructor; assumption|].
      constructor; [exact E|].
      rewrite Forall_forall in Hz |- *. intros b Hb.
      unfold by_year in *. specialize (Hz b Hb). lia.
    + apply Z.leb_gt in E. rewrite !sort_key_year in E.
      constructor; [exact IH|].
      rewrite Forall_forall in Hz |- *. intros b Hb.
      apply insert_by_key_In in Hb as [->|Hb].
      * unfold by_year. lia.
      * now apply Hz.
Qed.

Lemma sort_by_key_sorted (l : list Album.t) :
  StronglySorted by_year (MusicBrainzClient.sort_by_key l).
Proof.
  induction l as [|x l IH]; cbn.
  - constructor.
  - now apply insert_by_key_sorted.
Qed.

Lemma insert_by_key_perm (x : Album.t) (l : list Album.t) :
  Permutation (x :: l) (MusicBrainzClient.insert_by_key x l).
Proof.
  induction l as [|z l IH]; cbn.
  - apply Permutation_refl.
  - destruct (MusicBrainzClient.sort_key x <=? MusicBrainzClient.sort_key z).
    + apply Permutation_refl.
    + eapply Permutation_trans; [apply perm_swap|].
      now apply perm_skip.
Qed.

Lemma sort_by_key_perm (l : list Album.t) :
  Permutation l (MusicBrainzClient.sort_by_key l).
Proof.
  induction l as [|x l IH]; cbn.
  - apply Permutation_refl.
  - eapply Permutation_trans; [apply perm_skip, IH|].
    apply insert_by_key_perm.
Qed.

Lemma strongly_sorted_nth {A} (Rel : A -> A -> Prop) (l : list A) :
  StronglySorted Rel l ->
  forall i j a b,
    (i < j)%nat -> nth_error l i = Some a -> nth_error l j = Some b ->
    Rel a b.
Proof.
  induction 1 as [|x l Hs IH Hx]; intros i j a b Hij Ha Hb.
  - destruct i; discriminate.
  - destruct j as [|j]; [lia|]. cbn in Hb. destruct i as [|i]; cbn in Ha.
    + inversion Ha; subst. rewrite Forall_forall in Hx.
      apply Hx. eapply nth_error_In; eauto.
    + apply (IH i j); auto; lia.
Qed.

Lemma sorted_undated_first (l : list Album.t) :
  StronglySorted by_year l -> Forall dated_ok l -> undated_first l.
Proof.
  intros Hs Hd i j a b Hij Ha Hb Hnone.
  pose proof (strongly_sorted_nth by_year l Hs i j a b Hij Ha Hb) as Hle.
  rewrite Forall_forall in Hd. specialize (Hd a (nth_error_In _ _ Ha)).
  unfold by_year, year_or_zero, dated_ok in *. rewrite Hnone in Hle.
  destruct (Album.release_year a) as [y|]; [lia|reflexivity].
Qed.

End Sorting.

Section ParsedYears.
Context {R : Runtime} {Sv : Services R}.

Lemma date_make_year (y m d : Z) (dt : Date.t) :
  Date.make y m d = Ret dt -> 1 <= Date.year dt <= 9999.
Proof.
  unfold Date.make. destruct (negb _); [discriminate|].
  destruct ((1 <=? y) && (y <=? 9999) && (1 <=? m) && (m <=? 12)
            && (1 <=? d) && (d <=? Date.days_in_month y m)) eqn:E;
    [|discriminate].
  intros H; inversion H; subst; cbn.
  repeat (apply andb_true_iff in E as [E ?]). lia.
Qed.

Lemma date_or_none_year (o : Outcome Date.t) (dt : Date.t) :
  (forall d, o = Ret d -> 1 <= Date.year d <= 9999) ->
  MusicBrainzClient.date_or_none o = Ret (Some dt) ->
  1 <= Date.year dt <= 9999.
Proof.
  intros Ho. destruct o as [d|e| |]; cbn; try discriminate.
  - intros H; inversion H; subst. now apply Ho.
  - destruct (is_ValueError_or_IndexError e); discriminate.
Qed.

Lemma parse_date_year (v : PyVal) (dt : Date.t) :
  MusicBrainzClient._parse_date v = Ret (Some dt) ->
  1 <= Date.year dt <= 9999.
Proof.
  unfold MusicBrainzClient._parse_date.
  destruct (negb (truthy v)); [discriminate|].
  destruct v; try discriminate.
  destruct (split_on "-" s) as [|y [|m [|d [|x rest]]]]; try discriminate;
    apply date_or_none_year; intros d0.
  - destruct (py_int (PStr y)); cbn [obind]; try discriminate.
    apply date_make_year.
  - destruct (py_int (PStr y)); cbn [obind]; try discriminate.
    destruct (py_int (PStr m)); cbn [obind]; try discriminate.
    apply date_make_year.
  - destruct (py_int (PStr y)); cbn [obind]; try discriminate.
    destruct (py_int (PStr m)); cbn [obind]; try discriminate.
    destruct (py_int (PStr d)); cbn [obind]; try discriminate.
    apply date_make_year.
Qed.

Lemma new_album_dated_ok (title : PyVal) (release_date : option Date.t)
    (album_type : string) (id : PyVal) (tracks : list Track.t) (a : Album.t) :
  (forall dt, release_date = Some dt -> 1 <= Date.year dt <= 9999) ->
  MusicBrainzClient.new_album title release_date album_type id tracks = Ret a ->
  dated_ok a.
Proof.
  intros Hd. unfold MusicBrainzClient.new_album.
  destruct (str_field title); cbn; try discriminate.
  destruct (optional_str_field id); cbn; try discriminate.
  intros H; inversion H; subst. unfold dated_ok; cbn.
  destruct release_date as [dt|]; cbn; [now apply Hd|exact I].
Qed.

Lemma parse_release_group_dated_ok (rg : PyVal) (w w' : World) (a : Album.t) :
  MusicBrainzClient._parse_release_group rg w = (Ret (Some a), w') ->
  dated_ok a.
Proof.
  unfold MusicBrainzClient._parse_release_group, Task.try_except.
  unfold Task.bind at 1. unfold Task.pure at 1.
  destruct (get rg "release-list" (PList [])) as [releases|e| |];
    [| destruct (is_Exception e); cbn; discriminate
     | discriminate | discriminate].
  destruct (negb (truthy releases)); [cbn; discriminate|].
  unfold Task.bind at 1. unfold Task.pure at 1.
  destruct (obind (item0 releases) _) as [[primary_release release_id]|e| |];
    [| destruct (is_Exception e); cbn; discriminate
     | discriminate | discriminate].
  unfold Task.bind at 1.
  destruct ((if truthy release_id
             then MusicBrainzClient.get_album_tracks release_id
             else Task.ret []) w) as [[tracks|e| |] w1];
    [| destruct (is_Exception e); cbn; discriminate
     | discriminate | discriminate].
  unfold Task.pure.
  destruct (get rg "title" (PStr "")) as [title|e| |]; cbn [obind];
    [| destruct (is_Exception e); cbn; discriminate
     | discriminate | discriminate].
  destruct (get primary_release "date" PNone) as [date|e| |]; cbn [obind];
    [| destruct (is_Exception e); cbn; discriminate
     | discriminate | discriminate].
  destruct (MusicBrainzClient._parse_date date) as [release_date|e| |] eqn:Hd;
    cbn [obind];
    [| destruct (is_Exception e); cbn; discriminate
     | discriminate | discriminate].
  destruct (get rg "primary-type" (PStr "album")) as [pt|e| |]; cbn [obind];
    [| destruct (is_Exception e); cbn; discriminate
     | discriminate | discriminate].
  destruct (lower pt) as [album_type|e| |]; cbn [obind];
    [| destruct (is_Exception e); cbn; discriminate
     | discriminate | discriminate].
  destruct (get rg "id" PNone) as [id|e| |]; cbn [obind];
    [| destruct (is_Exception e); cbn; discriminate
     | discriminate | discriminate].
  destruct (MusicBrainzClient.new_album title release_date album_type id tracks)
    as [album|e| |] eqn:Hn; cbn [obind];
    [| destruct (is_Exception e); cbn; discriminate
     | discriminate | discriminate].
  intros H; inversion H; subst.
  eapply new_album_dated_ok; [|exact Hn].
  intros dt ->. now apply parse_date_year in Hd.
Qed.

Lemma parse_release_groups_dated_ok (rgs : list PyVal) :
  forall (acc l : list Album.t) (w w' : World),
    Forall dated_ok acc ->
    MusicBrainzClient.parse_release_groups rgs acc w = (Ret l, w') ->
    Forall dated_ok l.
Proof.
  induction rgs as [|rg rgs IH]; intros acc l w w' Hacc;
    cbn [MusicBrainzClient.parse_release_groups].
  - unfold Task.ret. intros H; inversion H; subst; exact Hacc.
  - unfold Task.bind.
    destruct (MusicBrainzClient._parse_release_group rg w)
      as [[[a|]|e| |] w1] eqn:Hp; try discriminate.
    + apply IH. apply Forall_app. split; [exact Hacc|].
      constructor; [|constructor].
      now apply parse_release_group_dated_ok in Hp.
    + apply IH. exact Hacc.
Qed.

(** What the client returns is sorted, whatever the library answered. *)
Lemma client_discography_sorted (artist_id : option string) (w : World) :
  match fst (MusicBrainzClient.get_artist_discography artist_id w) with
  | Ret albums =>
      StronglySorted by_year albums
      /\ Forall dated_ok albums
      /\ undated_first albums
  | Raise e => is_Exception e = false
  | Hang | OutOfFuel => True
  end.
Proof.
  assert (Hnil : StronglySorted by_year [] /\ Forall dated_ok []
                 /\ undated_first []).
  { repeat split; try constructor. intros [|i] j a b _ H; discriminate. }
  unfold MusicBrainzClient.get_artist_discography, Task.try_except.
  unfold Task.bind at 1.
  destruct (mb_browse_release_groups artist_id w) as [[result|e| |] w1];
    cbn [fst]; auto.
  2:{ destruct (is_Exception e) eqn:He; cbn; auto. }
  unfold Task.bind at 1. unfold Task.pure at 1.
  destruct (obind (get result "release-group-list" (PList [])) _)
    as [rgs|e| |]; cbn [fst]; auto.
  2:{ destruct (is_Exception e) eqn:He; cbn; auto. }
  unfold Task.bind.
  destruct (MusicBrainzClient.parse_release_groups rgs [] w1)
    as [[albums|e| |] w2] eqn:Hp; cbn [fst]; auto.
  2:{ destruct (is_Exception e) eqn:He; cbn; auto. }
  cbn.
  assert (Hd : Forall dated_ok (MusicBrainzClient.sort_by_key albums)).
  { apply parse_release_groups_dated_ok in Hp; [|constructor].
    rewrite Forall_forall in Hp |- *. intros a Ha. apply Hp.
    eapply Permutation_in; [|exact Ha].
    apply Permutation_sym, sort_by_key_perm. }
  split; [apply sort_by_key_sorted|]. split; [exact Hd|].
  apply sorted_undated_first; [apply sort_by_key_sorted|exact Hd].
Qed.

End ParsedYears.

(** ** The crawl keeps the order of the albums *)

Section Inherit.
Context {R : Runtime} {Sv : Services R}.

Lemma merge_keeps_release_year (a a' : Album.t) (p : PyVal) :
  DiscographyCrawler._merge_album_data a p = Ret a' ->
  Album.release_year a' = Album.release_year a.
Proof.
  unfold DiscographyCrawler._merge_album_data.
  pose proof (merge_genre_cases a p) as Hg.
  destruct (DiscographyCrawler.merge_genre a p) as [a1| | |];
    cbn [obind]; try discriminate.
  pose proof (merge_label_cases a1 p) as Hl.
  destruct (DiscographyCrawler.merge_label a1 p) as [a2| | |];
    cbn [obind]; try discriminate.
  pose proof (merge_tracks_cases a2 p) as Ht.
  intros H. rewrite H in Ht.
  destruct Hg as [g ->].
  destruct Ht as [->|(ts & _ & ->)];
    (destruct Hl as [->|(_ & l & _ & ->)]; reflexivity).
Qed.

Lemma enhance_album_keeps_year (key : string) (artist : Artist.t)
    (album a' : Album.t) (s s' : DiscographyCrawler.t * World) :
  DiscographyCrawler.enhance_album key artist album s = (Ret a', s') ->
  Album.release_year a' = Album.release_year album.
Proof.
  unfold DiscographyCrawler.enhance_album, Task.try_except, Task.bind.
  destruct (DiscographyCrawler.make_request _ s) as [[v|e| |] s1];
    try discriminate.
  - destruct (truthy v).
    + unfold Task.pure.
      destruct (DiscographyCrawler._merge_album_data album v)
        as [m|e| |] eqn:Hm; try discriminate.
      * cbn. intros H; inversion H; subst.
        now apply merge_keeps_release_year in Hm.
      * destruct (is_Exception e); cbn; intros H; inversion H; now subst.
    + cbn. intros H; inversion H; now subst.
  - destruct (is_Exception e); cbn; intros H; inversion H; now subst.
Qed.

Lemma enhance_albums_keep_years (key : string) (artist : Artist.t) :
  forall (albums acc res : list Album.t) (s s' : DiscographyCrawler.t * World),
    DiscographyCrawler.enhance_albums key artist albums acc s = (Ret res, s') ->
    map Album.release_year res
    = (map Album.release_year acc ++ map Album.release_year albums)%list.
Proof.
  induction albums as [|album rest IH]; intros acc res s s';
    cbn [DiscographyCrawler.enhance_albums].
  - unfold Task.ret. intros H; inversion H; subst. cbn.
    now rewrite app_nil_r.
  - unfold Task.bind.
    destruct (DiscographyCrawler.enhance_album key artist album s)
      as [[a'|e| |] s1] eqn:Ha; try discriminate.
    intros H. apply IH in H. rewrite H, map_app, <- app_assoc. cbn.
    now rewrite (enhance_album_keeps_year _ _ _ _ _ _ Ha).
Qed.

Lemma enhance_with_lastfm_keeps_years (artist : Artist.t)
    (albums res : list Album.t) (s s' : DiscographyCrawler.t * World) :
  DiscographyCrawler._enhance_with_lastfm artist albums s = (Ret res, s') ->
  map Album.release_year res = map Album.release_year albums.
Proof.
  unfold DiscographyCrawler._enhance_with_lastfm.
  destruct (DiscographyCrawler.key_supplied _) as [key|].
  - intros H. now apply enhance_albums_keep_years in H.
  - intros H; inversion H; now subst.
Qed.

(** A value that comes out of the retry manager was returned by an
    invocation of the operation. *)
Lemma attempts_value_from_call {S A} (f : Task.t S A) (sl : Q -> S -> S)
    (rm : RetryManager.t) :
  forall n k prev s v s',
    RetryManager.attempts f sl rm n k prev s = (Ret v, s') ->
    exists s0, f s0 = (Ret v, s').
Proof.
  induction n as [|n IH]; intros k prev s v s'; cbn [RetryManager.attempts].
  - destruct prev; discriminate.
  - destruct (f s) as [[a|e| |] s1] eqn:Hf; try discriminate.
    + intros H; inversion H; subst. eauto.
    + destruct (is_Exception e); [|discriminate].
      destruct (k <? RetryManager.max_retries rm); [|apply IH].
      unfold RetryManager.delay.
      destruct (RetryManager.float_max_exponent <? k);
        [discriminate|apply IH].
Qed.

Lemma make_request_value_from_call {A} (func : Task.t World A)
    (s s' : DiscographyCrawler.t * World) (v : A) :
  DiscographyCrawler.make_request func s = (Ret v, s') ->
  exists w0, func w0 = (Ret v, snd s').
Proof.
  unfold DiscographyCrawler.make_request, BaseCrawler.make_request.
  destruct (RateLimiter.acquire _) as [[u|e| |] [rl w1]]; try discriminate.
  destruct (RetryManager.execute_with_retry func asyncio_sleep _ w1)
    as [[a|e| |] w2] eqn:Hr; try discriminate.
  - intros H; inversion H; subst. cbn [snd].
    unfold RetryManager.execute_with_retry in Hr.
    now apply attempts_value_from_call in Hr.
  - destruct (is_Exception e); discriminate.
Qed.

(** The albums of a discography the crawl returns are, year for year,
    those its client's [get_artist_discography] returned. *)
Lemma crawl_albums_from_client (self : DiscographyCrawler.t) (w : World)
    (artist_name : string) (d : Discography.t)
    (s' : DiscographyCrawler.t * World) :
  DiscographyCrawler.get_artist_discography artist_name (self, w)
  = (Ret d, s') ->
  exists artist_id mb_albums w0 w1,
    DiscographyCrawler.get_artist_discography_of
      (DiscographyCrawler.musicbrainz_client self) artist_id w0
    = (Ret mb_albums, w1)
    /\ map Album.release_year (Discography.albums d)
       = map Album.release_year mb_albums.
Proof.
  unfold DiscographyCrawler.get_artist_discography.
  unfold Task.bind at 1. unfold Task.modify at 1. cbn [fst snd].
  unfold Task.try_except, DiscographyCrawler.crawl_body.
  unfold Task.bind at 1. unfold Task.gets at 1. cbn [fst snd].
  cbn [DiscographyCrawler.musicbrainz_client DiscographyCrawler.with_status].
  unfold Task.bind at 1.
  destruct (DiscographyCrawler.make_request _ _) as [[artists|e| |] s1];
    try discriminate.
  2:{ destruct (is_Exception e); cbn; discriminate. }
  destruct artists as [|primary_artist others].
  { cbn. discriminate. }
  unfold Task.bind at 1.
  destruct (DiscographyCrawler.make_request _ s1) as [[mb_albums|e| |] s2]
    eqn:Hmr; try discriminate.
  2:{ destruct (is_Exception e); cbn; discriminate. }
  apply make_request_value_from_call in Hmr as [w0 Hcall].
  unfold Task.bind at 1. unfold DiscographyCrawler.update_status at 1.
  unfold Task.modify at 1.
  unfold Task.bind at 1.
  destruct (DiscographyCrawler._enhance_with_lastfm primary_artist mb_albums _)
    as [[enhanced|e| |] s3] eqn:He; try discriminate.
  2:{ destruct (is_Exception e); cbn; discriminate. }
  apply enhance_with_lastfm_keeps_years in He.
  unfold Task.bind, DiscographyCrawler.update_status, Task.modify,
    Task.gets, Task.ret. cbn [fst snd].
  intros H. inversion H; subst.
  exists (Artist.musicbrainz_id primary_artist), mb_albums, w0, (snd s2).
  split; [exact Hcall|].
  destruct (DiscographyCrawler.key_supplied _); exact He.
Qed.

Lemma same_years_Forall2 (l l' : list Album.t) :
  map Album.release_year l = map Album.release_year l' ->
  Forall2 (fun a b => Album.release_year a = Album.release_year b) l l'.
Proof.
  revert l'; induction l as [|a l IH]; intros [|b l'] H; cbn in H;
    try discriminate; constructor; inversion H; auto.
Qed.

Lemma same_years_sorted (l l' : list Album.t) :
  map Album.release_year l = map Album.release_year l' ->
  StronglySorted by_year l' -> StronglySorted by_year l.
Proof.
  intros H. apply same_years_Forall2 in H.
  induction H as [|a b l l' Hab HF IH]; intros Hs; [constructor|].
  inversion Hs as [|? ? Hs' Hb]; subst. constructor; [now apply IH|].
  clear IH Hs Hs'. induction HF as [|c e l l' Hce HF IH]; [constructor|].
  inversion Hb; subst. constructor; [|now apply IH].
  unfold by_year, year_or_zero in *. now rewrite Hab, Hce.
Qed.

Lemma same_years_dated_ok (l l' : list Album.t) :
  map Album.release_year l = map Album.release_year l' ->
  Forall dated_ok l' -> Forall dated_ok l.
Proof.
  intros H. apply same_years_Forall2 in H.
  induction H as [|a b l l' Hab HF IH]; intros Hd; [constructor|].
  inversion Hd; subst. constructor; [|now apply IH].
  unfold dated_ok in *. now rewrite Hab.
Qed.

End Inherit.

(** C10.  Whatever the library answers, the album list that
    [MusicBrainzClient.get_artist_discography] returns is in non-decreasing
    order of release year, an album without a year counting as year 0; the
    years present are calendar years from 1 on, so no dated album stands
    before an undated one.  No [Exception] leaves the method.  A
    discography that a crawl with this client returns has its albums in
    that same order. *)
Theorem discography_sorted_by_release_year {R : Runtime} {Sv : Services R} :
  (forall (artist_id : option string) (w : World),
     match fst (MusicBrainzClient.get_artist_discography artist_id w) with
     | Ret albums =>
         StronglySorted by_year albums
         /\ Forall dated_ok albums
         /\ undated_first albums
     | Raise e => is_Exception e = false
     | Hang | OutOfFuel => True
     end)
  /\ (forall (self : DiscographyCrawler.t) (w : World) (artist_name : string)
             (d : Discography.t) (s' : DiscographyCrawler.t * World),
        DiscographyCrawler.musicbrainz_client self
        = DiscographyCrawler.musicbrainz ->
        DiscographyCrawler.get_artist_discography artist_name (self, w)
        = (Ret d, s') ->
        StronglySorted by_year (Discography.albums d)
        /\ undated_first (Discography.albums d)).
Proof.
  split; [exact client_discography_sorted|].
  intros self w artist_name d s' Hclient Hrun.
  destruct (crawl_albums_from_client self w artist_name d s' Hrun)
    as (artist_id & mb_albums & w0 & w1 & Hcall & Hyears).
  rewrite Hclient in Hcall. cbn in Hcall.
  pose proof (client_discography_sorted artist_id w0) as Hs.
  rewrite Hcall in Hs. cbn in Hs. destruct Hs as (Hs & Hd & _).
  assert (Hs' : StronglySorted by_year (Discography.albums d))
    by (eapply same_years_sorted; eauto).
  split; [exact Hs'|].
  apply sorted_undated_first; [exact Hs'|].
  eapply same_years_dated_ok; eauto.
Qed.

(** The catalogue of the samples, listed as 1991, undated, 1989, comes
    back undated first, then 1989, then 1991. *)
Example catalogue_sorted :
  match MusicBrainzClient.get_artist_discography (Sv := Sample.catalogue)
          (Some "mbid-1") 0%Q with
  | (Ret albums, _) =>
      map (fun a => (Album.title a, Album.release_year a)) albums
      = [("Demo", None); ("Bleach", Some 1989); ("Nevermind", Some 1991)]
  | _ => False
  end.
Proof. vm_compute. reflexivity. Qed.

(** The crawl over the catalogue, enrichment included, keeps that order. *)
Example catalogue_crawl_sorted :
  match DiscographyCrawler.get_artist_discography (Sv := Sample.catalogue)
          "Nirvana"
          (DiscographyCrawler.new (Sv := Sample.catalogue) (Some "key") 5 60 3,
           0%Q)
  with
  | (Ret d, _) =>
      map (fun a => (Album.title a, Album.release_year a))
          (Discography.albums d)
      = [("Demo", None); ("Bleach", Some 1989); ("Nevermind", Some 1991)]
      /\ Discography.total_tracks d = 0
  | _ => False
  end.
Proof. vm_compute. split; reflexivity. Qed.

(** ** LyricsMetadataClient *)

Section Lyrics.
Context {R : Runtime}.

Lemma title_snippet_origin (song_data : PyVal) :
  no_description song_data ->
  match LyricsMetadataClient.title_snippet song_data with
  | Ret s => snippet_origin song_data s
  | Raise e => is_Exception e = true
  | Hang | OutOfFuel => False
  end.
Proof.
  intros Hno. unfold LyricsMetadataClient.title_snippet.
  pose proof (get_benign song_data "title" (PStr "N/A")) as Hb.
  destruct (get song_data "title" (PStr "N/A")) as [title| | |] eqn:Ht;
    cbn in *; auto.
  right. split; [exact Hno|]. exists title. now split.
Qed.

Lemma snippet_cases (song_data : PyVal) :
  exists o,
    LyricsMetadataClient._get_identification_snippet song_data = Ret o
    /\ forall s, o = Some s -> snippet_origin song_data s.
Proof.
  unfold LyricsMetadataClient._get_identification_snippet.
  assert (Hfall : no_description song_data ->
            exists o,
              LyricsMetadataClient.none_on_exception
                (LyricsMetadataClient.title_snippet song_data) = Ret o
              /\ forall s, o = Some s -> snippet_origin song_data s).
  { intros Hno. pose proof (title_snippet_origin song_data Hno) as Ht.
    destruct (LyricsMetadataClient.title_snippet song_data) as [s|e| |];
      cbn; try contradiction.
    - exists (Some s). split; [reflexivity|]. intros s0 H; inversion H; now subst.
    - rewrite Ht. exists None. split; [reflexivity|discriminate]. }
  destruct (get song_data "description" (PDict [])) as [description|e| |]
    eqn:Hd; cbn [obind].
  - destruct description;
      try (apply Hfall; eexists; split; [exact Hd|exact I]).
    destruct (lookup "plain" d) as [text|] eqn:Hp;
      [|apply Hfall; exists (PDict d); split; [exact Hd|];
        rewrite Hp; exact I].
    destruct text; cbn [LyricsMetadataClient.first_words obind];
      try (exists None; split; [reflexivity|discriminate]).
    destruct (2 <=? List.length (firstn 3 (split_ws s)))%nat eqn:Hlen.
    + cbn. eexists. split; [reflexivity|].
      intros s0 H; inversion H; subst. left.
      exists (firstn 3 (split_ws s)). split; [|reflexivity].
      exists d, s. repeat split; auto.
      * now apply Nat.leb_le in Hlen.
      * apply firstn_le_length.
    + apply Hfall. exists (PDict d). split; [exact Hd|].
      rewrite Hp. now apply Nat.leb_gt in Hlen.
  - destruct song_data; cbn in Hd; try discriminate;
      inversion Hd; subst; cbn;
      exists None; (split; [reflexivity|discriminate]).
  - destruct song_data; discriminate.
  - destruct song_data; discriminate.
Qed.

Lemma dots_not_empty (a : string) : ((a ++ "...") =? "")%string = false.
Proof. destruct a; reflexivity. Qed.

(** The snippet, case by case. *)
Lemma snippet_exact (song_data : PyVal) :
  (forall words,
     description_words song_data words ->
     LyricsMetadataClient._get_identification_snippet song_data
     = Ret (Some (join_sp words ++ "...")%string))
  /\ (forall title,
        no_description song_data ->
        get song_data "title" (PStr "N/A") = Ret title ->
        LyricsMetadataClient._get_identification_snippet song_data
        = Ret (Some ("Canzone: " ++ format title)%string))
  /\ (unreadable_description song_data ->
      LyricsMetadataClient._get_identification_snippet song_data = Ret None).
Proof.
  unfold LyricsMetadataClient._get_identification_snippet.
  split; [|split].
  - intros words (d & text & Hd & Hp & -> & Hlen & _).
    rewrite Hd. cbn [obind]. rewrite Hp.
    cbn [LyricsMetadataClient.first_words obind].
    apply Nat.leb_le in Hlen. rewrite Hlen. reflexivity.
  - intros title (description & Hd & Hwhat) Ht.
    rewrite Hd. cbn [obind].
    assert (Hfall : LyricsMetadataClient.none_on_exception
                      (LyricsMetadataClient.title_snippet song_data)
                    = Ret (Some ("Canzone: " ++ format title)%string)).
    { unfold LyricsMetadataClient.title_snippet. rewrite Ht. reflexivity. }
    destruct description; try exact Hfall.
    destruct (lookup "plain" d) as [text|]; [|exact Hfall].
    destruct text; try contradiction.
    cbn [LyricsMetadataClient.first_words obind].
    apply Nat.leb_gt in Hwhat. rewrite Hwhat. exact Hfall.
  - intros (d & text & Hd & Hp & Hnot).
    rewrite Hd. cbn [obind]. rewrite Hp.
    destruct text; try reflexivity.
    exfalso. exact (Hnot s eq_refl).
Qed.

End Lyrics.

Section SafeMetadata.
Context {R : Runtime}.

(** One step of a chain of fallible evaluations whose failures are
    [Exception]s: go on with the value, or be done. *)
Ltac chain_step :=
  match goal with
  | |- match obind ?o _ with _ => _ end =>
      let Hb := fresh "Hb" in
      assert (Hb : benign o)
        by first [ apply get_benign | apply iter_benign
                 | apply omap_benign; intros; apply get_benign ];
      destruct o; cbn [obind]; cbn in Hb;
      [ clear Hb | exact Hb | contradiction | contradiction ]
  end.

Lemma safe_metadata_cases (song_data : PyVal) :
  match LyricsMetadataClient._extract_safe_metadata song_data with
  | Ret md =>
      (map fst md = metadata_keys
       /\ lookup "identification_snippet" md = None)
      \/ (exists s,
            map fst md = (metadata_keys ++ snippet_keys)%list
            /\ lookup "identification_snippet" md = Some (PStr s)
            /\ lookup "snippet_disclaimer" md
               = Some (PStr LyricsMetadataClient.snippet_disclaimer)
            /\ lookup "copyright_notice" md
               = Some (PStr LyricsMetadataClient.copyright_notice)
            /\ snippet_origin song_data s)
  | Raise e => is_Exception e = true
  | Hang | OutOfFuel => False
  end.
Proof.
  unfold LyricsMetadataClient._extract_safe_metadata.
  do 9 chain_step.
  match goal with
  | |- match obind ?o _ with _ => _ end =>
      assert (Hb : benign o)
  end.
  { destruct (truthy _); [|exact I].
    apply obind_benign; [apply get_benign|intros; apply get_benign]. }
  destruct (if truthy _ then _ else _) as [album| | |]; cbn [obind];
    cbn in Hb; try contradiction; [clear Hb|exact Hb].
  do 3 chain_step.
  destruct (snippet_cases song_data) as (o & -> & Ho). cbn [obind].
  destruct o as [s|]; [|left; split; reflexivity].
  destruct (negb (s =? "")%string); [|left; split; reflexivity].
  right. exists s. repeat split. now apply Ho.
Qed.

(** The snippet of the result is the snippet found, when it is not
    empty; and a song that has a result is a dict. *)
Lemma safe_metadata_snippet (song_data : PyVal) (md : list (string * PyVal)) :
  LyricsMetadataClient._extract_safe_metadata song_data = Ret md ->
  exists o title,
    LyricsMetadataClient._get_identification_snippet song_data = Ret o
    /\ get song_data "title" (PStr "N/A") = Ret title
    /\ lookup "identification_snippet" md
       = match o with
         | Some s => if negb (s =? "")%string then Some (PStr s) else None
         | None => None
         end.
Proof.
  unfold LyricsMetadataClient._extract_safe_metadata.
  destruct (get song_data "id" PNone) as [genius_id| | |] eqn:Hid;
    cbn [obind]; try discriminate.
  assert (Htitle : exists title,
            get song_data "title" (PStr "N/A") = Ret title).
  { destruct song_data; try discriminate. cbn. eauto. }
  destruct Htitle as [title0 Htitle].
  destruct (get song_data "title" PNone) as [title| | |];
    cbn [obind]; try discriminate.
  destruct (get song_data "primary_artist" (PDict []))
    as [primary_artist| | |]; cbn [obind]; try discriminate.
  destruct (get primary_artist "name" PNone) as [artist| | |];
    cbn [obind]; try discriminate.
  destruct (get song_data "release_date_for_display" PNone)
    as [release_date| | |]; cbn [obind]; try discriminate.
  destruct (get song_data "stats" (PDict [])) as [stats| | |];
    cbn [obind]; try discriminate.
  destruct (get stats "pageviews" PNone) as [page_views| | |];
    cbn [obind]; try discriminate.
  destruct (get song_data "url" PNone) as [url| | |];
    cbn [obind]; try discriminate.
  destruct (get song_data "album" PNone) as [has_album| | |];
    cbn [obind]; try discriminate.
  destruct (if truthy has_album then _ else _) as [album| | |];
    cbn [obind]; try discriminate.
  destruct (get song_data "featured_artists" (PList [])) as [fa| | |];
    cbn [obind]; try discriminate.
  destruct (iter fa) as [artists| | |]; cbn [obind]; try discriminate.
  destruct (omap _ artists) as [featured| | |]; cbn [obind];
    try discriminate.
  destruct (LyricsMetadataClient._get_identification_snippet song_data)
    as [o| | |]; cbn [obind]; try discriminate.
  exists o, title0. split; [reflexivity|]. split; [exact Htitle|].
  destruct o as [s|]; [destruct (negb (s =? "")%string)|];
    inversion H; subst; reflexivity.
Qed.

End SafeMetadata.

(** C8 (as the code has it).  A song metadata result has the ten fixed
    keys and, with a snippet, the two snippet keys; none of them holds
    lyrics.  A description whose [plain] text has at least two words
    gives the snippet of its first two or three words followed by "...".
    Only when there is no such description (none, no [plain] text, or
    fewer than two words) is the snippet "Canzone: " followed by the
    whole title, which is not capped.  A [plain] that is not a string
    gives no snippet.  There is no other snippet, and whenever one is
    present so are its disclaimer and the copyright notice.  The
    extraction can only raise an [Exception]. *)
Theorem safe_metadata_policy {R : Runtime} (song_data : PyVal) :
  match LyricsMetadataClient._extract_safe_metadata song_data with
  | Ret md =>
      (map fst md = metadata_keys
       \/ map fst md = (metadata_keys ++ snippet_keys)%list)
      /\ lookup "lyrics" md = None
      /\ (forall v,
            lookup "identification_snippet" md = Some v ->
            lookup "snippet_disclaimer" md
            = Some (PStr LyricsMetadataClient.snippet_disclaimer)
            /\ lookup "copyright_notice" md
               = Some (PStr LyricsMetadataClient.copyright_notice)
            /\ exists s, v = PStr s /\ snippet_origin song_data s)
      /\ (forall words,
            description_words song_data words ->
            lookup "identification_snippet" md
            = Some (PStr (join_sp words ++ "...")))
      /\ (no_description song_data ->
          exists title,
            get song_data "title" (PStr "N/A") = Ret title
            /\ lookup "identification_snippet" md
               = Some (PStr ("Canzone: " ++ format title)))
      /\ (unreadable_description song_data ->
          lookup "identification_snippet" md = None
          /\ map fst md = metadata_keys)
  | Raise e => is_Exception e = true
  | Hang | OutOfFuel => False
  end.
Proof.
  pose proof (safe_metadata_cases song_data) as H.
  pose proof (safe_metadata_snippet song_data) as Hsn.
  destruct (LyricsMetadataClient._extract_safe_metadata song_data)
    as [md|e| |]; auto.
  destruct (Hsn md eq_refl) as (o & title & Hsnip & Htitle & Hlook).
  clear Hsn.
  destruct (snippet_exact song_data) as (Ewords & Etitle & Enone).
  assert (Hkeys : forall k, ~ In k (map fst md) -> lookup k md = None).
  { clear. induction md as [|[k' v'] md IH]; intros k Hk; [reflexivity|].
    cbn in Hk |- *. destruct (k =? k')%string eqn:E.
    - apply String.eqb_eq in E. subst. exfalso. apply Hk. now left.
    - apply IH. intros Hin. apply Hk. now right. }
  assert (Hwords : forall words,
            description_words song_data words ->
            lookup "identification_snippet" md
            = Some (PStr (join_sp words ++ "..."))).
  { intros words Hw. rewrite (Ewords words Hw) in Hsnip.
    inversion Hsnip; subst o. rewrite Hlook, dots_not_empty. reflexivity. }
  assert (Hfallback : no_description song_data ->
            exists title,
              get song_data "title" (PStr "N/A") = Ret title
              /\ lookup "identification_snippet" md
                 = Some (PStr ("Canzone: " ++ format title))).
  { intros Hno. exists title. split; [exact Htitle|].
    rewrite (Etitle title Hno Htitle) in Hsnip.
    inversion Hsnip; subst o. rewrite Hlook. reflexivity. }
  assert (Hnone : unreadable_description song_data ->
            lookup "identification_snippet" md = None).
  { intros Hun. rewrite (Enone Hun) in Hsnip.
    inversion Hsnip; subst o. exact Hlook. }
  destruct H as [[Hk Hno]|(s & Hk & Hs & Hd & Hc & Ho)].
  - split; [now left|]. split.
    { apply Hkeys. rewrite Hk. cbn. intuition discriminate. }
    split; [intros v Hv; congruence|].
    split; [exact Hwords|]. split; [exact Hfallback|].
    intros Hun. split; [exact Hno|exact Hk].
  - split; [now right|]. split.
    { apply Hkeys. rewrite Hk. cbn. intuition discriminate. }
    split.
    { intros v Hv. rewrite Hs in Hv. inversion Hv; subst.
      repeat split; auto. exists s. now split. }
    split; [exact Hwords|]. split; [exact Hfallback|].
    intros Hun. specialize (Hnone Hun). congruence.
Qed.

(** C8, as stated, fails on the cap: a song without a description gets
    the snippet "Canzone: Smells Like Teen Spirit", five words long, and
    the result carries it with the disclaimer. *)
Lemma snippet_is_the_whole_title :
  LyricsMetadataClient._get_identification_snippet (R := Sample.runtime)
    Sample.song_without_description
  = Ret (Some "Canzone: Smells Like Teen Spirit")
  /\ split_ws "Canzone: Smells Like Teen Spirit"
     = ["Canzone:"; "Smells"; "Like"; "Teen"; "Spirit"]
  /\ obind (LyricsMetadataClient._extract_safe_metadata (R := Sample.runtime)
              Sample.song_without_description)
       (fun md => Ret (lookup "identification_snippet" md,
                       lookup "snippet_disclaimer" md))
     = Ret (Some (PStr "Canzone: Smells Like Teen Spirit"),
            Some (PStr LyricsMetadataClient.snippet_disclaimer)).
Proof. repeat split; vm_compute; reflexivity. Qed.

(** With a description the snippet is its first three words. *)
Example snippet_from_description :
  LyricsMetadataClient._get_identification_snippet (R := Sample.runtime)
    Sample.song_with_description
  = Ret (Some "The third single...").
Proof. vm_compute. reflexivity. Qed.

(* ================================================================== *)
(** * Further properties *)
(* ================================================================== *)

(** ** The views of a discography *)

Section Views.

Lemma min_of_spec (xs : list Z) :
  forall x,
    In (DiscographyViews.min_of x xs) (x :: xs)
    /\ forall y, In y (x :: xs) -> DiscographyViews.min_of x xs <= y.
Proof.
  unfold DiscographyViews.min_of.
  induction xs as [|z xs IH]; intros x; cbn [fold_left].
  - split; [now left|]. intros y [->|[]]. lia.
  - destruct (IH (Z.min x z)) as [Hin Hle]. split.
    + destruct Hin as [H|H]; [|right; now right].
      rewrite <- H. destruct (Z.min_spec x z) as [[_ ->]|[_ ->]];
        [now left|right; now left].
    + intros y Hy.
      assert (H1 : fold_left Z.min xs (Z.min x z) <= Z.min x z)
        by (apply Hle; now left).
      destruct Hy as [->|[->|Hy]]; [lia|lia|].
      apply Hle. now right.
Qed.

Lemma max_of_spec (xs : list Z) :
  forall x,
    In (DiscographyViews.max_of x xs) (x :: xs)
    /\ forall y, In y (x :: xs) -> y <= DiscographyViews.max_of x xs.
Proof.
  unfold DiscographyViews.max_of.
  induction xs as [|z xs IH]; intros x; cbn [fold_left].
  - split; [now left|]. intros y [->|[]]. lia.
  - destruct (IH (Z.max x z)) as [Hin Hle]. split.
    + destruct Hin as [H|H]; [|right; now right].
      rewrite <- H. destruct (Z.max_spec x z) as [[_ ->]|[_ ->]];
        [right; now left|now left].
    + intros y Hy.
      assert (H1 : Z.max x z <= fold_left Z.max xs (Z.max x z))
        by (apply Hle; now left).
      destruct Hy as [->|[->|Hy]]; [lia|lia|].
      apply Hle. now right.
Qed.

Lemma years_In (d : Discography.t) (y : Z) :
  In y (DiscographyViews.years d)
  <-> exists a, In a (Discography.albums d)
                /\ Album.release_year a = Some y /\ y <> 0.
Proof.
  unfold DiscographyViews.years. rewrite in_flat_map. split.
  - intros (a & Ha & Hy). exists a. split; [exact Ha|].
    destruct (Album.release_year a) as [z|]; [|contradiction].
    destruct (z =? 0) eqn:E; cbn in Hy; [contradiction|].
    destruct Hy as [->|[]]. apply Z.eqb_neq in E. now split.
  - intros (a & Ha & Hy & Hnz). exists a. split; [exact Ha|].
    rewrite Hy. apply Z.eqb_neq in Hnz. rewrite Hnz. now left.
Qed.

(** [discography_span]: both ends are [None] exactly when no album has a
    year other than 0; otherwise the ends are years of albums of the
    discography, neither of them 0, the start is not after the end, and
    every album year other than 0 lies between them.  An album whose year
    is 0 is passed over like an undated one. *)
Theorem discography_span_bounds (d : Discography.t) :
  (DiscographyViews.discography_span d = (None, None)
   /\ forall a, In a (Discography.albums d) ->
        Album.release_year a = None \/ Album.release_year a = Some 0)
  \/ (exists lo hi,
        DiscographyViews.discography_span d = (Some lo, Some hi)
        /\ lo <= hi
        /\ lo <> 0 /\ hi <> 0
        /\ (exists a, In a (Discography.albums d)
                      /\ Album.release_year a = Some lo)
        /\ (exists b, In b (Discography.albums d)
                      /\ Album.release_year b = Some hi)
        /\ forall a y, In a (Discography.albums d) ->
             Album.release_year a = Some y -> y <> 0 -> lo <= y <= hi).
Proof.
  unfold DiscographyViews.discography_span.
  pose proof (years_In d) as HIn.
  destruct (DiscographyViews.years d) as [|x xs].
  - left. split; [reflexivity|]. intros a Ha.
    destruct (Album.release_year a) as [y|] eqn:Hy; [|now left].
    right. destruct (Z.eq_dec y 0) as [->|Hnz]; [reflexivity|].
    exfalso. apply (proj2 (HIn y)). exists a. auto.
  - right. destruct (min_of_spec xs x) as [Hmin Hle].
    destruct (max_of_spec xs x) as [Hmax Hge].
    exists (DiscographyViews.min_of x xs), (DiscographyViews.max_of x xs).
    split; [reflexivity|]. split.
    { specialize (Hle x (or_introl eq_refl)).
      specialize (Hge x (or_introl eq_refl)). lia. }
    split.
    { apply HIn in Hmin as (a & Ha & Hy & Hnz). exact Hnz. }
    split.
    { apply HIn in Hmax as (a & Ha & Hy & Hnz). exact Hnz. }
    split.
    { apply HIn in Hmin as (a & Ha & Hy & _). eauto. }
    split.
    { apply HIn in Hmax as (a & Ha & Hy & _). eauto. }
    intros a y Ha Hy Hnz.
    assert (Hy' : In y (x :: xs)) by (apply HIn; eauto).
    split; [now apply Hle|now apply Hge].
Qed.

(** Grouping: what [setdefault_append] does to each group. *)
Lemma group_setdefault_append {K : Type} (eqb : K -> K -> bool)
    (eqb_spec : forall a b, eqb a b = true <-> a = b)
    (k k0 : K) (album : Album.t) (groups : list (K * list Album.t)) :
  DiscographyViews.group eqb k0
    (DiscographyViews.setdefault_append eqb k album groups)
  = if eqb k0 k
    then Some (match DiscographyViews.group eqb k groups with
               | Some l => l
               | None => []
               end ++ [album])%list
    else DiscographyViews.group eqb k0 groups.
Proof.
  induction groups as [|[k' l] rest IH]; cbn.
  - destruct (eqb k0 k); reflexivity.
  - destruct (eqb k k') eqn:E; cbn.
    + pose proof (proj1 (eqb_spec _ _) E) as Ek. subst k'.
      destruct (eqb k0 k) eqn:E0; reflexivity.
    + destruct (eqb k0 k') eqn:E1.
      * destruct (eqb k0 k) eqn:E0; [|reflexivity].
        apply eqb_spec in E0, E1. subst. 
        assert (Hkk : eqb k' k' = true) by now apply eqb_spec.
        congruence.
      * rewrite IH. destruct (eqb k0 k) eqn:E0; [|reflexivity].
        apply eqb_spec in E0. subst. reflexivity.
Qed.

(** A fold of [setdefault_append] over albums with keys [key] (an album
    without a key is passed over) leaves, under each key, the group there
    was followed by the albums of that key, in their order. *)
Lemma group_fold {K : Type} (eqb : K -> K -> bool)
    (eqb_spec : forall a b, eqb a b = true <-> a = b)
    (key : Album.t -> option K) (k0 : K) :
  forall (albums : list Album.t) (groups : list (K * list Album.t)),
    DiscographyViews.group eqb k0
      (fold_left (fun g album =>
                    match key album with
                    | Some k => DiscographyViews.setdefault_append eqb k album g
                    | None => g
                    end) albums groups)
    = match DiscographyViews.group eqb k0 groups,
            filter (fun a => match key a with
                             | Some k => eqb k0 k
                             | None => false
                             end) albums with
      | None, [] => None
      | None, l => Some l
      | Some l0, l => Some (l0 ++ l)%list
      end.
Proof.
  induction albums as [|a albums IH]; intros groups; cbn [fold_left filter].
  - destruct (DiscographyViews.group eqb k0 groups); [|reflexivity].
    now rewrite app_nil_r.
  - rewrite IH. destruct (key a) as [k|].
    + rewrite (group_setdefault_append eqb eqb_spec).
      destruct (eqb k0 k) eqn:E.
      * apply eqb_spec in E. subst k.
        destruct (DiscographyViews.group eqb k0 groups) as [l0|];
          rewrite <- ?app_assoc; reflexivity.
      * reflexivity.
    + reflexivity.
Qed.

End Views.

Section Grouping.

Lemma fold_left_ext {A B : Type} (f g : A -> B -> A) (l : list B) :
  (forall a b, f a b = g a b) ->
  forall a, fold_left f l a = fold_left g l a.
Proof.
  intros H. induction l as [|b l IH]; intros a; cbn; [reflexivity|].
  rewrite H. apply IH.
Qed.

(** [get_albums_by_year]: under each year stand exactly the albums of that
    year, in the order of the discography; a year no album has, the year
    0 and the undated albums have no entry. *)
Theorem albums_by_year_groups (d : Discography.t) (y : Z) :
  DiscographyViews.group Z.eqb y (DiscographyViews.get_albums_by_year d)
  = match filter (fun a =>
                    match Album.release_year a with
                    | Some z => negb (z =? 0) && (y =? z)
                    | None => false
                    end) (Discography.albums d) with
    | [] => None
    | l => Some l
    end.
Proof.
  unfold DiscographyViews.get_albums_by_year.
  rewrite (fold_left_ext _
             (fun g album =>
                match (match Album.release_year album with
                       | Some z => if negb (z =? 0) then Some z else None
                       | None => None
                       end) with
                | Some k => DiscographyViews.setdefault_append Z.eqb k album g
                | None => g
                end)).
  2:{ intros g a. destruct (Album.release_year a) as [z|]; [|reflexivity].
      destruct (negb (z =? 0)); reflexivity. }
  rewrite (group_fold Z.eqb Z.eqb_eq). cbn [DiscographyViews.group].
  match goal with
  | |- match filter ?f _ with _ => _ end
       = match filter ?g _ with _ => _ end =>
      rewrite (filter_ext f g); [reflexivity|]
  end.
  intros a. destruct (Album.release_year a) as [z|]; [|reflexivity].
  destruct (negb (z =? 0)); reflexivity.
Qed.

(** [get_albums_by_type]: under each type stand exactly the albums of that
    type, in order, an album with an empty type counting as "unknown";
    so every album is in the group of its type. *)
Theorem albums_by_type_groups (d : Discography.t) (t : string) :
  DiscographyViews.group String.eqb t (DiscographyViews.get_albums_by_type d)
  = match filter (fun a => (t =? DiscographyViews.type_or_unknown a)%string)
                 (Discography.albums d) with
    | [] => None
    | l => Some l
    end
  /\ forall a, In a (Discography.albums d) ->
       exists l,
         DiscographyViews.group String.eqb
           (DiscographyViews.type_or_unknown a)
           (DiscographyViews.get_albums_by_type d) = Some l
         /\ In a l.
Proof.
  assert (H : forall t0,
    DiscographyViews.group String.eqb t0
      (DiscographyViews.get_albums_by_type d)
    = match filter (fun a => (t0 =? DiscographyViews.type_or_unknown a)%string)
                   (Discography.albums d) with
      | [] => None
      | l => Some l
      end).
  { intros t0. unfold DiscographyViews.get_albums_by_type.
    exact (group_fold String.eqb String.eqb_eq
             (fun a => Some (DiscographyViews.type_or_unknown a)) t0
             (Discography.albums d) []). }
  split; [apply H|].
  intros a Ha. rewrite H.
  assert (Hin : In a (filter
                        (fun a0 => (DiscographyViews.type_or_unknown a
                                    =? DiscographyViews.type_or_unknown a0)%string)
                        (Discography.albums d))).
  { apply filter_In. split; [exact Ha|apply String.eqb_refl]. }
  destruct (filter _ (Discography.albums d)) as [|b l]; [contradiction|].
  eauto.
Qed.

End Grouping.

(** ** The waits of the retry manager *)

Section Backoff.

Lemma min2_le_r (a b : Q) : (Py.min2 a b <= b)%Q.
Proof.
  unfold Py.min2. destruct (Qltb b a) eqn:E.
  - apply Qle_refl.
  - unfold Qltb in E. apply negb_false_iff in E. now apply Qle_bool_iff in E.
Qed.

Lemma min2_mono (a a' b : Q) : (a <= a')%Q -> (Py.min2 a b <= Py.min2 a' b)%Q.
Proof.
  intros H. unfold Py.min2.
  destruct (Qltb b a) eqn:E; destruct (Qltb b a') eqn:E'.
  - apply Qle_refl.
  - apply Qltb_lt in E. unfold Qltb in E'. apply negb_false_iff in E'.
    apply Qle_bool_iff in E'. exfalso.
    apply (Qlt_irrefl b). eapply Qlt_le_trans; [exact E|].
    eapply Qle_trans; eauto.
  - unfold Qltb in E. apply negb_false_iff in E. now apply Qle_bool_iff in E.
  - exact H.
Qed.

(** The wait before a retry.  Up to the attempt numbered 1023 there is a
    delay and it never exceeds [max_delay], whatever [base_delay] is; for
    a [base_delay] that is not negative it is [base_delay * 2^attempt]
    while that product is at most [max_delay], and it is not larger than
    the delay of the next attempt, when that has one.  From the attempt
    numbered 1024 on there is no delay: forming the product raises an
    [OverflowError]. *)
Theorem backoff_bounded_and_monotone (rm : RetryManager.t) (attempt : Z) :
  0 <= attempt ->
  (attempt <= 1023 ->
   exists d,
     RetryManager.delay rm attempt = Ret d
     /\ (d <= RetryManager.max_delay rm)%Q
     /\ ((0 <= RetryManager.base_delay rm)%Q ->
         ((RetryManager.base_delay rm * inject_Z (2 ^ attempt)
           <= RetryManager.max_delay rm)%Q ->
          d = (RetryManager.base_delay rm * inject_Z (2 ^ attempt))%Q)
         /\ (forall d',
               RetryManager.delay rm (attempt + 1) = Ret d' ->
               (d <= d')%Q)))
  /\ (1024 <= attempt ->
      RetryManager.delay rm attempt = Raise RetryManager.int_too_large).
Proof.
  intros Hk. unfold RetryManager.delay, RetryManager.float_max_exponent.
  split.
  - intros Hsmall.
    assert (E : (1023 <? attempt) = false) by (apply Z.ltb_ge; lia).
    rewrite E. exists (RetryManager.backoff rm attempt).
    split; [reflexivity|]. unfold RetryManager.backoff.
    split; [apply min2_le_r|].
    intros Hbase. split.
    + intros Hle. unfold Py.min2.
      destruct (Qltb (RetryManager.max_delay rm) _) eqn:E'; [|reflexivity].
      apply Qltb_lt in E'. exfalso. exact (Qlt_not_le _ _ E' Hle).
    + intros d'. destruct (1023 <? attempt + 1); [discriminate|].
      intros [= <-]. unfold RetryManager.backoff.
      apply min2_mono. rewrite !(Qmult_comm (RetryManager.base_delay rm)).
      apply Qmult_le_compat_r; [|exact Hbase].
      unfold Qle; cbn. rewrite !Z.mul_1_r.
      rewrite Z.pow_add_r by lia. change (2 ^ 1) with 2.
      assert (0 < 2 ^ attempt) by (apply Z.pow_pos_nonneg; lia). lia.
  - intros Hbig.
    assert (E : (1023 <? attempt) = true) by (apply Z.ltb_lt; lia).
    rewrite E. reflexivity.
Qed.

(** The third wait of the default manager: four seconds, and eight for
    the next. *)
Lemma backoff_bounded_and_monotone_witness :
  exists d,
    RetryManager.delay (RetryManager.new 3) 2 = Ret d
    /\ (d <= RetryManager.max_delay (RetryManager.new 3))%Q
    /\ d = (RetryManager.base_delay (RetryManager.new 3)
            * inject_Z (2 ^ 2))%Q.
Proof.
  destruct (proj1 (backoff_bounded_and_monotone (RetryManager.new 3) 2
                     ltac:(lia)) ltac:(lia))
    as (d & Hd & Hmax & Hrest).
  exists d. split; [exact Hd|]. split; [exact Hmax|].
  apply Hrest; cbn; discriminate.
Defined.

(** The delay after the attempt numbered 1024. *)
Example delay_overflows :
  RetryManager.delay (RetryManager.new 2000) 1023
  = Ret (RetryManager.max_delay (RetryManager.new 2000))
  /\ RetryManager.delay (RetryManager.new 2000) 1024
     = Raise RetryManager.int_too_large.
Proof. split; vm_compute; reflexivity. Qed.

End Backoff.

(** ** Edges of the retry manager and of the limiter *)

(** A negative [max_retries]: the operation is not invoked at all (the log
    stays empty, the state untouched) and the caller gets the [TypeError]
    of [raise None], not an error of the operation. *)
Theorem retry_without_attempts {S A : Type}
    (f : Task.t S A) (sl : Q -> S -> S) (rm : RetryManager.t) (s : S) :
  RetryManager.max_retries rm < 0 ->
  RetryManager.execute_with_retry (Observe.func f) (Observe.sleep sl) rm
    (s, []) = (Raise type_error, (s, [])).
Proof.
  intros Hneg. unfold RetryManager.execute_with_retry.
  replace (Z.to_nat (RetryManager.max_retries rm + 1)) with 0%nat by lia.
  reflexivity.
Qed.

Lemma retry_without_attempts_witness :
  RetryManager.max_retries (RetryManager.mk (-1) 1 60) < 0
  /\ RetryManager.execute_with_retry (Observe.func (Sample.flaky 0))
       (Observe.sleep Sample.no_sleep) (RetryManager.mk (-1) 1 60)
       (0%nat, []) = (Raise type_error, (0%nat, [])).
Proof.
  split; [cbn; lia|].
  apply (retry_without_attempts (Sample.flaky 0) Sample.no_sleep
           (RetryManager.mk (-1) 1 60) 0%nat).
  cbn; lia.
Defined.

(** When [acquire] returns it has recorded the call: the list is the
    requests that were inside the window, each less than [time_window]
    old, followed by the current time; it holds at most [max_requests]
    entries; the lock is released, the limits are as they were and no
    time was spent sleeping. *)
Theorem acquire_keeps_window_bound {R : Runtime}
    (rl rl' : RateLimiter.t) (w w' : World) :
  RateLimiter.acquire (rl, w) = (Ret tt, (rl', w')) ->
  w' = w
  /\ RateLimiter._lock rl' = false
  /\ RateLimiter.max_requests rl' = RateLimiter.max_requests rl
  /\ RateLimiter.time_window rl' = RateLimiter.time_window rl
  /\ RateLimiter.requests rl'
     = (RateLimiter.in_window rl (time_time w) ++ [time_time w])%list
  /\ Z.of_nat (List.length (RateLimiter.requests rl'))
     <= RateLimiter.max_requests rl'
  /\ Forall (fun t => (time_time w - t
                       < inject_Z (RateLimiter.time_window rl))%Q)
       (RateLimiter.in_window rl (time_time w)).
Proof.
  intros Hrun.
  destruct (acquire_returns_only_with_room rl rl' w w' Hrun)
    as (Hl & Hlt & Hreq & Hw).
  assert (Hshape : RateLimiter._lock rl' = false
                   /\ RateLimiter.max_requests rl' = RateLimiter.max_requests rl
                   /\ RateLimiter.time_window rl' = RateLimiter.time_window rl).
  { revert Hrun. unfold RateLimiter.acquire.
    cbn [fst snd RateLimiter.acquire_fuel]. rewrite Hl.
    cbn [RateLimiter.with_lock RateLimiter.with_requests
         RateLimiter.requests RateLimiter.max_requests
         RateLimiter.time_window RateLimiter._lock].
    fold (RateLimiter.in_window rl (time_time w)).
    assert (Hge : (Z.of_nat (List.length
                               (RateLimiter.in_window rl (time_time w)))
                   >=? RateLimiter.max_requests rl) = false).
    { rewrite Z.geb_leb. apply Z.leb_gt. exact Hlt. }
    rewrite Hge. intros H; inversion H; subst. repeat split. }
  destruct Hshape as (H1 & H2 & H3).
  repeat split; auto.
  - rewrite Hreq, H2, List.length_app. cbn. lia.
  - unfold RateLimiter.in_window. apply Forall_forall. intros t Ht.
    apply filter_In in Ht as [_ Ht]. now apply Qltb_lt in Ht.
Qed.

Lemma acquire_keeps_window_bound_witness :
  RateLimiter.acquire (R := Sample.runtime)
    (RateLimiter.mk 2 60 [0%Q; 50%Q] false, 70%Q)
  = (Ret tt, (RateLimiter.mk 2 60 [50%Q; 70%Q] false, 70%Q))
  /\ Z.of_nat (List.length
                 (RateLimiter.requests (RateLimiter.mk 2 60 [50%Q; 70%Q] false)))
     <= RateLimiter.max_requests (RateLimiter.mk 2 60 [50%Q; 70%Q] false).
Proof.
  assert (Hrun : RateLimiter.acquire (R := Sample.runtime)
                   (RateLimiter.mk 2 60 [0%Q; 50%Q] false, 70%Q)
                 = (Ret tt, (RateLimiter.mk 2 60 [50%Q; 70%Q] false, 70%Q)))
    by (vm_compute; reflexivity).
  split; [exact Hrun|].
  apply (acquire_keeps_window_bound (R := Sample.runtime) _ _ _ _ Hrun).
Defined.

(** On a full window (with [max_requests] at least 1) [acquire] never
    returns, whatever the clock and the list: it sleeps until the oldest
    request is [time_window] old and then waits for the lock it holds.
    The call is not recorded and the lock stays taken. *)
Theorem acquire_on_full_window_never_returns {R : Runtime}
    (rl : RateLimiter.t) (w : World) :
  RateLimiter._lock rl = false ->
  1 <= RateLimiter.max_requests rl ->
  RateLimiter.max_requests rl
    <= Z.of_nat (List.length (RateLimiter.in_window rl (time_time w))) ->
  exists rl' w',
    RateLimiter.acquire (rl, w) = (Hang, (rl', w'))
    /\ RateLimiter.requests rl' = RateLimiter.in_window rl (time_time w)
    /\ RateLimiter._lock rl' = true.
Proof.
  intros Hl Hpos Hfull. apply acquire_full_window_hangs; try assumption.
  intros Hnil. rewrite Hnil in Hfull. cbn in Hfull. lia.
Qed.

Lemma acquire_on_full_window_never_returns_witness :
  exists rl' w',
    RateLimiter.acquire (R := Sample.runtime)
      (RateLimiter.mk 2 60 [10%Q; 20%Q] false, 30%Q) = (Hang, (rl', w'))
    /\ RateLimiter.requests rl'
       = RateLimiter.in_window (RateLimiter.mk 2 60 [10%Q; 20%Q] false)
           (time_time (Runtime := Sample.runtime) 30%Q)
    /\ RateLimiter._lock rl' = true.
Proof.
  apply (acquire_on_full_window_never_returns (R := Sample.runtime)
           (RateLimiter.mk 2 60 [10%Q; 20%Q] false) 30%Q).
  - reflexivity.
  - cbn; lia.
  - vm_compute. discriminate.
Defined.

(** A limiter whose [max_requests] is 0 or less, with no request inside
    the window: [min] of the empty list raises a [ValueError]; nothing is
    recorded, the lock is released, no time is spent. *)
Theorem acquire_without_capacity_raises {R : Runtime}
    (rl : RateLimiter.t) (w : World) :
  RateLimiter._lock rl = false ->
  RateLimiter.max_requests rl <= 0 ->
  RateLimiter.in_window rl (time_time w) = [] ->
  RateLimiter.acquire (rl, w)
  = (Raise value_error,
     (RateLimiter.mk (RateLimiter.max_requests rl)
        (RateLimiter.time_window rl) [] false, w)).
Proof.
  intros Hl Hmax Hnil.
  unfold RateLimiter.acquire. cbn [fst snd RateLimiter.acquire_fuel].
  rewrite Hl.
  cbn [RateLimiter.with_lock RateLimiter.with_requests
       RateLimiter.requests RateLimiter.max_requests
       RateLimiter.time_window RateLimiter._lock].
  fold (RateLimiter.in_window rl (time_time w)). rewrite Hnil.
  assert (Hge : (Z.of_nat (List.length (@nil Q))
                 >=? RateLimiter.max_requests rl) = true).
  { rewrite Z.geb_leb. apply Z.leb_le. cbn. lia. }
  rewrite Hge. reflexivity.
Qed.

Lemma acquire_without_capacity_raises_witness :
  RateLimiter.acquire (R := Sample.runtime) (RateLimiter.new 0 60, 5%Q)
  = (Raise value_error, (RateLimiter.mk 0 60 [] false, 5%Q)).
Proof.
  apply (acquire_without_capacity_raises (R := Sample.runtime)
           (RateLimiter.new 0 60) 5%Q).
  - reflexivity.
  - cbn; lia.
  - reflexivity.
Defined.

(** [make_request] and the counters: a returned value counts one request
    made and one successful; an [Exception] counts either nothing (it
    came from the limiter, before the [try]) or one made and one failed;
    so requests made minus successful minus failed is as before.  Another
    outcome leaves successful and failed alone. *)
Theorem make_request_counts {R : Runtime} {A : Type} (func : Task.t World A)
    (self : BaseCrawler.t) (w : World) :
  let before := BaseCrawler.stats self in
  let after :=
    BaseCrawler.stats (fst (snd (BaseCrawler.make_request func (self, w)))) in
  match fst (BaseCrawler.make_request func (self, w)) with
  | Ret _ =>
      BaseCrawler.requests_made after = BaseCrawler.requests_made before + 1
      /\ BaseCrawler.requests_successful after
         = BaseCrawler.requests_successful before + 1
      /\ BaseCrawler.requests_failed after = BaseCrawler.requests_failed before
  | Raise e =>
      is_Exception e = true ->
      BaseCrawler.requests_successful after
      = BaseCrawler.requests_successful before
      /\ (after = before
          \/ (BaseCrawler.requests_made after
              = BaseCrawler.requests_made before + 1
              /\ BaseCrawler.requests_failed after
                 = BaseCrawler.requests_failed before + 1))
  | Hang | OutOfFuel =>
      BaseCrawler.requests_successful after
      = BaseCrawler.requests_successful before
      /\ BaseCrawler.requests_failed after = BaseCrawler.requests_failed before
  end.
Proof.
  cbv zeta. unfold BaseCrawler.make_request.
  destruct (RateLimiter.acquire (BaseCrawler.rate_limiter self, w))
    as [[u|e| |] [rl w1]]; cbn [fst snd].
  - destruct (RetryManager.execute_with_retry func asyncio_sleep _ w1)
      as [[v|e| |] w2]; cbn [fst snd].
    + cbn. repeat split.
    + destruct (is_Exception e) eqn:He; cbn [fst snd].
      * intros _. cbn. split; [reflexivity|]. right. split; reflexivity.
      * intros H; congruence.
    + cbn. split; reflexivity.
    + cbn. split; reflexivity.
  - intros _. cbn. split; [reflexivity|]. left. reflexivity.
  - cbn. split; reflexivity.
  - cbn. split; reflexivity.
Qed.


(** ** The enrichment loop, whatever the providers do *)

Section LoopInGeneral.
Context {R : Runtime} {Sv : Services R}.

Lemma same_identity_refl (a : Album.t) : same_identity a a.
Proof. repeat split. Qed.

Lemma merge_keeps_identity (a a' : Album.t) (p : PyVal) :
  DiscographyCrawler._merge_album_data a p = Ret a' -> same_identity a a'.
Proof.
  unfold DiscographyCrawler._merge_album_data.
  pose proof (merge_genre_cases a p) as Hg.
  destruct (DiscographyCrawler.merge_genre a p) as [a1| | |];
    cbn [obind]; try discriminate.
  pose proof (merge_label_cases a1 p) as Hl.
  destruct (DiscographyCrawler.merge_label a1 p) as [a2| | |];
    cbn [obind]; try discriminate.
  pose proof (merge_tracks_cases a2 p) as Ht.
  intros H. rewrite H in Ht.
  destruct Hg as [g ->].
  destruct Ht as [->|(ts & HF & ->)];
    (destruct Hl as [->|(_ & l & _ & ->)]; cbn in *; repeat split;
     try (symmetry; eapply Forall2_length; exact HF)).
Qed.

Lemma base_make_request_keeps_manager {A} (func : Task.t World A)
    (b : BaseCrawler.t) (w : World) :
  BaseCrawler.retry_manager
    (fst (snd (BaseCrawler.make_request func (b, w))))
  = BaseCrawler.retry_manager b.
Proof.
  unfold BaseCrawler.make_request.
  destruct (RateLimiter.acquire (BaseCrawler.rate_limiter b, w))
    as [[u|e| |] [rl w1]]; cbn [fst snd]; try reflexivity.
  destruct (RetryManager.execute_with_retry func asyncio_sleep _ w1)
    as [[v|e| |] w2]; cbn [fst snd]; try reflexivity.
  destruct (is_Exception e); reflexivity.
Qed.

Lemma make_request_steady {A} (func : Task.t World A)
    (s : DiscographyCrawler.t * World) :
  steady (fst s) (fst (snd (DiscographyCrawler.make_request func s))).
Proof.
  unfold DiscographyCrawler.make_request.
  pose proof (base_make_request_keeps_manager func
                (DiscographyCrawler.base (fst s)) (snd s)) as H.
  destruct (BaseCrawler.make_request func
              (DiscographyCrawler.base (fst s), snd s)) as [o [b w1]].
  cbn [fst snd] in *. repeat split. exact H.
Qed.

(** One iteration never raises an [Exception] and touches the crawler only
    through the request. *)
Lemma enhance_album_in_general (key : string) (artist : Artist.t)
    (album : Album.t) (s : DiscographyCrawler.t * World) :
  steady (fst s)
    (fst (snd (DiscographyCrawler.enhance_album key artist album s)))
  /\ match fst (DiscographyCrawler.enhance_album key artist album s) with
     | Ret a' => same_identity album a'
     | Raise e => is_Exception e = false
     | Hang | OutOfFuel => True
     end.
Proof.
  unfold DiscographyCrawler.enhance_album, Task.try_except, Task.bind.
  pose proof (make_request_steady
                (lastfm_get_album_info key (Artist.name artist)
                   (Album.title album)) s) as Hst.
  destruct (DiscographyCrawler.make_request _ s) as [[v|e| |] [self1 w1]];
    cbn [fst snd] in *.
  - destruct (truthy v).
    + unfold Task.pure.
      pose proof (merge_album_data_benign album v) as Hb.
      destruct (DiscographyCrawler._merge_album_data album v)
        as [m|e| |] eqn:Hm; cbn in Hb; try contradiction.
      * cbn. split; [exact Hst|]. now apply merge_keeps_identity in Hm.
      * rewrite Hb. cbn. split; [exact Hst|apply same_identity_refl].
    + cbn. split; [exact Hst|apply same_identity_refl].
  - destruct (is_Exception e) eqn:He; cbn; (split; [exact Hst|]);
      [apply same_identity_refl|exact He].
  - split; [exact Hst|exact I].
  - split; [exact Hst|exact I].
Qed.

Lemma enhance_albums_in_general (key : string) (artist : Artist.t) :
  forall (albums acc : list Album.t) (s : DiscographyCrawler.t * World),
    steady (fst s)
      (fst (snd (DiscographyCrawler.enhance_albums key artist albums acc s)))
    /\ match fst (DiscographyCrawler.enhance_albums key artist albums acc s)
       with
       | Ret res =>
           exists res', res = (acc ++ res')%list
                        /\ Forall2 same_identity albums res'
       | Raise e => is_Exception e = false
       | Hang | OutOfFuel => True
       end.
Proof.
  induction albums as [|album rest IH]; intros acc s;
    cbn [DiscographyCrawler.enhance_albums].
  - cbn. split; [apply steady_refl|]. exists []. rewrite app_nil_r.
    split; [reflexivity|constructor].
  - unfold Task.bind.
    destruct (enhance_album_in_general key artist album s) as [Hst Hout].
    destruct (DiscographyCrawler.enhance_album key artist album s)
      as [[a'|e| |] s1]; cbn [fst snd] in *; try (split; assumption).
    destruct (IH (acc ++ [a'])%list s1) as [Hst' Hout'].
    split; [eapply steady_trans; eauto|].
    destruct (fst (DiscographyCrawler.enhance_albums key artist rest
                     (acc ++ [a'])%list s1)) as [res|e| |]; auto.
    destruct Hout' as (res' & -> & HF). exists (a' :: res').
    rewrite <- app_assoc. split; [reflexivity|]. now constructor.
Qed.

End LoopInGeneral.

(** The loop behind its key test. *)
Lemma enhance_with_lastfm_in_general {R : Runtime} {Sv : Services R}
    (artist : Artist.t) (albums : list Album.t)
    (s : DiscographyCrawler.t * World) :
  steady (fst s)
    (fst (snd (DiscographyCrawler._enhance_with_lastfm artist albums s)))
  /\ match fst (DiscographyCrawler._enhance_with_lastfm artist albums s) with
     | Ret res => Forall2 same_identity albums res
     | Raise e => is_Exception e = false
     | Hang | OutOfFuel => True
     end.
Proof.
  unfold DiscographyCrawler._enhance_with_lastfm.
  destruct (DiscographyCrawler.key_supplied _) as [key|].
  - destruct (enhance_albums_in_general key artist albums [] s) as [Hst Hout].
    split; [exact Hst|].
    destruct (fst (DiscographyCrawler.enhance_albums key artist albums [] s))
      as [res|e| |]; auto.
    destruct Hout as (res' & -> & HF). exact HF.
  - cbn. split; [apply steady_refl|].
    induction albums; constructor; [apply same_identity_refl|assumption].
Qed.

(** Whatever the provider and the limiter do, [_enhance_with_lastfm] lets
    no [Exception] out; when it returns, it returns one album per
    canonical album, in order, each with the title, dates, type,
    identifiers, country and number of tracks of its canonical album; and
    it leaves the crawler's client, key, status and retry manager as they
    were. *)
Theorem enrichment_in_general {R : Runtime} {Sv : Services R}
    (artist : Artist.t) (albums : list Album.t)
    (s : DiscographyCrawler.t * World) :
  steady (fst s)
    (fst (snd (DiscographyCrawler._enhance_with_lastfm artist albums s)))
  /\ match fst (DiscographyCrawler._enhance_with_lastfm artist albums s) with
     | Ret res => Forall2 same_identity albums res
     | Raise e => is_Exception e = false
     | Hang | OutOfFuel => True
     end.
Proof.
  apply enhance_with_lastfm_in_general.
Qed.

(** ** How a crawl ends *)

(** Whatever the providers do, a crawl that returns leaves the status
    completed, with the numbers of albums and of tracks of the discography
    it returns, no error and the time of completion; the sources are
    MusicBrainz alone, or followed by Last.fm exactly when a key was
    supplied.  Every [Exception] that leaves the crawl is a [CrawlerError]
    whose message names the artist and ends with the text of the cause,
    and then the status is failed, with that text as its one error and the
    time of the failure. *)
Theorem crawl_ends_with_a_terminal_status {R : Runtime} {Sv : Services R}
    (self : DiscographyCrawler.t) (w : World) (artist_name : string) :
  match DiscographyCrawler.get_artist_discography artist_name (self, w) with
  | (Ret d, (self', w')) =>
      DiscographyCrawler.status self'
      = Some (CrawlStatus.mk artist_name (datetime_now w)
                (Some (datetime_now w')) "completed"
                (Discography.total_albums d) (Discography.total_tracks d)
                [] [])
      /\ Discography.crawled_at d = datetime_now w'
      /\ Discography.sources d
         = match DiscographyCrawler.key_supplied
                   (DiscographyCrawler.lastfm_api_key self) with
           | Some _ => ["MusicBrainz"; "Last.fm"]
           | None => ["MusicBrainz"]
           end
  | (Raise e, (self', w')) =>
      is_Exception e = true ->
      exists cause albums_found,
        e = DiscographyCrawler.crawler_error
              (failure_message artist_name cause)
        /\ DiscographyCrawler.status self'
           = Some (CrawlStatus.mk artist_name (datetime_now w)
                     (Some (datetime_now w')) "failed" albums_found 0
                     [cause] [])
  | (Hang, _) | (OutOfFuel, _) => True
  end.
Proof.
  pose (P := fun r : Outcome Discography.t * (DiscographyCrawler.t * World) =>
    match r with
    | (Ret d, (self', w')) =>
        DiscographyCrawler.status self'
        = Some (CrawlStatus.mk artist_name (datetime_now w)
                  (Some (datetime_now w')) "completed"
                  (Discography.total_albums d) (Discography.total_tracks d)
                  [] [])
        /\ Discography.crawled_at d = datetime_now w'
        /\ Discography.sources d
           = match DiscographyCrawler.key_supplied
                     (DiscographyCrawler.lastfm_api_key self) with
             | Some _ => ["MusicBrainz"; "Last.fm"]
             | None => ["MusicBrainz"]
             end
    | (Raise e, (self', w')) =>
        is_Exception e = true ->
        exists cause albums_found,
          e = DiscographyCrawler.crawler_error
                (failure_message artist_name cause)
          /\ DiscographyCrawler.status self'
             = Some (CrawlStatus.mk artist_name (datetime_now w)
                       (Some (datetime_now w')) "failed" albums_found 0
                       [cause] [])
    | (Hang, _) | (OutOfFuel, _) => True
    end).
  change (P (DiscographyCrawler.get_artist_discography artist_name (self, w))).
  unfold DiscographyCrawler.get_artist_discography.
  unfold Task.bind at 1. unfold Task.modify at 1. cbn [fst snd].
  set (st0 := CrawlStatus.new artist_name (datetime_now w)).
  set (self0 := DiscographyCrawler.with_status (Some st0) self).
  unfold Task.try_except, DiscographyCrawler.crawl_body.
  unfold Task.bind at 1. unfold Task.gets at 1. cbn [fst snd].
  unfold Task.bind at 1.
  (* What the handler makes of an exception raised in a state whose
     status is in progress. *)
  assert (Hhandler : forall (e : Exn) (s1 : DiscographyCrawler.t * World) n,
            DiscographyCrawler.status (fst s1)
            = Some (CrawlStatus.with_albums_found n st0) ->
            P (if is_Exception e
               then Task.bind
                      (DiscographyCrawler.update_status
                         (fun now => CrawlStatus.mark_failed now (exn_str e)))
                      (fun _ => Task.raise
                         (DiscographyCrawler.crawler_error
                            ("Fallimento nel crawling per '" ++ artist_name
                             ++ "': " ++ exn_str e))) s1
               else (@Raise Discography.t e, s1))).
  { intros e [self1 w1] n Hs. cbn [fst] in Hs.
    destruct (is_Exception e) eqn:He.
    - unfold Task.bind, DiscographyCrawler.update_status, Task.modify,
        Task.raise. cbn [fst snd DiscographyCrawler.status
        DiscographyCrawler.with_status]. rewrite Hs. cbn.
      intros _. exists (exn_str e), n. split; reflexivity.
    - cbn. intros H; congruence. }
  pose proof (make_request_steady
                (DiscographyCrawler.search_artist
                   (DiscographyCrawler.musicbrainz_client self0) artist_name)
                (self0, w)) as Hst1.
  destruct (DiscographyCrawler.make_request _ (self0, w))
    as [[artists|e| |] s1]; cbn [fst snd] in Hst1; try exact I.
  2:{ apply (Hhandler e s1 0). now destruct Hst1 as (_ & _ & -> & _). }
  assert (Hs1 : DiscographyCrawler.status (fst s1) = Some st0)
    by now destruct Hst1 as (_ & _ & -> & _).
  destruct artists as [|primary_artist others].
  { unfold Task.raise at 1.
    apply (Hhandler (DiscographyCrawler.crawler_error _) s1 0). exact Hs1. }
  unfold Task.bind at 1.
  pose proof (make_request_steady
                (DiscographyCrawler.get_artist_discography_of
                   (DiscographyCrawler.musicbrainz_client self0)
                   (Artist.musicbrainz_id primary_artist)) s1) as Hst2.
  destruct (DiscographyCrawler.make_request _ s1)
    as [[mb_albums|e| |] s2]; cbn [fst snd] in Hst2; try exact I.
  2:{ apply (Hhandler e s2 0). destruct Hst2 as (_ & _ & -> & _). exact Hs1. }
  assert (Hs2 : DiscographyCrawler.status (fst s2) = Some st0)
    by (destruct Hst2 as (_ & _ & -> & _); exact Hs1).
  unfold Task.bind at 1. unfold DiscographyCrawler.update_status at 1.
  unfold Task.modify at 1. cbn [fst snd]. rewrite Hs2. cbn [option_map].
  set (n := Z.of_nat (List.length mb_albums)).
  set (s2' := (DiscographyCrawler.with_status
                 (Some (CrawlStatus.with_albums_found n st0)) (fst s2),
               snd s2)).
  unfold Task.bind at 1.
  destruct (enhance_with_lastfm_in_general primary_artist mb_albums s2')
    as [Hst3 Hout3].
  destruct (DiscographyCrawler._enhance_with_lastfm primary_artist mb_albums s2')
    as [[enhanced|e| |] s3]; cbn [fst snd] in Hst3, Hout3; try exact I.
  2:{ apply (Hhandler e s3 n). now destruct Hst3 as (_ & _ & -> & _). }
  assert (Hs3 : DiscographyCrawler.status (fst s3)
                = Some (CrawlStatus.with_albums_found n st0))
    by now destruct Hst3 as (_ & _ & -> & _).
  assert (Hk3 : DiscographyCrawler.lastfm_api_key (fst s3)
                = DiscographyCrawler.lastfm_api_key self).
  { destruct Hst3 as (_ & -> & _ & _). cbn.
    destruct Hst2 as (_ & -> & _ & _). destruct Hst1 as (_ & -> & _ & _).
    reflexivity. }
  apply Forall2_length in Hout3.
  destruct s3 as [self3 w3]. cbn [fst snd] in *.
  unfold Task.bind, DiscographyCrawler.update_status, Task.modify,
    Task.gets, Task.ret.
  cbn [fst snd DiscographyCrawler.status DiscographyCrawler.with_status
       DiscographyCrawler.lastfm_api_key].
  rewrite Hs3, Hk3. cbn [option_map]. unfold P.
  split; [|split].
  - unfold Discography.total_albums, Discography.total_tracks.
    destruct (DiscographyCrawler.key_supplied _); cbn; subst n;
      rewrite Hout3; reflexivity.
  - destruct (DiscographyCrawler.key_supplied _); reflexivity.
  - destruct (DiscographyCrawler.key_supplied _); reflexivity.
Qed.

(** A crawl without a Last.fm key (absent or empty), whose two requests
    succeed at the first attempt with room in the limiter: the discography
    holds the albums exactly as the client returned them, the only source
    is MusicBrainz, and nothing happens to the world after the discography
    request (no lookup, no wait); two requests are counted. *)
Theorem crawl_without_key {R : Runtime} {Sv : Services R}
    (self : DiscographyCrawler.t) (w w1 w2 : World) (artist_name : string)
    (primary_artist : Artist.t) (others : list Artist.t)
    (mb_albums : list Album.t) :
  DiscographyCrawler.key_supplied (DiscographyCrawler.lastfm_api_key self)
  = None ->
  0 <= RetryManager.max_retries
         (BaseCrawler.retry_manager (DiscographyCrawler.base self)) ->
  room self 2 ->
  DiscographyCrawler.search_artist
    (DiscographyCrawler.musicbrainz_client self) artist_name w
  = (Ret (primary_artist :: others), w1) ->
  DiscographyCrawler.get_artist_discography_of
    (DiscographyCrawler.musicbrainz_client self)
    (Artist.musicbrainz_id primary_artist) w1
  = (Ret mb_albums, w2) ->
  exists self',
    DiscographyCrawler.get_artist_discography artist_name (self, w)
    = (Ret (Discography.mk primary_artist mb_albums (datetime_now w2)
              ["MusicBrainz"] (PDict [])),
       (self', w2))
    /\ BaseCrawler.requests_made
         (BaseCrawler.stats (DiscographyCrawler.base self'))
       = BaseCrawler.requests_made
           (BaseCrawler.stats (DiscographyCrawler.base self)) + 2.
Proof.
  intros Hkey Hmax Hroom Hsearch Hdisc.
  set (self0 := DiscographyCrawler.with_status
                  (Some (CrawlStatus.new artist_name (datetime_now w))) self).
  pose proof (crawler_make_request_first_try
                (DiscographyCrawler.search_artist
                   (DiscographyCrawler.musicbrainz_client self) artist_name)
                self0 w w1 _ 2 ltac:(lia) Hroom Hmax Hsearch)
    as (self1r & _ & Hroom1 & _).
  destruct (crawler_make_request_counts
              (DiscographyCrawler.search_artist
                 (DiscographyCrawler.musicbrainz_client self) artist_name)
              self0 w w1 _ 2 ltac:(lia) Hroom Hmax Hsearch)
    as (self1 & Hmr1 & Hst1 & Hstats1).
  assert (Hroom1' : room self1 1).
  { pose proof (crawler_make_request_first_try
                  (DiscographyCrawler.search_artist
                     (DiscographyCrawler.musicbrainz_client self) artist_name)
                  self0 w w1 _ 2 ltac:(lia) Hroom Hmax Hsearch)
      as (x & Hx & Hr & _).
    rewrite Hmr1 in Hx. inversion Hx; subst. exact Hr. }
  assert (Hmax1 : 0 <= RetryManager.max_retries
                         (BaseCrawler.retry_manager
                            (DiscographyCrawler.base self1))).
  { destruct Hst1 as (_ & _ & _ & ->). exact Hmax. }
  destruct (crawler_make_request_counts
              (DiscographyCrawler.get_artist_discography_of
                 (DiscographyCrawler.musicbrainz_client self)
                 (Artist.musicbrainz_id primary_artist))
              self1 w1 w2 _ 1 ltac:(lia) Hroom1' Hmax1 Hdisc)
    as (self2 & Hmr2 & Hst2 & Hstats2).
  assert (Hkey2 : DiscographyCrawler.key_supplied
                    (DiscographyCrawler.lastfm_api_key self2) = None).
  { destruct Hst2 as (_ & -> & _ & _). destruct Hst1 as (_ & -> & _ & _).
    exact Hkey. }
  eexists. split.
  { unfold DiscographyCrawler.get_artist_discography.
    unfold Task.bind at 1. unfold Task.modify at 1. cbn [fst snd].
    fold self0. unfold Task.try_except.
    unfold DiscographyCrawler.crawl_body.
    unfold Task.bind at 1. unfold Task.gets at 1. cbn [fst snd].
    change (DiscographyCrawler.musicbrainz_client self0)
      with (DiscographyCrawler.musicbrainz_client self).
    unfold Task.bind at 1. rewrite Hmr1.
    unfold Task.bind at 1. rewrite Hmr2.
    unfold Task.bind at 1. unfold DiscographyCrawler.update_status at 1.
    unfold Task.modify at 1. cbn [fst snd].
    unfold Task.bind at 1.
    unfold DiscographyCrawler._enhance_with_lastfm at 1. cbn [fst snd].
    cbn [DiscographyCrawler.lastfm_api_key DiscographyCrawler.with_status].
    rewrite Hkey2.
    unfold Task.bind, DiscographyCrawler.update_status, Task.modify,
      Task.gets, Task.ret. cbn [fst snd DiscographyCrawler.with_status
      DiscographyCrawler.lastfm_api_key DiscographyCrawler.status].
    rewrite Hkey2. reflexivity. }
  cbn [DiscographyCrawler.base DiscographyCrawler.with_status].
  rewrite Hstats2, Hstats1. cbn. lia.
Qed.

(** The theorem at the mocked client of the samples, without a key. *)
Lemma crawl_without_key_witness :
  exists self',
    DiscographyCrawler.get_artist_discography (Sv := Sample.services)
      "Nirvana" (Sample.crawler Sample.mock_client None, 0%Q)
    = (Ret (Discography.mk (Sample.artist "Nirvana")
              [Sample.bleach; Sample.in_utero] 0%Q ["MusicBrainz"] (PDict [])),
       (self', 0%Q))
    /\ BaseCrawler.requests_made
         (BaseCrawler.stats (DiscographyCrawler.base self'))
       = BaseCrawler.requests_made
           (BaseCrawler.stats
              (DiscographyCrawler.base
                 (Sample.crawler Sample.mock_client None))) + 2.
Proof.
  apply (crawl_without_key (Sv := Sample.services)
           (Sample.crawler Sample.mock_client None) 0%Q 0%Q 0%Q "Nirvana"
           (Sample.artist "Nirvana") [] [Sample.bleach; Sample.in_utero]).
  - reflexivity.
  - cbn; lia.
  - split; [reflexivity | cbn; lia].
  - reflexivity.
  - reflexivity.
Defined.

(** ** DiscographyCrawler.search_artists *)

(** [search_artists] lets no [Exception] out: a failure of the request (or
    of the limiter) gives the empty list.  What it returns is the empty
    list or the slice up to [limit] of a list the client's search
    returned, so with a non-negative [limit] it has at most [limit]
    candidates; the status of the crawler is not touched. *)
Theorem search_artists_is_bounded {R : Runtime} {Sv : Services R}
    (query : string) (limit : Z) (s : DiscographyCrawler.t * World) :
  DiscographyCrawler.status
    (fst (snd (SearchArtists.search_artists query limit s)))
  = DiscographyCrawler.status (fst s)
  /\ match fst (SearchArtists.search_artists query limit s) with
     | Ret res =>
         (0 <= limit -> Z.of_nat (List.length res) <= limit)
         /\ (res = []
             \/ exists found w0 w1,
                  DiscographyCrawler.search_artist
                    (DiscographyCrawler.musicbrainz_client (fst s)) query w0
                  = (Ret found, w1)
                  /\ res = SearchArtists.slice_to limit found)
     | Raise e => is_Exception e = false
     | Hang | OutOfFuel => True
     end.
Proof.
  unfold SearchArtists.search_artists, Task.try_except, Task.bind, Task.gets.
  cbn [fst snd].
  pose proof (make_request_steady
                (DiscographyCrawler.search_artist
                   (DiscographyCrawler.musicbrainz_client (fst s)) query) s)
    as Hst.
  destruct (DiscographyCrawler.make_request _ s) as [[found|e| |] s1] eqn:Hmr;
    cbn [fst snd] in *.
  - unfold Task.ret. cbn [fst snd].
    split; [now destruct Hst as (_ & _ & -> & _)|]. cbv beta iota. split.
    + intros Hlim. unfold SearchArtists.slice_to.
      apply Z.leb_le in Hlim. rewrite Hlim.
      pose proof (firstn_le_length (Z.to_nat limit) found) as Hle.
      apply Z.leb_le in Hlim. lia.
    + right. apply make_request_value_from_call in Hmr as [w0 Hcall].
      exists found, w0, (snd s1). split; [exact Hcall|reflexivity].
  - destruct (is_Exception e) eqn:He; unfold Task.ret; cbn [fst snd].
    + split; [now destruct Hst as (_ & _ & -> & _)|].
      split; [intros; cbn; lia|now left].
    + split; [now destruct Hst as (_ & _ & -> & _)|exact He].
  - split; [now destruct Hst as (_ & _ & -> & _)|exact I].
  - split; [now destruct Hst as (_ & _ & -> & _)|exact I].
Qed.

(** The slice with a negative limit drops from the end, as Python has it. *)
Example search_artists_negative_limit :
  SearchArtists.slice_to (-1) [1; 2; 3] = [1; 2]
  /\ SearchArtists.slice_to 2 [1; 2; 3] = [1; 2]
  /\ SearchArtists.slice_to (-5) [1; 2; 3] = [].
Proof. repeat split. Qed.

(** ** More of the MusicBrainz client *)

Section MoreMusicBrainz.
Context {R : Runtime} {Sv : Services R}.

Lemma date_make_cases (y m d : Z) :
  match Date.make y m d with
  | Ret dt =>
      dt = Date.mk y m d
      /\ 1 <= y <= 9999 /\ 1 <= m <= 12 /\ 1 <= d <= Date.days_in_month y m
  | Raise e => e = overflow_error \/ e = value_error
  | Hang | OutOfFuel => False
  end.
Proof.
  unfold Date.make. destruct (negb _); [now left|].
  destruct ((1 <=? y) && (y <=? 9999) && (1 <=? m) && (m <=? 12)
            && (1 <=? d) && (d <=? Date.days_in_month y m)) eqn:E;
    [|now right].
  repeat (apply andb_true_iff in E as [E ?]).
  split; [reflexivity|]. lia.
Qed.

Lemma py_int_str_cases (x : string) :
  match py_int (PStr x) with
  | Ret _ => True
  | Raise e => e = value_error
  | Hang | OutOfFuel => False
  end.
Proof. cbn. destruct (int_of_str x); auto. Qed.

(** What [except (ValueError, IndexError)] leaves of the construction of
    a date from parsed components. *)
Lemma date_or_none_cases (o : Outcome Date.t) (P : Date.t -> Prop) :
  match o with
  | Ret dt => P dt
  | Raise e => e = overflow_error \/ e = value_error
  | Hang | OutOfFuel => False
  end ->
  match MusicBrainzClient.date_or_none o with
  | Ret (Some dt) => P dt
  | Ret None => True
  | Raise e => e = overflow_error
  | Hang | OutOfFuel => False
  end.
Proof.
  destruct o as [dt|e| |]; cbn; auto.
  intros [->| ->]; cbn; auto.
Qed.

Lemma parse_date_in_general (v : PyVal) :
  match MusicBrainzClient._parse_date v with
  | Ret None => True
  | Ret (Some dt) =>
      exists s,
        v = PStr s
        /\ 1 <= Date.year dt <= 9999
        /\ 1 <= Date.month dt <= 12
        /\ 1 <= Date.day dt <= Date.days_in_month (Date.year dt) (Date.month dt)
        /\ (List.length (split_on "-" s) <= 3)%nat
        /\ (List.length (split_on "-" s) = 1%nat ->
            Date.month dt = 1 /\ Date.day dt = 1)
        /\ (List.length (split_on "-" s) = 2%nat -> Date.day dt = 1)
  | Raise e =>
      (e = attribute_error /\ forall s, v <> PStr s) \/ e = overflow_error
  | Hang | OutOfFuel => False
  end.
Proof.
  unfold MusicBrainzClient._parse_date.
  destruct (negb (truthy v)); [exact I|].
  destruct v; try (left; split; [reflexivity|intros; discriminate]).
  destruct (split_on "-" s) as [|y [|m [|d [|x rest]]]] eqn:Hs; try exact I.
  - pose proof (date_or_none_cases
                  (obind (py_int (PStr y)) (fun y' => Date.make y' 1 1))
                  (fun dt => 1 <= Date.year dt <= 9999
                             /\ Date.month dt = 1 /\ Date.day dt = 1
                             /\ 1 <= 1 <= Date.days_in_month (Date.year dt) 1))
      as H.
    match type of H with ?A -> _ => assert (HA : A) end.
    { pose proof (py_int_str_cases y) as Hy.
      destruct (py_int (PStr y)) as [y'| | |]; cbn [obind]; auto.
      pose proof (date_make_cases y' 1 1) as Hm.
      destruct (Date.make y' 1 1); auto.
      destruct Hm as (-> & ? & ? & ?). cbn. auto. }
    specialize (H HA). clear HA.
    destruct (MusicBrainzClient.date_or_none _) as [[dt|]| | |]; auto.
    destruct H as (? & Hm & Hd & ?). exists s. rewrite Hs, Hm, Hd.
    repeat split; cbn; try lia; auto.
  - pose proof (date_or_none_cases
                  (obind (py_int (PStr y)) (fun y' =>
                   obind (py_int (PStr m)) (fun m' => Date.make y' m' 1)))
                  (fun dt => 1 <= Date.year dt <= 9999
                             /\ 1 <= Date.month dt <= 12 /\ Date.day dt = 1
                             /\ 1 <= 1 <= Date.days_in_month (Date.year dt)
                                            (Date.month dt)))
      as H.
    match type of H with ?A -> _ => assert (HA : A) end.
    { pose proof (py_int_str_cases y) as Hy.
      destruct (py_int (PStr y)) as [y'| | |]; cbn [obind]; auto.
      pose proof (py_int_str_cases m) as Hm0.
      destruct (py_int (PStr m)) as [m'| | |]; cbn [obind]; auto.
      pose proof (date_make_cases y' m' 1) as Hm.
      destruct (Date.make y' m' 1); auto.
      destruct Hm as (-> & ? & ? & ?). cbn. auto. }
    specialize (H HA). clear HA.
    destruct (MusicBrainzClient.date_or_none _) as [[dt|]| | |]; auto.
    destruct H as (? & Hm & Hd & ?). exists s. rewrite Hs, Hd.
    repeat split; cbn; try lia; auto; discriminate.
  - pose proof (date_or_none_cases
                  (obind (py_int (PStr y)) (fun y' =>
                   obind (py_int (PStr m)) (fun m' =>
                   obind (py_int (PStr d)) (fun d' => Date.make y' m' d'))))
                  (fun dt => 1 <= Date.year dt <= 9999
                             /\ 1 <= Date.month dt <= 12
                             /\ 1 <= Date.day dt
                                <= Date.days_in_month (Date.year dt)
                                     (Date.month dt)))
      as H.
    match type of H with ?A -> _ => assert (HA : A) end.
    { pose proof (py_int_str_cases y) as Hy.
      destruct (py_int (PStr y)) as [y'| | |]; cbn [obind]; auto.
      pose proof (py_int_str_cases m) as Hm0.
      destruct (py_int (PStr m)) as [m'| | |]; cbn [obind]; auto.
      pose proof (py_int_str_cases d) as Hd0.
      destruct (py_int (PStr d)) as [d'| | |]; cbn [obind]; auto.
      pose proof (date_make_cases y' m' d') as Hm.
      destruct (Date.make y' m' d'); auto.
      destruct Hm as (-> & ? & ? & ?). cbn. auto. }
    specialize (H HA). clear HA.
    destruct (MusicBrainzClient.date_or_none _) as [[dt|]| | |]; auto.
    destruct H as (? & Hm & Hd). exists s. rewrite Hs.
    repeat split; cbn; try lia; auto; discriminate.
Qed.

End MoreMusicBrainz.

(** [_parse_date]: a false value ([None], the empty string) gives no date.
    A date, when one comes out, comes from a string of at most three
    fields and is a calendar day of the years 1 to 9999; a year alone
    gives the first of January, a year and a month the first of the
    month.  Anything else gives no date, except that a true value that is
    no string raises [AttributeError] and a number beyond a C int an
    [OverflowError]: neither is among the exceptions the method catches. *)
Theorem parse_date_defaults {R : Runtime} (v : PyVal) :
  (truthy v = false -> MusicBrainzClient._parse_date v = Ret None)
  /\ match MusicBrainzClient._parse_date v with
     | Ret None => True
     | Ret (Some dt) =>
         exists s,
           v = PStr s
           /\ 1 <= Date.year dt <= 9999
           /\ 1 <= Date.month dt <= 12
           /\ 1 <= Date.day dt
              <= Date.days_in_month (Date.year dt) (Date.month dt)
           /\ (List.length (split_on "-" s) <= 3)%nat
           /\ (List.length (split_on "-" s) = 1%nat ->
               Date.month dt = 1 /\ Date.day dt = 1)
           /\ (List.length (split_on "-" s) = 2%nat -> Date.day dt = 1)
     | Raise e =>
         (e = attribute_error /\ forall s, v <> PStr s) \/ e = overflow_error
     | Hang | OutOfFuel => False
     end.
Proof.
  split; [|apply parse_date_in_general].
  intros H. unfold MusicBrainzClient._parse_date. now rewrite H.
Qed.

(** Dates as MusicBrainz gives them, and two that raise. *)
Example parse_date_samples :
  MusicBrainzClient._parse_date (R := Sample.runtime) (PStr "1991")
  = Ret (Some (Date.mk 1991 1 1))
  /\ MusicBrainzClient._parse_date (R := Sample.runtime) (PStr "1991-09")
     = Ret (Some (Date.mk 1991 9 1))
  /\ MusicBrainzClient._parse_date (R := Sample.runtime) (PStr "1991-09-24")
     = Ret (Some (Date.mk 1991 9 24))
  /\ MusicBrainzClient._parse_date (R := Sample.runtime) (PStr "1991-02-30")
     = Ret None
  /\ MusicBrainzClient._parse_date (R := Sample.runtime) (PStr "1991-09-24-x")
     = Ret None
  /\ MusicBrainzClient._parse_date (R := Sample.runtime) (PInt 1991)
     = Raise attribute_error
  /\ MusicBrainzClient._parse_date (R := Sample.runtime)
       (PStr "99999999999") = Raise overflow_error.
Proof. repeat split; vm_compute; reflexivity. Qed.

(** ** The tracks of a release *)

Section AlbumTracks.
Context {R : Runtime} {Sv : Services R}.

Lemma str_field_benign (v : PyVal) : benign (str_field v).
Proof. unfold str_field. destruct (str_validator v); cbn; auto. Qed.

Lemma length_or_none_benign (o : Outcome Z) :
  benign o -> benign (MusicBrainzClient.length_or_none o).
Proof.
  destruct o as [z|e| |]; cbn; auto.
  intros He. destruct (is_ValueError_or_TypeError e); cbn; auto.
Qed.

(** A track either parses or fails with an [Exception]. *)
Lemma parse_track_benign (td : PyVal) :
  benign (MusicBrainzClient._parse_track td).
Proof.
  unfold MusicBrainzClient._parse_track.
  apply obind_benign; [apply get_benign|]. intros recording.
  apply obind_benign; [apply get_benign|]. intros len_field.
  apply obind_benign.
  { destruct (truthy len_field); [|exact I].
    apply length_or_none_benign.
    apply obind_benign; [apply subscript_benign|]. intros l.
    apply py_int_benign. }
  intros duration_ms.
  apply obind_benign; [apply get_benign|]. intros fallback.
  apply obind_benign; [apply get_benign|]. intros title.
  apply obind_benign; [apply get_benign|]. intros position.
  apply obind_benign; [apply py_int_benign|]. intros track_number.
  apply obind_benign; [apply str_field_benign|]. intros title'.
  destruct (1 <=? track_number); cbn; auto.
Qed.

Lemma parse_track_number (td : PyVal) (t : Track.t) :
  MusicBrainzClient._parse_track td = Ret t -> 1 <= Track.track_number t.
Proof.
  unfold MusicBrainzClient._parse_track.
  destruct (get td "recording" _) as [recording| | |]; cbn [obind];
    try discriminate.
  destruct (get td "length" _) as [len_field| | |]; cbn [obind];
    try discriminate.
  destruct (if truthy len_field then _ else _) as [duration_ms| | |];
    cbn [obind]; try discriminate.
  destruct (get td "title" _) as [fallback| | |]; cbn [obind];
    try discriminate.
  destruct (get recording "title" _) as [title| | |]; cbn [obind];
    try discriminate.
  destruct (get td "position" _) as [position| | |]; cbn [obind];
    try discriminate.
  destruct (py_int position) as [n| | |]; cbn [obind]; try discriminate.
  destruct (str_field title) as [title'| | |]; cbn [obind];
    try discriminate.
  destruct (1 <=? n) eqn:Hn; [|discriminate].
  intros [= <-]. cbn. lia.
Qed.

(** One failing element fails the whole comprehension. *)
Lemma omap_raises {A B} (f : A -> Outcome B) (xs : list A) (x : A) :
  (forall y, benign (f y)) ->
  In x xs ->
  (exists e, f x = Raise e) ->
  exists e', omap f xs = Raise e' /\ is_Exception e' = true.
Proof.
  intros Hf Hin [e He].
  induction xs as [|a xs IH]; [contradiction|].
  cbn [omap]. pose proof (Hf a) as Ha.
  destruct (f a) as [y|ea| |] eqn:Hfa; cbn [obind]; try contradiction.
  - destruct Hin as [->|Hin]; [congruence|].
    destruct (IH Hin) as (e' & -> & He'). cbn. eauto.
  - eauto.
Qed.

Lemma tracks_of_medium_benign (medium : PyVal) :
  benign (tracks_of_medium medium).
Proof.
  unfold tracks_of_medium.
  apply obind_benign; [apply get_benign|]. intros tl.
  apply obind_benign; [apply iter_benign|]. intros l.
  apply omap_benign, parse_track_benign.
Qed.

Lemma album_tracks_raises_no_Exception (release_id : PyVal) (w : World) :
  match fst (MusicBrainzClient.get_album_tracks release_id w) with
  | Raise e => is_Exception e = false
  | _ => True
  end.
Proof.
  unfold MusicBrainzClient.get_album_tracks, Task.try_except, Task.bind.
  destruct (mb_get_release_by_id release_id w) as [[result|e| |] w1].
  - unfold Task.pure.
    destruct (obind (get result "release" (PDict [])) _) as [l|e| |];
      cbn; auto.
    destruct (is_Exception e) eqn:He; cbn; auto.
  - destruct (is_Exception e) eqn:He; cbn; auto.
  - exact I.
  - exact I.
Qed.

Lemma album_tracks_on_library_error (release_id : PyVal) (w w' : World)
    (e : Exn) :
  is_Exception e = true ->
  mb_get_release_by_id release_id w = (Raise e, w') ->
  MusicBrainzClient.get_album_tracks release_id w = (Ret [], w').
Proof.
  intros He Hlib.
  unfold MusicBrainzClient.get_album_tracks, Task.try_except, Task.bind.
  rewrite Hlib, He. reflexivity.
Qed.

Lemma album_tracks_on_bad_track (release_id : PyVal) (w w' : World)
    (result release medium td : PyVal) (media tds : list PyVal) (e : Exn) :
  mb_get_release_by_id release_id w = (Ret result, w') ->
  get result "release" (PDict []) = Ret release ->
  get release "medium-list" (PList []) = Ret (PList media) ->
  In medium media ->
  get medium "track-list" (PList []) = Ret (PList tds) ->
  In td tds ->
  MusicBrainzClient._parse_track td = Raise e ->
  MusicBrainzClient.get_album_tracks release_id w = (Ret [], w').
Proof.
  intros Hlib Hrel Hmedia Hin Htl Hin' Hbad.
  assert (Hmed : exists e1, tracks_of_medium medium = Raise e1).
  { unfold tracks_of_medium. rewrite Htl. cbn [obind iter].
    destruct (omap_raises MusicBrainzClient._parse_track tds td
                parse_track_benign Hin' (ex_intro _ e Hbad))
      as (e1 & -> & _). eauto. }
  destruct (omap_raises tracks_of_medium media medium
              tracks_of_medium_benign Hin Hmed) as (e2 & Hall & He2).
  unfold MusicBrainzClient.get_album_tracks, Task.try_except, Task.bind,
    Task.pure.
  rewrite Hlib, Hrel. cbn [obind]. rewrite Hmedia. cbn [obind iter].
  fold tracks_of_medium. rewrite Hall. cbn [obind]. rewrite He2.
  reflexivity.
Qed.

Lemma album_tracks_when_all_parse (release_id : PyVal) (w w' : World)
    (result release : PyVal) (media : list PyVal)
    (per_medium : list (list Track.t)) :
  mb_get_release_by_id release_id w = (Ret result, w') ->
  get result "release" (PDict []) = Ret release ->
  get release "medium-list" (PList []) = Ret (PList media) ->
  omap tracks_of_medium media = Ret per_medium ->
  MusicBrainzClient.get_album_tracks release_id w
  = (Ret (List.concat per_medium), w').
Proof.
  intros Hlib Hrel Hmedia Hall.
  unfold MusicBrainzClient.get_album_tracks, Task.try_except, Task.bind,
    Task.pure.
  rewrite Hlib, Hrel. cbn [obind]. rewrite Hmedia. cbn [obind iter].
  fold tracks_of_medium. rewrite Hall. reflexivity.
Qed.

End AlbumTracks.

(** [get_album_tracks] gives all the tracks of a release or none.  No
    [Exception] leaves it; an [Exception] of the library call gives the
    empty list; and so does one track, on any medium, that fails to parse:
    the tracks that did parse are lost with it.  A track that parses has
    a number of at least 1. *)
Theorem album_tracks_all_or_nothing {R : Runtime} {Sv : Services R}
    (release_id : PyVal) (w : World) :
  match fst (MusicBrainzClient.get_album_tracks release_id w) with
  | Raise e => is_Exception e = false
  | _ => True
  end
  /\ (forall e w',
        is_Exception e = true ->
        mb_get_release_by_id release_id w = (Raise e, w') ->
        MusicBrainzClient.get_album_tracks release_id w = (Ret [], w'))
  /\ (forall w' result release medium td media tds e,
        mb_get_release_by_id release_id w = (Ret result, w') ->
        get result "release" (PDict []) = Ret release ->
        get release "medium-list" (PList []) = Ret (PList media) ->
        In medium media ->
        get medium "track-list" (PList []) = Ret (PList tds) ->
        In td tds ->
        MusicBrainzClient._parse_track td = Raise e ->
        MusicBrainzClient.get_album_tracks release_id w = (Ret [], w'))
  /\ (forall w' tracks t,
        MusicBrainzClient.get_album_tracks release_id w = (Ret tracks, w') ->
        In t tracks -> 1 <= Track.track_number t).
Proof.
  split; [apply album_tracks_raises_no_Exception|].
  split; [intros e w'; apply album_tracks_on_library_error|].
  split.
  { intros w' result release medium td media tds e.
    apply album_tracks_on_bad_track. }
  intros w' tracks t Hrun Hin.
  revert Hrun.
  unfold MusicBrainzClient.get_album_tracks, Task.try_except, Task.bind,
    Task.pure.
  destruct (mb_get_release_by_id release_id w) as [[result|e| |] w1];
    try discriminate.
  2:{ destruct (is_Exception e); [|discriminate].
      intros [= <- <-]. contradiction. }
  destruct (get result "release" (PDict [])) as [release|e| |];
    cbn [obind]; try discriminate.
  2:{ destruct (is_Exception e); [|discriminate].
      intros [= <- <-]. contradiction. }
  destruct (get release "medium-list" (PList [])) as [l|e| |];
    cbn [obind]; try discriminate.
  2:{ destruct (is_Exception e); [|discriminate].
      intros [= <- <-]. contradiction. }
  destruct (iter l) as [media|e| |]; cbn [obind]; try discriminate.
  2:{ destruct (is_Exception e); [|discriminate].
      intros [= <- <-]. contradiction. }
  fold tracks_of_medium.
  destruct (omap tracks_of_medium media) as [per_medium|e| |] eqn:Hall;
    cbn [obind]; try discriminate.
  2:{ destruct (is_Exception e); [|discriminate].
      intros [= <- <-]. contradiction. }
  intros [= <- <-].
  apply in_concat in Hin as (ts & Hts & Hin).
  clear - Hall Hts Hin.
  revert per_medium Hall Hts.
  induction media as [|m media IH]; intros per_medium Hall Hts.
  - cbn in Hall. injection Hall as <-. contradiction.
  - cbn [omap] in Hall.
    destruct (tracks_of_medium m) as [tm| | |] eqn:Hm; cbn [obind] in Hall;
      try discriminate.
    destruct (omap tracks_of_medium media) as [rest| | |];
      cbn [obind] in Hall; try discriminate.
    injection Hall as <-.
    destruct Hts as [<-|Hts]; [|exact (IH rest eq_refl Hts)].
    clear IH. unfold tracks_of_medium in Hm.
    destruct (get m "track-list" _) as [tl| | |]; cbn [obind] in Hm;
      try discriminate.
    destruct (iter tl) as [tds| | |]; cbn [obind] in Hm; try discriminate.
    revert tm Hm Hin.
    induction tds as [|td tds IH]; intros tm Hm Hin.
    + cbn in Hm. injection Hm as <-. contradiction.
    + cbn [omap] in Hm.
      destruct (MusicBrainzClient._parse_track td) as [t0| | |] eqn:Ht0;
        cbn [obind] in Hm; try discriminate.
      destruct (omap MusicBrainzClient._parse_track tds) as [ts| | |];
        cbn [obind] in Hm; try discriminate.
      injection Hm as <-.
      destruct Hin as [<-|Hin]; [|exact (IH ts eq_refl Hin)].
      exact (parse_track_number td t0 Ht0).
Qed.

(** A release of three tracks on two media, one of them with the
    position 0: no track comes back. *)
Lemma album_tracks_all_or_nothing_witness :
  MusicBrainzClient.get_album_tracks (R := Sample.runtime)
    (Sv := Sample.releases) (PStr "r1") (0 : Q)
  = (Ret [], 0 : Q).
Proof.
  refine (proj1 (proj2 (proj2
            (album_tracks_all_or_nothing (R := Sample.runtime)
               (Sv := Sample.releases) (PStr "r1") (0 : Q))))
            (0 : Q) Sample.release_with_bad_track _ Sample.first_medium
            (Sample.track_data "Floyd" 0 PNone)
            [Sample.first_medium; Sample.second_medium]
            Sample.first_medium_tracks validation_error
            eq_refl eq_refl eq_refl _ eq_refl _ eq_refl).
  - left. reflexivity.
  - right. left. reflexivity.
Defined.

(** ** The albums of an artist, counted *)

Section ClientDiscography.
Context {R : Runtime} {Sv : Services R}.

Lemma parse_release_groups_length (rgs : list PyVal) :
  forall (acc l : list Album.t) (w w' : World),
    MusicBrainzClient.parse_release_groups rgs acc w = (Ret l, w') ->
    (List.length l <= List.length acc + List.length rgs)%nat.
Proof.
  induction rgs as [|rg rgs IH]; intros acc l w w';
    cbn [MusicBrainzClient.parse_release_groups].
  - unfold Task.ret. intros [= <- <-]. cbn. lia.
  - unfold Task.bind.
    destruct (MusicBrainzClient._parse_release_group rg w)
      as [[[a|]|e| |] w1]; try discriminate.
    + intros H. apply IH in H. rewrite length_app in H. cbn in *. lia.
    + intros H. apply IH in H. cbn. lia.
Qed.

Lemma sort_by_key_length (l : list Album.t) :
  List.length (MusicBrainzClient.sort_by_key l) = List.length l.
Proof. symmetry. apply Permutation_length, sort_by_key_perm. Qed.

Lemma release_group_without_release (rg releases : PyVal) (w : World) :
  get rg "release-list" (PList []) = Ret releases ->
  truthy releases = false ->
  MusicBrainzClient._parse_release_group rg w = (Ret None, w).
Proof.
  intros Hget Hfalse.
  unfold MusicBrainzClient._parse_release_group, Task.try_except.
  unfold Task.bind at 1. unfold Task.pure at 1.
  rewrite Hget, Hfalse. reflexivity.
Qed.

Lemma client_discography_on_library_error (artist_id : option string)
    (w w' : World) (e : Exn) :
  is_Exception e = true ->
  mb_browse_release_groups artist_id w = (Raise e, w') ->
  MusicBrainzClient.get_artist_discography artist_id w = (Ret [], w').
Proof.
  intros He Hlib.
  unfold MusicBrainzClient.get_artist_discography, Task.try_except.
  unfold Task.bind at 1. rewrite Hlib, He. reflexivity.
Qed.

Lemma client_discography_length (artist_id : option string) (w w1 w' : World)
    (result l : PyVal) (rgs : list PyVal) (albums : list Album.t) :
  mb_browse_release_groups artist_id w = (Ret result, w1) ->
  get result "release-group-list" (PList []) = Ret l ->
  iter l = Ret rgs ->
  MusicBrainzClient.get_artist_discography artist_id w = (Ret albums, w') ->
  (List.length albums <= List.length rgs)%nat.
Proof.
  intros Hlib Hget Hiter.
  unfold MusicBrainzClient.get_artist_discography, Task.try_except.
  unfold Task.bind at 1. rewrite Hlib.
  unfold Task.bind at 1. unfold Task.pure. rewrite Hget. cbn [obind].
  rewrite Hiter.
  unfold Task.bind.
  destruct (MusicBrainzClient.parse_release_groups rgs [] w1)
    as [[found|e| |] w2] eqn:Hloop; try discriminate.
  - unfold Task.ret. intros [= <- <-].
    rewrite sort_by_key_length.
    apply parse_release_groups_length in Hloop. cbn in Hloop. lia.
  - destruct (is_Exception e); [|discriminate].
    unfold Task.ret. intros [= <- <-]. cbn. lia.
Qed.

End ClientDiscography.

(** [MusicBrainzClient.get_artist_discography] lets no [Exception] out
    and answers an [Exception] of the library call with the empty list.
    It returns at most one album for each release group the library
    listed, and a release group whose list of releases is missing or
    empty gives no album. *)
Theorem client_discography_one_album_per_group {R : Runtime}
    {Sv : Services R} (artist_id : option string) (w : World) :
  match fst (MusicBrainzClient.get_artist_discography artist_id w) with
  | Raise e => is_Exception e = false
  | _ => True
  end
  /\ (forall e w',
        is_Exception e = true ->
        mb_browse_release_groups artist_id w = (Raise e, w') ->
        MusicBrainzClient.get_artist_discography artist_id w = (Ret [], w'))
  /\ (forall w1 w' result l rgs albums,
        mb_browse_release_groups artist_id w = (Ret result, w1) ->
        get result "release-group-list" (PList []) = Ret l ->
        iter l = Ret rgs ->
        MusicBrainzClient.get_artist_discography artist_id w
        = (Ret albums, w') ->
        (List.length albums <= List.length rgs)%nat)
  /\ (forall rg releases w0,
        get rg "release-list" (PList []) = Ret releases ->
        truthy releases = false ->
        MusicBrainzClient._parse_release_group rg w0 = (Ret None, w0)).
Proof.
  split.
  { pose proof (client_discography_sorted artist_id w) as H.
    destruct (fst (MusicBrainzClient.get_artist_discography artist_id w));
      auto. }
  split; [intros e w'; apply client_discography_on_library_error|].
  split.
  { intros w1 w' result l rgs albums.
    apply client_discography_length. }
  intros rg releases w0. apply release_group_without_release.
Qed.

(** ** The helpers of the Last.fm client *)

Lemma genre_tags_of_named_tags (tags : list PyVal) :
  Forall (fun tag => exists d name,
            tag = PDict d /\ lookup "name" d = Some name) tags ->
  forall n,
    omap (fun tag => get tag "name" (PStr "")) (firstn n tags)
    = Ret (firstn n
             (flat_map (fun tag =>
                          match tag with
                          | PDict d =>
                              match lookup "name" d with
                              | Some name => [name]
                              | None => []
                              end
                          | _ => []
                          end) tags)).
Proof.
  induction 1 as [|tag tags (d & name & -> & Hname) _ IH]; intros [|n];
    try reflexivity.
  cbn [firstn omap flat_map]. cbn [get]. rewrite Hname. cbn [obind app].
  rewrite IH. reflexivity.
Qed.

Lemma in_firstn {A} (n : nat) (l : list A) (x : A) :
  In x (firstn n l) -> In x l.
Proof.
  intros H. rewrite <- (firstn_skipn n l). apply in_or_app. now left.
Qed.

Lemma genre_tags_origin (tags : list PyVal) (name : PyVal) :
  In name (LastFmClient.extract_genre_tags tags) ->
  exists d, In (PDict d) tags /\ lookup "name" d = Some name.
Proof.
  unfold LastFmClient.extract_genre_tags. intros H.
  apply in_firstn in H. apply in_flat_map in H as (tag & Hin & H).
  destruct tag; try contradiction.
  destruct (lookup "name" d) as [v|] eqn:Hv; [|contradiction].
  destruct H as [<-|[]]. eauto.
Qed.

(** [extract_genre_tags] gives at most five genres, each the name of a
    dict tag of its input.  On a list of tags that are all dicts with a
    name it gives exactly the genres that the crawler's own merge writes
    into the album from such a payload. *)
Theorem genre_tags_bounded (tags : list PyVal) :
  (List.length (LastFmClient.extract_genre_tags tags) <= 5)%nat
  /\ (forall name,
        In name (LastFmClient.extract_genre_tags tags) ->
        exists d, In (PDict d) tags /\ lookup "name" d = Some name)
  /\ (forall (a : Album.t) (p : PyVal) (d : list (string * PyVal)),
        Forall (fun tag => exists dt name,
                  tag = PDict dt /\ lookup "name" dt = Some name) tags ->
        subscript p "tags" = Ret (PDict d) ->
        lookup "tag" d = Some (PList tags) ->
        DiscographyCrawler.merge_genre a p
        = Ret (Album.with_genre
                 (Some (LastFmClient.extract_genre_tags tags)) a)).
Proof.
  split; [apply firstn_le_length|].
  split; [apply genre_tags_origin|].
  intros a p d Hnamed Hs Hl.
  rewrite (merge_genre_tag_list a p d tags Hs Hl).
  rewrite (genre_tags_of_named_tags tags Hnamed 5). reflexivity.
Qed.

(** Seven named tags: the first five names, and the same genres from the
    merge of a payload that carries these tags. *)
Lemma genre_tags_bounded_witness :
  LastFmClient.extract_genre_tags Sample.seven_tags
  = map PStr ["grunge"; "rock"; "alternative"; "90s"; "seattle"]
  /\ DiscographyCrawler.merge_genre Sample.bleach
       (PDict [("tags", PDict [("tag", PList Sample.seven_tags)])])
     = Ret (Album.with_genre
              (Some (LastFmClient.extract_genre_tags Sample.seven_tags))
              Sample.bleach).
Proof.
  split; [reflexivity|].
  refine (proj2 (proj2 (genre_tags_bounded Sample.seven_tags)) Sample.bleach
            (PDict [("tags", PDict [("tag", PList Sample.seven_tags)])])
            [("tag", PList Sample.seven_tags)] _ eq_refl eq_refl).
  repeat constructor; eexists _, _; split; reflexivity.
Defined.

Lemma length_four (s : string) :
  String.length s = 4%nat ->
  exists a b c d, s = String a (String b (String c (String d ""))).
Proof.
  destruct s as [|a [|b [|c [|d [|e s]]]]]; cbn; try discriminate.
  intros _. eauto.
Qed.

Lemma four_long_is_a_date (s : string) :
  String.length s = 4%nat ->
  (s =? "")%string = false /\ (s =? "0")%string = false.
Proof.
  intros Hlen. destruct (length_four s Hlen) as (a & b & c & d & ->).
  split; [reflexivity|]. cbn. destruct (Ascii.eqb a "0"); reflexivity.
Qed.

(** [parse_lastfm_date] gives no date exactly for the empty string and
    for "0".  A string of four digits gives the string followed by
    "-01-01"; every other string gives itself; and parsing a result again
    changes nothing. *)
Theorem parse_lastfm_date_cases (date_str : string) :
  (LastFmClient.parse_lastfm_date date_str = None
   <-> date_str = "" \/ date_str = "0")
  /\ (String.length date_str = 4%nat ->
      LastFmClient.isdigit date_str = true ->
      LastFmClient.parse_lastfm_date date_str
      = Some (date_str ++ "-01-01"))
  /\ (date_str <> "" -> date_str <> "0" ->
      (String.length date_str =? 4)%nat && LastFmClient.isdigit date_str
      = false ->
      LastFmClient.parse_lastfm_date date_str = Some date_str)
  /\ (forall r,
        LastFmClient.parse_lastfm_date date_str = Some r ->
        LastFmClient.parse_lastfm_date r = Some r).
Proof.
  split; [|split; [|split]].
  - unfold LastFmClient.parse_lastfm_date.
    destruct (date_str =? "")%string eqn:E1.
    { apply String.eqb_eq in E1. cbn [orb]. tauto. }
    destruct (date_str =? "0")%string eqn:E2.
    { apply String.eqb_eq in E2. cbn [orb]. tauto. }
    cbn [orb].
    apply String.eqb_neq in E1. apply String.eqb_neq in E2.
    destruct (_ && _); split; try discriminate; tauto.
  - intros Hlen Hdig. unfold LastFmClient.parse_lastfm_date.
    destruct (four_long_is_a_date date_str Hlen) as [-> ->].
    rewrite Hdig. apply Nat.eqb_eq in Hlen. rewrite Hlen. reflexivity.
  - intros N1 N2 Hnot. unfold LastFmClient.parse_lastfm_date.
    apply String.eqb_neq in N1. apply String.eqb_neq in N2.
    rewrite N1, N2, Hnot. reflexivity.
  - intros r. unfold LastFmClient.parse_lastfm_date at 1.
    destruct ((date_str =? "")%string || (date_str =? "0")%string) eqn:E0;
      [discriminate|].
    destruct ((String.length date_str =? 4)%nat && _) eqn:E3.
    + intros [= <-].
      apply andb_true_iff in E3 as [Hlen Hdig].
      apply Nat.eqb_eq in Hlen.
      destruct (length_four date_str Hlen) as (a & b & c & d & ->).
      unfold LastFmClient.parse_lastfm_date. cbn.
      destruct (Ascii.eqb a "0"); reflexivity.
    + intros [= <-].
      unfold LastFmClient.parse_lastfm_date. now rewrite E0, E3.
Qed.

(** A year, a full date and the two strings without a date. *)
Example parse_lastfm_date_samples :
  LastFmClient.parse_lastfm_date "1991" = Some "1991-01-01"
  /\ LastFmClient.parse_lastfm_date "24 Sep 1991" = Some "24 Sep 1991"
  /\ LastFmClient.parse_lastfm_date "199x" = Some "199x"
  /\ LastFmClient.parse_lastfm_date "0" = None
  /\ LastFmClient.parse_lastfm_date "" = None.
Proof. repeat split. Qed.

(** ** The reference to the lyrics *)

Section Reference.
Context {R : Runtime}.

(** Where the title, the artist and the link of a metadata result come
    from. *)
Lemma safe_metadata_fields (song_data : PyVal)
    (md : list (string * PyVal)) :
  LyricsMetadataClient._extract_safe_metadata song_data = Ret md ->
  exists title artist url primary_artist,
    get song_data "title" PNone = Ret title
    /\ get song_data "primary_artist" (PDict []) = Ret primary_artist
    /\ get primary_artist "name" PNone = Ret artist
    /\ get song_data "url" PNone = Ret url
    /\ lookup "title" md = Some title
    /\ lookup "artist_name" md = Some artist
    /\ lookup "genius_url" md = Some url.
Proof.
  unfold LyricsMetadataClient._extract_safe_metadata.
  destruct (get song_data "id" PNone) as [genius_id| | |];
    cbn [obind]; try discriminate.
  destruct (get song_data "title" PNone) as [title| | |] eqn:Ht;
    cbn [obind]; try discriminate.
  destruct (get song_data "primary_artist" (PDict []))
    as [primary_artist| | |] eqn:Hpa; cbn [obind]; try discriminate.
  destruct (get primary_artist "name" PNone) as [artist| | |] eqn:Ha;
    cbn [obind]; try discriminate.
  destruct (get song_data "release_date_for_display" PNone)
    as [release_date| | |]; cbn [obind]; try discriminate.
  destruct (get song_data "stats" (PDict [])) as [stats| | |];
    cbn [obind]; try discriminate.
  destruct (get stats "pageviews" PNone) as [page_views| | |];
    cbn [obind]; try discriminate.
  destruct (get song_data "url" PNone) as [url| | |] eqn:Hu;
    cbn [obind]; try discriminate.
  destruct (get song_data "album" PNone) as [has_album| | |];
    cbn [obind]; try discriminate.
  destruct (if truthy has_album then _ else _) as [album| | |];
    cbn [obind]; try discriminate.
  destruct (get song_data "featured_artists" (PList [])) as [fa| | |];
    cbn [obind]; try discriminate.
  destruct (iter fa) as [artists| | |]; cbn [obind]; try discriminate.
  destruct (omap _ artists) as [featured| | |]; cbn [obind];
    try discriminate.
  destruct (LyricsMetadataClient._get_identification_snippet song_data)
    as [[s|]| | |]; cbn [obind]; try discriminate.
  - destruct (negb (s =? "")%string); intros [= <-];
      exists title, artist, url, primary_artist; repeat split; auto.
  - intros [= <-].
    exists title, artist, url, primary_artist; repeat split; auto.
Qed.

End Reference.

(** The reference [create_legal_lyrics_reference] makes of a metadata
    result has eight fixed keys and none for lyrics.  Its title, artist
    and link are those of the song; it says that lyrics are available
    exactly when the song has a link that is not null; and its
    identification help is nothing, or the snippet of the metadata: two
    or three words of the description, or "Canzone: " and the title. *)
Theorem legal_reference_of_safe_metadata {R : Runtime} (song_data : PyVal) :
  match LyricsMetadataClient._extract_safe_metadata song_data with
  | Ret md =>
      let ref := LyricsReference.create_legal_lyrics_reference md in
      map fst ref
      = ["title"; "artist"; "lyrics_available"; "official_lyrics_url";
         "how_to_access"; "legal_notice"; "identification_help";
         "disclaimer"]
      /\ lookup "lyrics" ref = None
      /\ (exists title artist url primary_artist,
            get song_data "title" PNone = Ret title
            /\ get song_data "primary_artist" (PDict []) = Ret primary_artist
            /\ get primary_artist "name" PNone = Ret artist
            /\ get song_data "url" PNone = Ret url
            /\ lookup "title" ref = Some title
            /\ lookup "artist" ref = Some artist
            /\ lookup "official_lyrics_url" ref = Some url
            /\ lookup "lyrics_available" ref
               = Some (PBool (LyricsReference.is_not_none url)))
      /\ (lookup "identification_help" ref = Some PNone
          \/ exists s,
               lookup "identification_help" ref = Some (PStr s)
               /\ snippet_origin song_data s)
  | Raise e => is_Exception e = true
  | Hang | OutOfFuel => False
  end.
Proof.
  pose proof (safe_metadata_cases song_data) as Hcases.
  pose proof (safe_metadata_fields song_data) as Hfields.
  destruct (LyricsMetadataClient._extract_safe_metadata song_data)
    as [md|e| |]; try exact Hcases.
  cbv zeta.
  split; [reflexivity|]. split; [reflexivity|].
  destruct (Hfields md eq_refl)
    as (title & artist & url & pa & Ht & Hpa & Ha & Hu & Lt & La & Lu).
  split.
  { exists title, artist, url, pa.
    unfold LyricsReference.create_legal_lyrics_reference,
      LyricsReference.md_get.
    rewrite Lt, La, Lu. repeat split; auto. }
  unfold LyricsReference.create_legal_lyrics_reference,
    LyricsReference.md_get.
  destruct Hcases as [[_ Hnone]|(s & _ & Hs & _ & _ & Horigin)].
  - rewrite Hnone. now left.
  - rewrite Hs. right. exists s. split; [reflexivity|exact Horigin].
Qed.

(** A song with a description and no link: a snippet, and no lyrics
    available. *)
Example legal_reference_without_link :
  match LyricsMetadataClient._extract_safe_metadata (R := Sample.runtime)
          Sample.song_with_description with
  | Ret md =>
      let ref := LyricsReference.create_legal_lyrics_reference md in
      lookup "lyrics_available" ref = Some (PBool false)
      /\ lookup "official_lyrics_url" ref = Some PNone
      /\ lookup "identification_help" ref
         = Some (PStr "The third single...")
  | _ => False
  end.
Proof. vm_compute. repeat split. Qed.

(** ** The pacing of the lyrics client *)

(** On a clock that a sleep of [d >= 0] seconds advances by at least [d],
    [_rate_limit] returns with a request time that is at least the
    minimum interval after the previous one.  The new request time is the
    clock's reading on return, the interval is unchanged, and when the
    interval has already passed nothing in the world changes. *)
Theorem rate_limit_spaces_requests {R : Runtime}
    (self : LyricsReference.Pacing) (w : World) :
  (forall d w0,
     (0 <= d)%Q -> (time_time w0 + d <= time_time (asyncio_sleep d w0))%Q) ->
  exists self' w',
    LyricsReference._rate_limit (self, w) = (Ret tt, (self', w'))
    /\ (LyricsReference.last_request_time self
        + LyricsReference.min_request_interval self
        <= LyricsReference.last_request_time self')%Q
    /\ LyricsReference.last_request_time self' = time_time w'
    /\ LyricsReference.min_request_interval self'
       = LyricsReference.min_request_interval self
    /\ ((LyricsReference.min_request_interval self
         <= time_time w - LyricsReference.last_request_time self)%Q ->
        w' = w).
Proof.
  intros Hclock. destruct self as [prev interval].
  unfold LyricsReference._rate_limit.
  cbn [LyricsReference.last_request_time
       LyricsReference.min_request_interval].
  destruct (Qltb (time_time w - prev) interval) eqn:E.
  - apply Qltb_lt in E.
    eexists _, _. split; [reflexivity|].
    cbn [LyricsReference.last_request_time
         LyricsReference.min_request_interval].
    repeat split.
    + assert (Hd : (0 <= interval - (time_time w - prev))%Q) by lra.
      pose proof (Hclock _ w Hd). lra.
    + intros H. lra.
  - assert (Hge : (interval <= time_time w - prev)%Q).
    { apply Qnot_lt_le. intros H. apply Qltb_lt in H. congruence. }
    eexists _, _. split; [reflexivity|].
    cbn [LyricsReference.last_request_time
         LyricsReference.min_request_interval].
    repeat split. lra.
Qed.

(** A request at second 10, an interval of one second, and the clock at
    10.4: the call returns at 11. *)
Lemma rate_limit_spaces_requests_witness :
  exists self' w',
    LyricsReference._rate_limit (R := Sample.runtime)
      (LyricsReference.mkPacing 10 1, (104 # 10)%Q)
    = (Ret tt, (self', w'))
    /\ (10 + 1 <= LyricsReference.last_request_time self')%Q
    /\ LyricsReference.last_request_time self'
       = time_time (Runtime := Sample.runtime) w'.
Proof.
  destruct (rate_limit_spaces_requests (R := Sample.runtime)
              (LyricsReference.mkPacing 10 1) (104 # 10)%Q)
    as (self' & w' & Hrun & Hspace & Hlast & _).
  - intros d w0 _. cbn. apply Qle_refl.
  - exists self', w'. split; [exact Hrun|]. split; [exact Hspace|exact Hlast].
Defined.

(** ** The pacing of the Genius client *)

Section GeniusPacing.
Context {R : Runtime}.

Lemma recent_length (now : Q) (times : list Q) :
  (List.length (GeniusClient.recent now times) <= List.length times)%nat.
Proof. apply filter_length_le. Qed.

Lemma recent_app (now : Q) (l l' : list Q) :
  GeniusClient.recent now (l ++ l')
  = (GeniusClient.recent now l ++ GeniusClient.recent now l')%list.
Proof. apply filter_app. Qed.

Lemma recent_one (now t : Q) :
  (List.length (GeniusClient.recent now [t]) <= 1)%nat.
Proof. apply (recent_length now [t]). Qed.

End GeniusPacing.

(** [GeniusClient._rate_limit] on a clock that a sleep of [d >= 0]
    seconds advances by at least [d].  With a positive limit per minute
    and no more recent requests on record than the limit, the call
    returns; the new request is recorded at the clock's reading on
    return, after the recent ones; it comes at least the minimum interval
    after the previous request; and from then on no more than the limit
    of the recorded requests lie within the last sixty seconds, so the
    next call starts as this one did. *)
Theorem genius_rate_limit_keeps_the_minute {R : Runtime}
    (self : GeniusClient.t) (w : World) :
  (forall d w0,
     (0 <= d)%Q -> (time_time w0 + d <= time_time (asyncio_sleep d w0))%Q) ->
  1 <= GeniusClient.requests_per_minute self ->
  Z.of_nat (List.length
              (GeniusClient.recent (time_time w)
                 (GeniusClient.request_times self)))
  <= GeniusClient.requests_per_minute self ->
  exists self' w',
    GeniusClient._rate_limit (self, w) = (Ret tt, (self', w'))
    /\ GeniusClient.request_times self'
       = (GeniusClient.recent (time_time w) (GeniusClient.request_times self)
          ++ [time_time w'])%list
    /\ GeniusClient.last_request_time self' = time_time w'
    /\ GeniusClient.min_request_interval self'
       = GeniusClient.min_request_interval self
    /\ GeniusClient.requests_per_minute self'
       = GeniusClient.requests_per_minute self
    /\ (time_time w <= time_time w')%Q
    /\ (GeniusClient.last_request_time self
        + GeniusClient.min_request_interval self
        <= time_time w')%Q
    /\ (forall now,
          (time_time w' <= now)%Q ->
          Z.of_nat (List.length
                      (GeniusClient.recent now
                         (GeniusClient.request_times self')))
          <= GeniusClient.requests_per_minute self').
Proof.
  intros Hclock Hlimit Hroom.
  destruct self as [prev interval rpm times].
  cbn [GeniusClient.last_request_time GeniusClient.min_request_interval
       GeniusClient.requests_per_minute GeniusClient.request_times] in *.
  unfold GeniusClient._rate_limit.
  cbn [GeniusClient.last_request_time GeniusClient.min_request_interval
       GeniusClient.requests_per_minute GeniusClient.request_times].
  set (c := time_time w) in *.
  set (kept := GeniusClient.recent c times) in *.
  (* the second wait, from any world the first one leaves *)
  assert (Hsecond : forall w1,
            (c <= time_time w1)%Q ->
            let w2 := if Qltb (c - prev) interval
                      then asyncio_sleep (interval - (c - prev))%Q w1
                      else w1 in
            (time_time w1 <= time_time w2)%Q
            /\ (prev + interval <= time_time w2)%Q).
  { intros w1 Hw1. cbv zeta.
    destruct (Qltb (c - prev) interval) eqn:E.
    - apply Qltb_lt in E.
      assert (Hd : (0 <= interval - (c - prev))%Q) by lra.
      pose proof (Hclock _ w1 Hd). split; lra.
    - assert (interval <= c - prev)%Q.
      { apply Qnot_lt_le. intros H. apply Qltb_lt in H. congruence. }
      split; lra. }
  destruct (rpm <=? Z.of_nat (List.length kept)) eqn:Hfull.
  - (* the limit is reached: the oldest recent request is waited out *)
    apply Z.leb_le in Hfull.
    destruct kept as [|t0 rest] eqn:Hkept; [cbn in Hfull; lia|].
    assert (Hin : In t0 (GeniusClient.recent c times))
      by (fold kept; rewrite Hkept; now left).
    apply filter_In in Hin as [_ Ht0]. apply Qltb_lt in Ht0.
    assert (Hpos : Qltb 0 (60 - (c - t0)) = true) by (apply Qltb_lt; lra).
    rewrite Hpos.
    assert (Hd : (0 <= 60 - (c - t0))%Q) by lra.
    pose proof (Hclock _ w Hd) as Hw1. fold c in Hw1.
    set (w1 := asyncio_sleep (60 - (c - t0))%Q w) in *.
    assert (Hc1 : (c <= time_time w1)%Q) by lra.
    destruct (Hsecond w1 Hc1) as [H12 Hspace].
    eexists _, _. split; [reflexivity|].
    cbn [GeniusClient.last_request_time GeniusClient.min_request_interval
         GeniusClient.requests_per_minute GeniusClient.request_times].
    repeat split; try lra; try exact Hspace.
    intros now Hnow.
    rewrite recent_app, length_app.
    change (t0 :: rest) with ([t0] ++ rest)%list.
    rewrite recent_app, length_app.
    assert (Hout : GeniusClient.recent now [t0] = []).
    { unfold GeniusClient.recent. cbn [filter].
      destruct (Qltb (now - t0) 60) eqn:E; [|reflexivity].
      apply Qltb_lt in E. lra. }
    rewrite Hout. cbn [List.length].
    pose proof (recent_length now rest).
    pose proof (recent_one now
                  (time_time (if Qltb (c - prev) interval
                              then asyncio_sleep (interval - (c - prev))%Q w1
                              else w1))).
    cbn [List.length] in Hroom. lia.
  - apply Z.leb_gt in Hfull.
    assert (Hc : (c <= time_time w)%Q) by (subst c; lra).
    destruct (Hsecond w Hc) as [H12 Hspace].
    eexists _, _. split; [reflexivity|].
    cbn [GeniusClient.last_request_time GeniusClient.min_request_interval
         GeniusClient.requests_per_minute GeniusClient.request_times].
    repeat split; try exact H12; try exact Hspace.
    intros now Hnow.
    rewrite recent_app, length_app.
    pose proof (recent_length now kept).
    pose proof (recent_one now
                  (time_time (if Qltb (c - prev) interval
                              then asyncio_sleep (interval - (c - prev))%Q w
                              else w))).
    lia.
Qed.

(** Two requests a minute, two of them on record at 9.8 and 10 seconds,
    the clock at 10.2: the call returns at 70.1 seconds. *)
Lemma genius_rate_limit_keeps_the_minute_witness :
  exists self' w',
    GeniusClient._rate_limit (R := Sample.runtime)
      (GeniusClient.mk 10 (1 # 2) 2 [(98 # 10)%Q; 10%Q], (102 # 10)%Q)
    = (Ret tt, (self', w'))
    /\ (10 + (1 # 2) <= time_time (Runtime := Sample.runtime) w')%Q
    /\ (forall now,
          (time_time (Runtime := Sample.runtime) w' <= now)%Q ->
          Z.of_nat (List.length
                      (GeniusClient.recent now
                         (GeniusClient.request_times self')))
          <= GeniusClient.requests_per_minute self').
Proof.
  destruct (genius_rate_limit_keeps_the_minute (R := Sample.runtime)
              (GeniusClient.mk 10 (1 # 2) 2 [(98 # 10)%Q; 10%Q])
              (102 # 10)%Q)
    as (self' & w' & Hrun & _ & _ & _ & _ & _ & Hspace & Hminute).
  - intros d w0 _. cbn. apply Qle_refl.
  - cbn. lia.
  - vm_compute. discriminate.
  - exists self', w'. split; [exact Hrun|]. split; [exact Hspace|exact Hminute].
Defined.

(** The same call, computed. *)
Example genius_rate_limit_sample :
  match GeniusClient._rate_limit (R := Sample.runtime)
          (GeniusClient.mk 10 (1 # 2) 2 [(98 # 10)%Q; 10%Q], (102 # 10)%Q)
  with
  | (Ret tt, (self', w')) =>
      (w' == 701 # 10)%Q
      /\ List.length (GeniusClient.request_times self') = 3%nat
  | _ => False
  end.
Proof. vm_compute. split; reflexivity. Qed.

(** With no limit per minute and nothing on record the call raises
    [IndexError]. *)
Example genius_rate_limit_without_limit :
  fst (GeniusClient._rate_limit (R := Sample.runtime)
         (GeniusClient.mk 0 (1 # 2) 0 [], 5%Q))
  = Raise index_error.
Proof. reflexivity. Qed.

(** ** The summary of the counters *)

Lemma success_rate_bounds (s : BaseCrawler.Stats) :
  StatsSummary.consistent s ->
  (0 <= StatsSummary.success_rate s <= 1)%Q.
Proof.
  intros (Hs & Hf & Hsum). unfold StatsSummary.success_rate.
  destruct (0 <? BaseCrawler.requests_made s) eqn:Hm;
    [|split; [apply Qle_refl|discriminate]].
  apply Z.ltb_lt in Hm.
  assert (Hpos : (0 < inject_Z (BaseCrawler.requests_made s))%Q)
    by (change 0%Q with (inject_Z 0); now rewrite <- Zlt_Qlt).
  split.
  - apply Qle_shift_div_l; [exact Hpos|].
    rewrite Qmult_0_l. change 0%Q with (inject_Z 0).
    now rewrite <- Zle_Qle.
  - apply Qle_shift_div_r; [exact Hpos|].
    rewrite Qmult_1_l. rewrite <- Zle_Qle. lia.
Qed.

Lemma make_request_consistent {R : Runtime} {A : Type}
    (func : Task.t World A) (self : BaseCrawler.t) (w : World) :
  StatsSummary.consistent (BaseCrawler.stats self) ->
  StatsSummary.consistent
    (BaseCrawler.stats
       (fst (snd (BaseCrawler.make_request func (self, w))))).
Proof.
  unfold StatsSummary.consistent. intros (Hs & Hf & Hsum).
  unfold BaseCrawler.make_request.
  destruct (RateLimiter.acquire (BaseCrawler.rate_limiter self, w))
    as [[u|e| |] [rl w1]]; cbn [fst snd]; try (cbn; lia).
  destruct (RetryManager.execute_with_retry func asyncio_sleep _ w1)
    as [[v|e| |] w2]; cbn [fst snd]; try (cbn; lia).
  destruct (is_Exception e); cbn; lia.
Qed.

(** The counters of a crawler add up, and the success rate of the
    summary is a rate.  A new crawler has consistent counters (no more
    requests ended than made, none negative); [make_request] keeps them
    so however the request ends; and with such counters the success rate
    lies between 0 and 1. *)
Theorem success_rate_is_a_rate {R : Runtime} {A : Type}
    (func : Task.t World A) (self : BaseCrawler.t) (w : World) :
  StatsSummary.consistent (BaseCrawler.stats self) ->
  let after :=
    BaseCrawler.stats (fst (snd (BaseCrawler.make_request func (self, w)))) in
  StatsSummary.consistent after
  /\ (0 <= StatsSummary.success_rate after <= 1)%Q
  /\ (forall limit window retries,
        StatsSummary.consistent
          (BaseCrawler.stats (BaseCrawler.new limit window retries))).
Proof.
  intros H. cbv zeta.
  pose proof (make_request_consistent func self w H) as H'.
  split; [exact H'|]. split; [now apply success_rate_bounds|].
  intros limit window retries. cbn. unfold StatsSummary.consistent. cbn. lia.
Qed.

(** The first request of a new crawler, failing: one request made, one
    failed, a success rate of 0. *)
Lemma success_rate_is_a_rate_witness :
  let after :=
    BaseCrawler.stats
      (fst (snd (BaseCrawler.make_request (R := Sample.runtime)
                   (Task.pure (A := unit) (Raise value_error))
                   (BaseCrawler.new 10 60 0, 0%Q)))) in
  StatsSummary.consistent after
  /\ (0 <= StatsSummary.success_rate after <= 1)%Q.
Proof.
  cbv zeta.
  destruct (success_rate_is_a_rate (R := Sample.runtime)
              (Task.pure (A := unit) (Raise value_error))
              (BaseCrawler.new 10 60 0) 0%Q) as (Hc & Hr & _).
  - unfold StatsSummary.consistent. cbn. lia.
  - split; [exact Hc|exact Hr].
Defined.
